(** * Engine API server of the execution node: a shallow embedding

    The development follows [turbo/engineapi] (the [EngineServer] with its
    status classifier, header reconstruction, builder registry and payload
    body reader) and the consensus-side client
    [cl/phase1/execution_client].  Go values are embedded as follows:

    - [uint64] and hashes are [Z] with the wrap-around written out;
    - byte slices are [list byte];
    - nilable pointers and slices are [option];
    - a Go function returning [(T, error)] returns an [Outcome T], which
      also records a run-time panic and a receive that never completes;
    - the server, the header downloader it points to and the chain store
      are records threaded through the operations. *)

From Stdlib Require Import ZArith List String Lia Bool.
From Stdlib Require Import Init.Byte Strings.Byte.
From stdpp Require Import base option list gmap sorting.

Local Open Scope Z_scope.

(** ** Machine integers *)

Definition two64 : Z := 2 ^ 64.

(** Arithmetic on [uint64] wraps around. *)
Definition wrap64 (z : Z) : Z := z mod two64.
Definition add64 (a b : Z) : Z := wrap64 (a + b).

(** [int64(x)] for [x : uint64]. *)
Definition int64_of_uint64 (z : Z) : Z :=
  if z <? 2 ^ 63 then z else z - two64.

(** [Uint64] of a [big.Int]: the low 64 bits of the absolute value. *)
Definition BigInt_Uint64 (z : Z) : Z := Z.abs z mod two64.

(** [byte(v)]: the low eight bits. *)
Definition byte_of_Z (z : Z) : byte :=
  match Byte.of_N (Z.to_N (z mod 256)) with
  | Some b => b
  | None => x00
  end.

(** [uint64(b)] for [b : byte]. *)
Definition Z_of_byte (b : byte) : Z := Z.of_N (Byte.to_N b).

Global Instance byte_eq_decision : EqDecision byte := Byte.byte_eq_dec.

(** ** Errors and outcomes *)

Definition Hash : Type := Z.
Definition Address : Type := Z.
Definition Bytes : Type := list byte.

(** The zero value [libcommon.Hash{}]. *)
Definition zeroHash : Hash := 0.

Inductive Error : Type :=
  | InvalidParamsError (Message : string)   (* rpc.InvalidParamsError, -32602 *)
  | UnknownPayloadErr                       (* engine_helpers, -38001 *)
  | InvalidPayloadAttributesErr             (* engine_helpers, -38003 *)
  | TooLargeRequestErr                      (* engine_helpers, -38004 *)
  | Errorf (msg : string).                  (* fmt.Errorf and collaborator errors *)

(** [err.Error()] *)
Definition Error_Error (e : Error) : string :=
  match e with
  | InvalidParamsError m => m
  | UnknownPayloadErr => "Unknown payload"
  | InvalidPayloadAttributesErr => "Invalid payload attributes"
  | TooLargeRequestErr => "Too large request"
  | Errorf m => m
  end%string.

(** What a call of a Go function can do: return a value, return an error,
    panic, or wait for ever on a channel. *)
Inductive Outcome (A : Type) : Type :=
  | Return (a : A)
  | Fail (e : Error)
  | Panic
  | Hang.
Arguments Return {A} a.
Arguments Fail {A} e.
Arguments Panic {A}.
Arguments Hang {A}.

Global Instance Outcome_ret : MRet Outcome := @Return.
Global Instance Outcome_bind : MBind Outcome := fun A B f m =>
  match m with
  | Return a => f a
  | Fail e => Fail e
  | Panic => Panic
  | Hang => Hang
  end.

(** ** Payload identifiers on the wire ([encoding/binary], big endian) *)

Module BigEndian.

(** The eight bytes [byte(v >> 56)], ..., [byte(v)]. *)
Definition bytes_of (v : Z) : Bytes :=
  [ byte_of_Z (Z.shiftr v 56); byte_of_Z (Z.shiftr v 48);
    byte_of_Z (Z.shiftr v 40); byte_of_Z (Z.shiftr v 32);
    byte_of_Z (Z.shiftr v 24); byte_of_Z (Z.shiftr v 16);
    byte_of_Z (Z.shiftr v 8);  byte_of_Z v ].

(** [PutUint64(b, v)]: the bounds check [_ = b[7]] panics on a short
    slice; otherwise the first eight bytes of [b] are overwritten. *)
Definition PutUint64 (b : Bytes) (v : Z) : option Bytes :=
  if Z.of_nat (length b) <? 8 then None
  else Some (bytes_of v ++ drop 8 b).

(** [Uint64(b)]: the same bounds check, then
    [uint64(b[7]) | uint64(b[6])<<8 | ... | uint64(b[0])<<56]. *)
Definition Uint64 (b : Bytes) : option Z :=
  match b with
  | b0 :: b1 :: b2 :: b3 :: b4 :: b5 :: b6 :: b7 :: _ =>
      Some (Z.lor (Z_of_byte b7)
           (Z.lor (Z.shiftl (Z_of_byte b6) 8)
           (Z.lor (Z.shiftl (Z_of_byte b5) 16)
           (Z.lor (Z.shiftl (Z_of_byte b4) 24)
           (Z.lor (Z.shiftl (Z_of_byte b3) 32)
           (Z.lor (Z.shiftl (Z_of_byte b2) 40)
           (Z.lor (Z.shiftl (Z_of_byte b1) 48)
                  (Z.shiftl (Z_of_byte b0) 56))))))))
  | _ => None
  end.

End BigEndian.

(** [make([]byte, 8)] followed by [PutUint64]. *)
Definition convertPayloadId (payloadId : Z) : Bytes :=
  default [] (BigEndian.PutUint64 (replicate 8 x00) payloadId).

(** ** Data model *)

(** [clparams.StateVersion]: the consensus forks the versioned methods are
    called with, in activation order. *)
Inductive StateVersion : Type :=
  | BellatrixVersion
  | CapellaVersion
  | DenebVersion.

Definition StateVersion_rank (v : StateVersion) : Z :=
  match v with
  | BellatrixVersion => 2
  | CapellaVersion => 3
  | DenebVersion => 4
  end.

(** [v >= w] on versions. *)
Definition version_ge (v w : StateVersion) : bool :=
  StateVersion_rank w <=? StateVersion_rank v.

Record Withdrawal : Type := mkWithdrawal {
  w_Index : Z;
  w_Validator : Z;
  w_Address : Address;
  w_Amount : Z
}.

Global Instance Withdrawal_eq_decision : EqDecision Withdrawal.
Proof. solve_decision. Defined.

(** [engine_types.EngineStatus] *)
Inductive EngineStatus : Type :=
  | ValidStatus
  | InvalidStatus
  | SyncingStatus
  | AcceptedStatus
  | InvalidBlockHashStatus.

Global Instance EngineStatus_eq_decision : EqDecision EngineStatus.
Proof. solve_decision. Defined.

(** [engine_types.PayloadStatus]; the pointers are options. *)
Record PayloadStatus : Type := mkPayloadStatus {
  ps_Status : EngineStatus;
  ps_LatestValidHash : option Hash;
  ps_ValidationError : option string;
  ps_CriticalError : option Error
}.

Record ForkChoiceState : Type := mkForkChoiceState {
  fcs_HeadHash : Hash;
  fcs_SafeBlockHash : Hash;
  fcs_FinalizedBlockHash : Hash
}.

Record PayloadAttributes : Type := mkPayloadAttributes {
  pa_Timestamp : Z;
  pa_PrevRandao : Hash;
  pa_SuggestedFeeRecipient : Address;
  pa_Withdrawals : option (list Withdrawal)
}.

Record ForkChoiceUpdatedResponse : Type := mkForkChoiceUpdatedResponse {
  fcr_PayloadStatus : PayloadStatus;
  fcr_PayloadId : option Bytes
}.

(** The wire envelope of a block. *)
Record ExecutionPayload : Type := mkExecutionPayload {
  ep_ParentHash : Hash;
  ep_FeeRecipient : Address;
  ep_StateRoot : Hash;
  ep_ReceiptsRoot : Hash;
  ep_LogsBloom : Bytes;
  ep_PrevRandao : Hash;
  ep_BlockNumber : Z;
  ep_GasLimit : Z;
  ep_GasUsed : Z;
  ep_Timestamp : Z;
  ep_ExtraData : Bytes;
  ep_BaseFeePerGas : option Z;
  ep_BlockHash : Hash;
  ep_Transactions : list Bytes;
  ep_Withdrawals : option (list Withdrawal);
  ep_DataGasUsed : option Z;
  ep_ExcessDataGas : option Z
}.

(** [types.Header], with the fields the server reads or writes. *)
Record Header : Type := mkHeader {
  h_ParentHash : Hash;
  h_UncleHash : Hash;
  h_Coinbase : Address;
  h_Root : Hash;
  h_TxHash : Hash;
  h_ReceiptHash : Hash;
  h_Bloom : Bytes;
  h_Difficulty : Z;
  h_Number : Z;
  h_GasLimit : Z;
  h_GasUsed : Z;
  h_Time : Z;
  h_Extra : Bytes;
  h_MixDigest : Hash;
  h_Nonce : Z;
  h_BaseFee : option Z;
  h_WithdrawalsHash : option Hash;
  h_DataGasUsed : option Z;
  h_ExcessDataGas : option Z
}.

(** The side car of a blob transaction. *)
Record BlobTxWrapper : Type := mkBlobTxWrapper {
  btw_DataHashes : list Hash;
  btw_Commitments : list Bytes;
  btw_Proofs : list Bytes;
  btw_Blobs : list Bytes
}.

(** [types.Transaction] is an interface; a transaction is the record of the
    methods the server calls on it. *)
Record Transaction : Type := mkTransaction {
  tx_Type : Z;
  tx_MarshalBinary : Outcome Bytes;
  tx_GetEffectiveGasTip : Z -> Z;
  tx_Wrapper : option BlobTxWrapper
}.

Definition BlobTxType : Z := 3.

Record Block : Type := mkBlock {
  blk_hash : Hash;                      (* the cached hash, [block.Hash()] *)
  blk_header : Header;
  blk_transactions : list Transaction;
  blk_withdrawals : option (list Withdrawal)
}.

(** [types.NewBlockFromStorage(hash, header, txs, uncles, withdrawals)] *)
Definition NewBlockFromStorage (hash : Hash) (header : Header)
    (txs : list Transaction) (withdrawals : option (list Withdrawal)) : Block :=
  mkBlock hash header txs withdrawals.

Record BlockWithReceipts : Type := mkBlockWithReceipts {
  bwr_Block : Block;
  bwr_Receipts : list Z                  (* [GasUsed] of each receipt *)
}.

(** [core.BlockBuilderParameters] *)
Record BlockBuilderParameters : Type := mkBlockBuilderParameters {
  bp_ParentHash : Hash;
  bp_Timestamp : Z;
  bp_PrevRandao : Hash;
  bp_SuggestedFeeRecipient : Address;
  bp_PayloadId : Z;
  bp_Withdrawals : option (list Withdrawal)
}.

(** [reflect.DeepEqual] on two parameter records (and on the pointers to
    them) is structural equality: a nil withdrawals slice differs from an
    empty one, as [None] differs from [Some []]. *)
Global Instance BlockBuilderParameters_eq_decision :
  EqDecision BlockBuilderParameters.
Proof. solve_decision. Defined.

(** [builder.BlockBuilderFunc]: what building with these parameters yields
    when the builder is stopped. *)
Definition BlockBuilderFunc : Type :=
  BlockBuilderParameters -> Outcome BlockWithReceipts.

(** [builder.BlockBuilder]: carries its parameters; [Stop] samples the
    result. *)
Record BlockBuilder : Type := mkBlockBuilder {
  bb_param : BlockBuilderParameters;
  bb_Stop : Outcome BlockWithReceipts
}.

Definition NewBlockBuilder (build : BlockBuilderFunc)
    (param : BlockBuilderParameters) : BlockBuilder :=
  mkBlockBuilder param (build param).

(** ** Collaborators *)

(** A read-only transaction on the chain store ([rawdb] readers and the
    block reader), as the values it yields. *)
Record Tx : Type := mkTx {
  ReadForkchoiceHead : Hash;
  ReadForkchoiceSafe : Hash;
  ReadForkchoiceFinalized : Hash;
  ReadHeaderByHash : Hash -> Outcome (option Header);
  ReadTdByHash : Hash -> Outcome (option Z);
  ReadHeadBlockHash : Hash;
  ReadHeaderNumber : Hash -> option Z;
  ReadHeader : Hash -> Z -> option Header;
  ReadCanonicalHash : Z -> Outcome Hash;
  CanonicalHash : Z -> Outcome Hash;
  BlockByHash : Hash -> Outcome (option Block);
  BlockWithSenders : Hash -> Z -> Outcome (option Block)
}.

(** [chain.Config] *)
Record ChainConfig : Type := mkChainConfig {
  TerminalTotalDifficulty : option Z;
  IsShanghai : Z -> bool;
  IsCancun : Z -> bool
}.

(** What the importer is asked to do. *)
Inductive BeaconRequest : Type :=
  | PayloadRequest (block : Block)
  | ForkChoiceRequest (forkChoice : ForkChoiceState).

Inductive SyncStatus : Type := Idle | Syncing | Synced.

Global Instance SyncStatus_eq_decision : EqDecision SyncStatus.
Proof. solve_decision. Defined.

(** The answer of [BeaconRequestList.WaitForWaiting] within the deadline
    the caller sets. *)
Inductive WaitResult : Type :=
  | AlreadyWaiting          (* second result [true] *)
  | WaitingInTime           (* the channel fires before the deadline *)
  | DeadlineExceeded.       (* the context is done first *)

(** [headerdownload.HeaderDownload], as far as the server uses it.  The
    reply channel is the list of statuses the importer will send. *)
Record HeaderDownload : Type := mkHeaderDownload {
  hd_POSSync : bool;
  hd_PosStatus : SyncStatus;
  hd_badHeaders : gmap Z Hash;
  hd_BeaconRequestList : list BeaconRequest;
  hd_WaitForWaiting : WaitResult;
  hd_PayloadStatusCh : list PayloadStatus
}.

(** [hd.IsBadHeaderPoS(hash)] *)
Definition IsBadHeaderPoS (hd : HeaderDownload) (hash : Hash) : bool * Hash :=
  match hd_badHeaders hd !! hash with
  | Some lastValidHash => (true, lastValidHash)
  | None => (false, zeroHash)
  end.

Definition set_badHeaders (hd : HeaderDownload) (m : gmap Z Hash) : HeaderDownload :=
  mkHeaderDownload (hd_POSSync hd) (hd_PosStatus hd) m
    (hd_BeaconRequestList hd) (hd_WaitForWaiting hd) (hd_PayloadStatusCh hd).

(** [hd.ReportBadHeaderPoS(hash, lastValidAncestor)] *)
Definition ReportBadHeaderPoS (hd : HeaderDownload) (hash lastValid : Hash) : HeaderDownload :=
  set_badHeaders hd (<[hash := lastValid]> (hd_badHeaders hd)).

(** [hd.BeaconRequestList.AddPayloadRequest] and [AddForkChoiceRequest]
    append to the queue. *)
Definition AddRequest (hd : HeaderDownload) (r : BeaconRequest) : HeaderDownload :=
  mkHeaderDownload (hd_POSSync hd) (hd_PosStatus hd) (hd_badHeaders hd)
    (hd_BeaconRequestList hd ++ [r]) (hd_WaitForWaiting hd) (hd_PayloadStatusCh hd).

(** [<-hd.PayloadStatusCh]: the next status, when the importer sends one. *)
Definition ReceiveStatus (hd : HeaderDownload) : option (PayloadStatus * HeaderDownload) :=
  match hd_PayloadStatusCh hd with
  | [] => None
  | st :: rest =>
      Some (st, mkHeaderDownload (hd_POSSync hd) (hd_PosStatus hd) (hd_badHeaders hd)
                  (hd_BeaconRequestList hd) (hd_WaitForWaiting hd) rest)
  end.

(** Hashing and transaction decoding, which live in [core/types]. *)
Class Externals : Type := {
  Header_Hash : Header -> Hash;
  DeriveSha_Transactions : list Bytes -> Hash;
  DeriveSha_Withdrawals : list Withdrawal -> Hash;
  TypedTransactionMarshalledAsRlpString : Bytes -> bool;
  DecodeTransactions : list Bytes -> Outcome (list Transaction)
}.

(** [types.EmptyUncleHash], [merge.ProofOfStakeDifficulty] and
    [merge.ProofOfStakeNonce]. *)
Definition EmptyUncleHash : Hash :=
  0x1dcc4de8dec75d7aab85b567b6ccd41ad312451b948a7413f0a142fd40d49347.
Definition ProofOfStakeDifficulty : Z := 0.
Definition ProofOfStakeNonce : Z := 0.

(** Modelled from the spec: [engine_helpers.MaxBuilders] is declared
    outside the sources at hand; the spec gives 128 for it. *)
Definition MaxBuilders : Z := 128.

(** ** The server *)

Record EngineServer : Type := mkEngineServer {
  hd : option HeaderDownload;
  config : ChainConfig;
  payloadId : Z;
  lastParameters : option BlockBuilderParameters;
  builders : gmap Z BlockBuilder;
  builderFunc : BlockBuilderFunc;
  proposing : bool;
  db_BeginRo : Outcome Tx
}.

(** [NewEngineServer]: no builder, counter zero, no last parameters. *)
Definition NewEngineServer (config : ChainConfig) (builderFunc : BlockBuilderFunc)
    (db : Outcome Tx) (hd : option HeaderDownload) (proposing : bool) : EngineServer :=
  mkEngineServer hd config 0 None ∅ builderFunc proposing db.

Definition set_hd (s : EngineServer) (h : HeaderDownload) : EngineServer :=
  mkEngineServer (Some h) (config s) (payloadId s) (lastParameters s)
    (builders s) (builderFunc s) (proposing s) (db_BeginRo s).

(** Sequencing of a fallible read inside an operation that also returns the
    server: any outcome other than a value ends the operation. *)
Definition andThen {A B S : Type} (m : Outcome A) (s : S)
    (k : A -> Outcome B * S) : Outcome B * S :=
  match m with
  | Return a => k a
  | Fail e => (Fail e, s)
  | Panic => (Panic, s)
  | Hang => (Hang, s)
  end.

Notation "'try' x <- m 'orRet' s ; k" := (andThen m s (fun x => k))
  (at level 10, x name, m at level 100, s at level 9, k at level 200).

Definition isSome {A : Type} (o : option A) : bool :=
  match o with Some _ => true | None => false end.

Section Server.
Context `{Externals}.

Local Open Scope string_scope.

(** [stageLoopIsBusy]: busy exactly when the one-second context is done
    before the request list starts waiting. *)
Definition stageLoopIsBusy (h : HeaderDownload) : bool :=
  match hd_WaitForWaiting h with
  | AlreadyWaiting => false
  | WaitingInTime => false
  | DeadlineExceeded => true
  end.

Definition checkWithdrawalsPresence (s : EngineServer) (time : Z)
    (withdrawals : option (list Withdrawal)) : option Error :=
  if negb (IsShanghai (config s) time) && isSome withdrawals then
    Some (InvalidParamsError "withdrawals before shanghai")
  else if IsShanghai (config s) time && negb (isSome withdrawals) then
    Some (InvalidParamsError "missing withdrawals list")
  else None.

Definition status_only (st : EngineStatus) : PayloadStatus :=
  mkPayloadStatus st None None None.

(** [getQuickPayloadStatusIfPossible]: a status when one can be given
    without the importer, [None] for "no decision". *)
Definition getQuickPayloadStatusIfPossible (s : EngineServer)
    (blockHash : Hash) (blockNumber : Z) (parentHash : Hash)
    (forkchoiceMessage : option ForkChoiceState) (newPayload : bool)
    : Outcome (option PayloadStatus) * EngineServer :=
  match TerminalTotalDifficulty (config s) with
  | None => (Fail (Errorf "not a proof-of-stake chain"), s)
  | Some ttd =>
  match hd s with
  | None => (Fail (Errorf "headerdownload is nil"), s)
  | Some h =>
  try tx <- db_BeginRo s orRet s;
  if match forkchoiceMessage with
     | Some m =>
         bool_decide (fcs_FinalizedBlockHash m = ReadForkchoiceFinalized tx)
         && bool_decide (fcs_HeadHash m = ReadForkchoiceHead tx)
         && bool_decide (fcs_SafeBlockHash m = ReadForkchoiceSafe tx)
     | None => false
     end
  then (Return (Some (mkPayloadStatus ValidStatus (Some blockHash) None None)), s)
  else
  try header <- ReadHeaderByHash tx blockHash orRet s;
  (* Retrieve parent and total difficulty. *)
  try ptd <- (if newPayload then
                parent ← ReadHeaderByHash tx parentHash;
                td ← ReadTdByHash tx parentHash;
                Return (parent, td)
              else
                td ← ReadTdByHash tx blockHash;
                Return (None, td)) orRet s;
  let parent : option Header := ptd.1 in
  let td : option Z := ptd.2 in
  if match td with Some t => (t <? ttd)%Z | None => false end then
    (Return (Some (mkPayloadStatus InvalidStatus (Some zeroHash) None None)), s)
  else if negb (hd_POSSync h) then
    (Return (Some (status_only SyncingStatus)), s)
  else
  try canonicalHash <- (match header with
                        | Some hdr => CanonicalHash tx (BigInt_Uint64 (h_Number hdr))
                        | None => Return zeroHash
                        end) orRet s;
  let wrongNumber : option Header :=
    match (if newPayload then parent else None) with
    | Some p =>
        if negb (bool_decide (blockNumber = add64 (BigInt_Uint64 (h_Number p)) 1))
        then Some p else None
    | None => None
    end in
  match wrongNumber with
  | Some p =>
      let parentHash' := Header_Hash p in
      (Return (Some (mkPayloadStatus InvalidStatus (Some parentHash')
                       (Some "invalid block number") None)),
       set_hd s (ReportBadHeaderPoS h blockHash parentHash'))
  | None =>
  (* Was the hash, or the parent's, attributed to an invalid header? *)
  let '(bad, lastValidHash) :=
    let '(bad, lastValidHash) := IsBadHeaderPoS h blockHash in
    if bad then (bad, lastValidHash)
    else if newPayload then IsBadHeaderPoS h parentHash
    else (bad, lastValidHash) in
  if bad then
    (Return (Some (mkPayloadStatus InvalidStatus (Some lastValidHash) None None)),
     set_hd s (ReportBadHeaderPoS h blockHash lastValidHash))
  else
  let busyOrDefer : Outcome (option PayloadStatus) * EngineServer :=
    if stageLoopIsBusy h then (Return (Some (status_only SyncingStatus)), s)
    else (Return None, s) in
  if newPayload then
    if isSome header && bool_decide (canonicalHash = blockHash) then
      (Return (Some (mkPayloadStatus ValidStatus (Some blockHash) None None)), s)
    else if negb (isSome parent) && negb (bool_decide (hd_PosStatus h = Idle)) then
      (Return (Some (status_only SyncingStatus)), s)
    else busyOrDefer
  else
    if negb (isSome header) && negb (bool_decide (hd_PosStatus h = Idle)) then
      (Return (Some (status_only SyncingStatus)), s)
    else
      let headHash := ReadHeadBlockHash tx in
      if negb (bool_decide (blockHash = headHash))
         && bool_decide (canonicalHash = blockHash) then
        (Return (Some (mkPayloadStatus ValidStatus (Some blockHash) None None)), s)
      else busyOrDefer
  end
  end
  end.

(** [copy(bloom[:], req.LogsBloom)] into a zeroed array of 256 bytes. *)
Definition copyBloom (logsBloom : Bytes) : Bytes :=
  (take 256 logsBloom ++ replicate (256 - length logsBloom)%nat x00)%list.

(** The header that [newPayload] rebuilds from the envelope. *)
Definition payloadHeader (req : ExecutionPayload) (version : StateVersion) : Header :=
  let withdrawals :=
    if version_ge version CapellaVersion then ep_Withdrawals req else None in
  {| h_ParentHash := ep_ParentHash req;
     h_Coinbase := ep_FeeRecipient req;
     h_Root := ep_StateRoot req;
     h_Bloom := copyBloom (ep_LogsBloom req);
     h_BaseFee := ep_BaseFeePerGas req;
     h_Extra := ep_ExtraData req;
     h_Number := int64_of_uint64 (ep_BlockNumber req);
     h_GasUsed := ep_GasUsed req;
     h_GasLimit := ep_GasLimit req;
     h_Time := ep_Timestamp req;
     h_MixDigest := ep_PrevRandao req;
     h_UncleHash := EmptyUncleHash;
     h_Difficulty := ProofOfStakeDifficulty;
     h_Nonce := ProofOfStakeNonce;
     h_ReceiptHash := ep_ReceiptsRoot req;
     h_TxHash := DeriveSha_Transactions (ep_Transactions req);
     h_WithdrawalsHash := DeriveSha_Withdrawals <$> withdrawals;
     h_DataGasUsed :=
       if version_ge version DenebVersion then ep_DataGasUsed req else None;
     h_ExcessDataGas :=
       if version_ge version DenebVersion then ep_ExcessDataGas req else None |}.

(** [newPayload]: validates the envelope and, unless the classifier
    decides, hands the block to the importer and waits for its reply. *)
Definition newPayload (s : EngineServer) (req : ExecutionPayload)
    (version : StateVersion) : Outcome PayloadStatus * EngineServer :=
  let txs := ep_Transactions req in
  let header := payloadHeader req version in
  let withdrawals :=
    if version_ge version CapellaVersion then ep_Withdrawals req else None in
  match checkWithdrawalsPresence s (h_Time header) withdrawals with
  | Some err => (Fail err, s)
  | None =>
  if negb (IsCancun (config s) (h_Time header))
     && (isSome (h_DataGasUsed header) || isSome (h_ExcessDataGas header)) then
    (Fail (InvalidParamsError "dataGasUsed/excessDataGas present before Cancun"), s)
  else if IsCancun (config s) (h_Time header)
     && (negb (isSome (h_DataGasUsed header))
         || negb (isSome (h_ExcessDataGas header))) then
    (Fail (InvalidParamsError "dataGasUsed/excessDataGas missing"), s)
  else
  let blockHash := ep_BlockHash req in
  if negb (bool_decide (Header_Hash header = blockHash)) then
    (Return (mkPayloadStatus InvalidStatus None (Some "invalid block hash") None), s)
  else if existsb TypedTransactionMarshalledAsRlpString (ep_Transactions req) then
    (Return (mkPayloadStatus InvalidStatus None
               (Some "typed txn marshalled as RLP string") None), s)
  else
  match DecodeTransactions txs with
  | Fail err =>
      (Return (mkPayloadStatus InvalidStatus None (Some (Error_Error err)) None), s)
  | Panic => (Panic, s)
  | Hang => (Hang, s)
  | Return transactions =>
  let block := NewBlockFromStorage blockHash header transactions withdrawals in
  let '(possibleStatus, s) :=
    getQuickPayloadStatusIfPossible s blockHash (ep_BlockNumber req)
      (h_ParentHash header) None true in
  try possibleStatus <- possibleStatus orRet s;
  match possibleStatus with
  | Some st => (Return st, s)
  | None =>
  match hd s with
  | None => (Panic, s)
  | Some h =>
  let h := AddRequest h (PayloadRequest block) in
  match ReceiveStatus h with
  | None => (Hang, set_hd s h)
  | Some (payloadStatus, h) =>
      match ps_CriticalError payloadStatus with
      | Some err => (Fail err, set_hd s h)
      | None => (Return payloadStatus, set_hd s h)
      end
  end
  end
  end
  end
  end.

(** [common.SortedKeys] is outside the sources at hand.
    Modelled from the spec: the keys of the registry in ascending numeric
    order (oldest ids first by numeric order). *)
Definition SortedKeys (m : gmap Z BlockBuilder) : list Z :=
  merge_sort Z.le ((map_to_list m).*1).

(** The loop of [evictOldBuilders]: [len(s.builders)] is read again at
    every test, and [ids[i]] panics past the end of [ids]. *)
Fixpoint evictLoop (ids : list Z) (i : Z) (b : gmap Z BlockBuilder)
    : option (gmap Z BlockBuilder) :=
  if (i <=? Z.of_nat (size b) - MaxBuilders)%Z then
    match ids with
    | [] => None
    | id :: ids' => evictLoop ids' (i + 1)%Z (delete id b)
    end
  else Some b.

Definition set_builders (s : EngineServer) (b : gmap Z BlockBuilder) : EngineServer :=
  mkEngineServer (hd s) (config s) (payloadId s) (lastParameters s) b
    (builderFunc s) (proposing s) (db_BeginRo s).

(** [evictOldBuilders]; [None] is the index panic. *)
Definition evictOldBuilders (s : EngineServer) : option EngineServer :=
  set_builders s <$> evictLoop (SortedKeys (builders s)) 0 (builders s).

Definition notProposerMsg : string :=
  "execution layer not running as a proposer. enable proposer by taking out the --proposer.disable flag on startup".

(** [forkchoiceUpdated]: states the new head and, with attributes on the
    canonical head, starts (or finds) a builder. *)
Definition forkchoiceUpdated (s : EngineServer) (forkchoiceState : ForkChoiceState)
    (payloadAttributes : option PayloadAttributes) (version : StateVersion)
    : Outcome ForkChoiceUpdatedResponse * EngineServer :=
  let forkChoice :=
    mkForkChoiceState (fcs_HeadHash forkchoiceState)
      (fcs_SafeBlockHash forkchoiceState)
      (fcs_FinalizedBlockHash forkchoiceState) in
  let '(status, s) :=
    getQuickPayloadStatusIfPossible s (fcs_HeadHash forkChoice) 0 zeroHash
      (Some forkChoice) false in
  try status <- status orRet s;
  let '(status, s) :=
    match status with
    | Some st => (Return st, s)
    | None =>
        match hd s with
        | None => (Panic, s)
        | Some h =>
            let h := AddRequest h (ForkChoiceRequest forkChoice) in
            match ReceiveStatus h with
            | None => (Hang, set_hd s h)
            | Some (st, h) =>
                match ps_CriticalError st with
                | Some err => (Fail err, set_hd s h)
                | None => (Return st, set_hd s h)
                end
            end
        end
    end in
  try status <- status orRet s;
  (* No need for payload building *)
  match payloadAttributes with
  | None => (Return (mkForkChoiceUpdatedResponse status None), s)
  | Some attrs =>
  if negb (bool_decide (ps_Status status = ValidStatus)) then
    (Return (mkForkChoiceUpdatedResponse status None), s)
  else if negb (proposing s) then (Fail (Errorf notProposerMsg), s)
  else
  try tx2 <- db_BeginRo s orRet s;
  let headHash := ReadHeadBlockHash tx2 in
  match ReadHeaderNumber tx2 headHash with
  | None => (Panic, s)
  | Some headNumber =>
  match ReadHeader tx2 headHash headNumber with
  | None => (Panic, s)
  | Some headHeader =>
  if negb (bool_decide (Header_Hash headHeader = fcs_HeadHash forkChoice)) then
    (Return (mkForkChoiceUpdatedResponse status None), s)
  else if (pa_Timestamp attrs <=? h_Time headHeader)%Z then
    (Fail InvalidPayloadAttributesErr, s)
  else
  let param :=
    {| bp_ParentHash := fcs_HeadHash forkChoice;
       bp_Timestamp := pa_Timestamp attrs;
       bp_PrevRandao := pa_PrevRandao attrs;
       bp_SuggestedFeeRecipient := pa_SuggestedFeeRecipient attrs;
       bp_PayloadId := payloadId s;
       bp_Withdrawals :=
         if version_ge version CapellaVersion then pa_Withdrawals attrs else None |} in
  match checkWithdrawalsPresence s (pa_Timestamp attrs) (bp_Withdrawals param) with
  | Some err => (Fail err, s)
  | None =>
  (* First check if we're already building a block with the requested parameters *)
  if bool_decide (lastParameters s = Some param) then
    (Return (mkForkChoiceUpdatedResponse
               (mkPayloadStatus ValidStatus (Some headHash) None None)
               (Some (convertPayloadId (payloadId s)))), s)
  else
  (* Initiate payload building *)
  match evictOldBuilders s with
  | None => (Panic, s)
  | Some s =>
  let id := add64 (payloadId s) 1 in
  let param :=
    {| bp_ParentHash := bp_ParentHash param;
       bp_Timestamp := bp_Timestamp param;
       bp_PrevRandao := bp_PrevRandao param;
       bp_SuggestedFeeRecipient := bp_SuggestedFeeRecipient param;
       bp_PayloadId := id;
       bp_Withdrawals := bp_Withdrawals param |} in
  let s :=
    mkEngineServer (hd s) (config s) id (Some param)
      (<[id := NewBlockBuilder (builderFunc s) param]> (builders s))
      (builderFunc s) (proposing s) (db_BeginRo s) in
  (Return (mkForkChoiceUpdatedResponse
             (mkPayloadStatus ValidStatus (Some headHash) None None)
             (Some (convertPayloadId (payloadId s)))), s)
  end
  end
  end
  end
  end.

(** *** Retrieving an assembled payload *)

Record BlobsBundleV1 : Type := mkBlobsBundleV1 {
  bundle_Commitments : list Bytes;
  bundle_Proofs : list Bytes;
  bundle_Blobs : list Bytes
}.

Record GetPayloadResponse : Type := mkGetPayloadResponse {
  gpr_ExecutionPayload : ExecutionPayload;
  gpr_BlockValue : Z;
  gpr_BlobsBundle : BlobsBundleV1
}.

Definition two256 : Z := (2 ^ 256)%Z.

(** The loop of [blockValue] from index [i] on, in [uint256] arithmetic;
    [br.Receipts[i]] panics when the receipt is missing. *)
Fixpoint blockValueFrom (txs : list Transaction) (i : nat) (receipts : list Z)
    (baseFee : Z) (blockValue : Z) : Outcome Z :=
  match txs with
  | [] => Return blockValue
  | tx :: txs' =>
      match receipts !! i with
      | None => Panic
      | Some gas =>
          let effectiveTip := tx_GetEffectiveGasTip tx baseFee in
          let txValue := ((gas * effectiveTip) mod two256)%Z in
          blockValueFrom txs' (S i) receipts baseFee
            ((blockValue + txValue) mod two256)%Z
      end
  end.

Definition blockValue (br : BlockWithReceipts) (baseFee : Z) : Outcome Z :=
  blockValueFrom (blk_transactions (bwr_Block br)) 0 (bwr_Receipts br) baseFee 0.

(** Binary encoding of each transaction in turn; the first failure ends
    it ([types.MarshalTransactionsBinary], and the loop of
    [extractPayloadBodyFromBlock]). *)
Fixpoint MarshalTransactionsBinary (txs : list Transaction) : Outcome (list Bytes) :=
  match txs with
  | [] => Return []
  | tx :: txs' =>
      b ← tx_MarshalBinary tx;
      bs ← MarshalTransactionsBinary txs';
      Return (b :: bs)
  end.

(** The blob loop of [getPayload].  The two error messages are cut short:
    the source also prints the transaction index, the block hash and the
    four lengths. *)
Fixpoint collectBlobs (txs : list Transaction) (bundle : BlobsBundleV1)
    : Outcome BlobsBundleV1 :=
  match txs with
  | [] => Return bundle
  | tx :: txs' =>
      if negb (bool_decide (tx_Type tx = BlobTxType)) then collectBlobs txs' bundle
      else
        match tx_Wrapper tx with
        | None => Fail (Errorf "expected blob transaction to be type BlobTxWrapper")
        | Some blobTx =>
            let lenCheck := length (btw_DataHashes blobTx) in
            if negb (bool_decide (lenCheck = length (btw_Commitments blobTx)))
               || negb (bool_decide (lenCheck = length (btw_Proofs blobTx)))
               || negb (bool_decide (lenCheck = length (btw_Blobs blobTx)))
            then Fail (Errorf "tx in block has inconsistent commitments / proofs / blobs / versioned hashes")
            else
              collectBlobs txs'
                (mkBlobsBundleV1
                   (bundle_Commitments bundle ++ btw_Commitments blobTx)%list
                   (bundle_Proofs bundle ++ btw_Proofs blobTx)%list
                   (bundle_Blobs bundle ++ btw_Blobs blobTx)%list)
        end
  end.

(** [getPayload]: stops the builder registered under the id and turns its
    block into the response envelope. *)
Definition getPayload (s : EngineServer) (payloadId : Z) : Outcome GetPayloadResponse :=
  if negb (proposing s) then Fail (Errorf notProposerMsg)
  else
  match TerminalTotalDifficulty (config s) with
  | None => Fail (Errorf "not a proof-of-stake chain")
  | Some _ =>
  match builders s !! payloadId with
  | None => Fail UnknownPayloadErr
  | Some builder =>
      blockWithReceipts ← bb_Stop builder;
      let block := bwr_Block blockWithReceipts in
      let header := blk_header block in
      baseFee ← match h_BaseFee header with
                | Some b => Return (b mod two256)%Z
                | None => Panic
                end;
      txs ← MarshalTransactionsBinary (blk_transactions block);
      let bothGas := isSome (h_DataGasUsed header) && isSome (h_ExcessDataGas header) in
      let payload :=
        {| ep_ParentHash := h_ParentHash header;
           ep_FeeRecipient := h_Coinbase header;
           ep_Timestamp := h_Time header;
           ep_PrevRandao := h_MixDigest header;
           ep_StateRoot := h_Root header;
           ep_ReceiptsRoot := h_ReceiptHash header;
           ep_LogsBloom := h_Bloom header;
           ep_GasLimit := h_GasLimit header;
           ep_GasUsed := h_GasUsed header;
           ep_BlockNumber := BigInt_Uint64 (h_Number header);
           ep_ExtraData := h_Extra header;
           ep_BaseFeePerGas := h_BaseFee header;
           ep_BlockHash := blk_hash block;
           ep_Transactions := txs;
           ep_Withdrawals := blk_withdrawals block;
           ep_DataGasUsed := if bothGas then h_DataGasUsed header else None;
           ep_ExcessDataGas := if bothGas then h_ExcessDataGas header else None |} in
      value ← blockValue blockWithReceipts baseFee;
      blobsBundle ← collectBlobs (blk_transactions block) (mkBlobsBundleV1 [] [] []);
      Return (mkGetPayloadResponse payload value blobsBundle)
  end
  end.

(** The versioned entry points read the identifier with
    [binary.BigEndian.Uint64] and no length check of their own. *)
Definition GetPayloadV1 (e : EngineServer) (payloadId : Bytes) : Outcome ExecutionPayload :=
  match BigEndian.Uint64 payloadId with
  | None => Panic
  | Some decodedPayloadId =>
      response ← getPayload e decodedPayloadId;
      Return (gpr_ExecutionPayload response)
  end.

Definition GetPayloadV2 (e : EngineServer) (payloadID : Bytes) : Outcome GetPayloadResponse :=
  match BigEndian.Uint64 payloadID with
  | None => Panic
  | Some decodedPayloadId => getPayload e decodedPayloadId
  end.

Definition GetPayloadV3 (e : EngineServer) (payloadID : Bytes) : Outcome GetPayloadResponse :=
  match BigEndian.Uint64 payloadID with
  | None => Panic
  | Some decodedPayloadId => getPayload e decodedPayloadId
  end.

Definition ForkchoiceUpdatedV1 (e : EngineServer) (forkChoiceState : ForkChoiceState)
    (payloadAttributes : option PayloadAttributes) :=
  forkchoiceUpdated e forkChoiceState payloadAttributes BellatrixVersion.

Definition ForkchoiceUpdatedV2 (e : EngineServer) (forkChoiceState : ForkChoiceState)
    (payloadAttributes : option PayloadAttributes) :=
  forkchoiceUpdated e forkChoiceState payloadAttributes CapellaVersion.

Definition NewPayloadV1 (e : EngineServer) (payload : ExecutionPayload) :=
  newPayload e payload BellatrixVersion.

Definition NewPayloadV2 (e : EngineServer) (payload : ExecutionPayload) :=
  newPayload e payload CapellaVersion.

Definition NewPayloadV3 (e : EngineServer) (payload : ExecutionPayload) :=
  newPayload e payload DenebVersion.

(** *** Payload bodies *)

Record ExecutionPayloadBodyV1 : Type := mkExecutionPayloadBodyV1 {
  body_Transactions : list Bytes;
  body_Withdrawals : option (list Withdrawal)
}.

(** A missing block gives a nil body and no error. *)
Definition extractPayloadBodyFromBlock (block : option Block)
    : Outcome (option ExecutionPayloadBodyV1) :=
  match block with
  | None => Return None
  | Some block =>
      bdTxs ← MarshalTransactionsBinary (blk_transactions block);
      Return (Some (mkExecutionPayloadBodyV1 bdTxs (blk_withdrawals block)))
  end.

(** The loop of [getPayloadBodiesByHash], filling the slots in order. *)
Fixpoint bodiesByHashLoop (tx : Tx) (request : list Hash)
    : Outcome (list (option ExecutionPayloadBodyV1)) :=
  match request with
  | [] => Return []
  | hash :: request' =>
      block ← BlockByHash tx hash;
      body ← extractPayloadBodyFromBlock block;
      bodies ← bodiesByHashLoop tx request';
      Return (body :: bodies)
  end.

Definition getPayloadBodiesByHash (s : EngineServer) (request : list Hash)
    : Outcome (list (option ExecutionPayloadBodyV1)) :=
  tx ← db_BeginRo s;
  bodiesByHashLoop tx request.

(** The loop of [getPayloadBodiesByRange] with [left] rounds to go, the
    counter at [i] and the bodies appended so far. *)
Fixpoint bodiesByRangeLoop (tx : Tx) (start : Z) (left : nat) (i : Z)
    (bodies : list (option ExecutionPayloadBodyV1))
    : Outcome (list (option ExecutionPayloadBodyV1)) :=
  match left with
  | O => Return bodies
  | S left' =>
      hash ← ReadCanonicalHash tx (add64 start i);
      if bool_decide (hash = zeroHash) then
        (* break early if beyond the last known canonical header *)
        Return bodies
      else
        block ← BlockWithSenders tx hash (add64 start i);
        body ← extractPayloadBodyFromBlock block;
        bodiesByRangeLoop tx start left' (i + 1)%Z (bodies ++ [body])%list
  end.

Definition getPayloadBodiesByRange (s : EngineServer) (start count : Z)
    : Outcome (list (option ExecutionPayloadBodyV1)) :=
  tx ← db_BeginRo s;
  bodiesByRangeLoop tx start (Z.to_nat count) 0 [].

Definition GetPayloadBodiesByHashV1 (e : EngineServer) (hashes : list Hash)
    : Outcome (list (option ExecutionPayloadBodyV1)) :=
  if (1024 <? Z.of_nat (length hashes))%Z then Fail TooLargeRequestErr
  else getPayloadBodiesByHash e hashes.

(** The message of the first error is cut short: the source also prints
    [start] and [count]. *)
Definition GetPayloadBodiesByRangeV1 (e : EngineServer) (start count : Z)
    : Outcome (list (option ExecutionPayloadBodyV1)) :=
  if bool_decide (start = 0%Z) || bool_decide (count = 0%Z) then
    Fail (InvalidParamsError "invalid start or count")
  else if (1024 <? count)%Z then Fail TooLargeRequestErr
  else getPayloadBodiesByRange e start count.

End Server.

(** ** The consensus-side client ([execution_client]) *)

Module ExecutionClient.

Local Open Scope string_scope.

(** Modelled from the spec: the constant [errContextExceeded] is declared
    outside the sources at hand; it is the message of a timed-out call,
    "context deadline exceeded". *)
Definition errContextExceeded : string := "context deadline exceeded".

Definition ForkChoiceUpdatedV1 : string := "engine_forkchoiceUpdatedV1".

(** What [client.CallContext] does with a forkchoice request: the error
    it returns and the status it leaves in the response. *)
Record ExecutionClientRpc : Type := mkExecutionClientRpc {
  CallContext : string -> ForkChoiceState -> option Error * option PayloadStatus
}.

Definition EngineStatus_string (st : EngineStatus) : string :=
  match st with
  | ValidStatus => "VALID"
  | InvalidStatus => "INVALID"
  | SyncingStatus => "SYNCING"
  | AcceptedStatus => "ACCEPTED"
  | InvalidBlockHashStatus => "INVALID_BLOCK_HASH"
  end.

Definition checkPayloadStatus (payloadStatus : option PayloadStatus) : option Error :=
  match payloadStatus with
  | None => Some (Errorf "empty payloadStatus")
  | Some payloadStatus =>
      match ps_ValidationError payloadStatus with
      | Some validationError => Some (Errorf validationError)
      | None =>
          if negb (bool_decide (ps_Status payloadStatus = ValidStatus))
             && negb (bool_decide (ps_Status payloadStatus = AcceptedStatus))
          then Some (Errorf ("status: " ++ EngineStatus_string (ps_Status payloadStatus)))
          else None
      end
  end.

(** [ForkChoiceUpdate], statement by statement; [None] is the nil
    error. *)
Definition ForkChoiceUpdate (cc : ExecutionClientRpc) (finalized head : Hash)
    : option Error :=
  let forkChoiceRequest := mkForkChoiceState head head finalized in
  let '(err, forkChoiceResp) := CallContext cc ForkChoiceUpdatedV1 forkChoiceRequest in
  match err with
  | Some e =>
      Some (Errorf ("execution Client RPC failed to retrieve ForkChoiceUpdate response, err: "
                    ++ Error_Error e))
  | None =>
      (* Ignore timeouts *)
      if match err with
         | Some e => bool_decide (Error_Error e = errContextExceeded)
         | None => false
         end
      then None
      else
        match err with
        | Some e => Some e
        | None => checkPayloadStatus forkChoiceResp
        end
  end.

End ExecutionClient.


(** ** Reference notions used to state the properties *)

(** The number a byte sequence denotes in big-endian order. *)
Definition be_value (bs : Bytes) : Z :=
  foldl (fun acc b => acc * 256 + Z_of_byte b) 0 bs.

(** The record a forkchoice update with attributes normalises to, the
    payload id apart: parent hash, timestamp, prevRandao, fee recipient and
    the withdrawals the version lets through. *)
Definition normalisedParameters (forkChoice : ForkChoiceState)
    (attrs : PayloadAttributes) (version : StateVersion)
    : Hash * Z * Hash * Address * option (list Withdrawal) :=
  (fcs_HeadHash forkChoice, pa_Timestamp attrs, pa_PrevRandao attrs,
   pa_SuggestedFeeRecipient attrs,
   if version_ge version CapellaVersion then pa_Withdrawals attrs else None).

(** The withdrawals a versioned [newPayload] looks at: the envelope's from
    Capella on, none before. *)
Definition payloadWithdrawals (req : ExecutionPayload) (version : StateVersion)
    : option (list Withdrawal) :=
  if version_ge version CapellaVersion then ep_Withdrawals req else None.

(** Presence of the fork-gated fields of the rebuilt header matches the
    activation of their forks at the payload's timestamp. *)
Definition forkGatedFieldsMatch `{Externals} (s : EngineServer)
    (req : ExecutionPayload) (version : StateVersion) : bool :=
  let header := payloadHeader req version in
  bool_decide (IsShanghai (config s) (ep_Timestamp req) = isSome (payloadWithdrawals req version))
  && bool_decide (IsCancun (config s) (ep_Timestamp req) = isSome (h_DataGasUsed header))
  && bool_decide (IsCancun (config s) (ep_Timestamp req) = isSome (h_ExcessDataGas header)).

(** The requests queued for the importer ([nil] without a downloader). *)
Definition queued (s : EngineServer) : list BeaconRequest :=
  match hd s with
  | Some h => hd_BeaconRequestList h
  | None => []
  end.

(** The collaborators change on their own between two calls: the header
    downloader and the chain store are replaced, the registry, the counter
    and the last parameters stay. *)
Definition with_collaborators (s : EngineServer) (h : option HeaderDownload)
    (db : Outcome Tx) : EngineServer :=
  mkEngineServer h (config s) (payloadId s) (lastParameters s) (builders s)
    (builderFunc s) (proposing s) db.

(** One step of a running server: a call of one of the operations that
    take the lock, or a change of the collaborators. *)
Inductive step `{Externals} : EngineServer -> EngineServer -> Prop :=
  | step_forkchoiceUpdated s forkChoice attrs version :
      step s (forkchoiceUpdated s forkChoice attrs version).2
  | step_newPayload s req version :
      step s (newPayload s req version).2
  | step_collaborators s h db :
      step s (with_collaborators s h db).

(** The states a server started by [NewEngineServer] can be in. *)
Inductive reachable `{Externals} : EngineServer -> Prop :=
  | reachable_new cfg build db h prop :
      reachable (NewEngineServer cfg build db h prop)
  | reachable_step s s' :
      reachable s -> step s s' -> reachable s'.

(** The canonical hashes of [count] block numbers from [start] on, up to
    the first gap. *)
Fixpoint canonicalRun (canon : Z -> Hash) (start : Z) (count : nat) : list (Z * Hash) :=
  match count with
  | O => []
  | S n =>
      if bool_decide (canon start = zeroHash) then []
      else (start, canon start) :: canonicalRun canon (add64 start 1) n
  end.

(** The parameter record of a forkchoice update with attributes, with the
    payload id [id]. *)
Definition buildParameters (forkChoice : ForkChoiceState) (attrs : PayloadAttributes)
    (version : StateVersion) (id : Z) : BlockBuilderParameters :=
  {| bp_ParentHash := fcs_HeadHash forkChoice;
     bp_Timestamp := pa_Timestamp attrs;
     bp_PrevRandao := pa_PrevRandao attrs;
     bp_SuggestedFeeRecipient := pa_SuggestedFeeRecipient attrs;
     bp_PayloadId := id;
     bp_Withdrawals :=
       if version_ge version CapellaVersion then pa_Withdrawals attrs else None |}.

(** [s'] is [s] but for the header downloader. *)
Definition same_but_hd (s s' : EngineServer) : Prop :=
  s' = mkEngineServer (hd s') (config s) (payloadId s) (lastParameters s)
         (builders s) (builderFunc s) (proposing s) (db_BeginRo s).

(** The registry after the loop of [evictOldBuilders] has run [k] rounds
    on the key list [ids]. *)
Definition evicted (ids : list Z) (k : nat) (b : gmap Z BlockBuilder)
    : gmap Z BlockBuilder :=
  foldl (fun m id => delete id m) b (take k ids).

(** What holds of the registry of a running server: it is within the
    bound, and the last parameters are those of the builder registered
    under the current payload id. *)
Definition registry_inv (s : EngineServer) : Prop :=
  (Z.of_nat (size (builders s)) <= MaxBuilders)
  /\ forall p, lastParameters s = Some p ->
       bp_PayloadId p = payloadId s
       /\ builders s !! payloadId s = Some (NewBlockBuilder (builderFunc s) p).

(** ** Small concrete inputs *)

Module Examples.

Local Open Scope string_scope.

(** A stand-in for the hash functions: a header hashes to a number read
    off its parent hash and block number. *)
Definition toyExternals : Externals :=
  {| Header_Hash := fun h => (h_ParentHash h * 1000 + h_Number h)%Z;
     DeriveSha_Transactions := fun _ => 0%Z;
     DeriveSha_Withdrawals := fun _ => 0%Z;
     TypedTransactionMarshalledAsRlpString := fun _ => false;
     DecodeTransactions := fun _ => Return [] |}.

Definition toyHeader (parent number time : Z) : Header :=
  {| h_ParentHash := parent; h_UncleHash := EmptyUncleHash; h_Coinbase := 0%Z;
     h_Root := 0%Z; h_TxHash := 0%Z; h_ReceiptHash := 0%Z; h_Bloom := [];
     h_Difficulty := 0%Z; h_Number := number; h_GasLimit := 0%Z; h_GasUsed := 0%Z;
     h_Time := time; h_Extra := []; h_MixDigest := 0%Z; h_Nonce := 0%Z;
     h_BaseFee := Some 7%Z; h_WithdrawalsHash := None; h_DataGasUsed := None;
     h_ExcessDataGas := None |}.

(** Block 4 (hash 7004) and the head, block 5 (hash 7004005). *)
Definition header4 : Header := toyHeader 7 4 1699999988.
Definition header5 : Header := toyHeader 7004 5 1700000000.
Definition hash4 : Hash := 7004%Z.
Definition hash5 : Hash := 7004005%Z.

Definition toyBlock (hash : Hash) (header : Header) : Block :=
  mkBlock hash header [] (Some []).

(** A chain store with the blocks 4 and 5 canonical, block 5 the head and
    the persisted forkchoice (head 5, safe 4, finalized 4).  Block 3, the
    parent of block 4, has total difficulty 49. *)
Definition toyTx : Tx :=
  {| ReadForkchoiceHead := hash5;
     ReadForkchoiceSafe := hash4;
     ReadForkchoiceFinalized := hash4;
     ReadHeaderByHash := fun h =>
       Return (if bool_decide (h = hash4) then Some header4
               else if bool_decide (h = hash5) then Some header5 else None);
     ReadTdByHash := fun h =>
       Return (if bool_decide (h = 7%Z) then Some 49%Z
               else if bool_decide (h = hash4) then Some 50%Z
               else if bool_decide (h = hash5) then Some 50%Z else None);
     ReadHeadBlockHash := hash5;
     ReadHeaderNumber := fun h =>
       if bool_decide (h = hash4) then Some 4%Z
       else if bool_decide (h = hash5) then Some 5%Z else None;
     ReadHeader := fun h n =>
       if bool_decide (h = hash4) then Some header4
       else if bool_decide (h = hash5) then Some header5 else None;
     ReadCanonicalHash := fun n =>
       Return (if bool_decide (n = 4%Z) then hash4
               else if bool_decide (n = 5%Z) then hash5 else zeroHash);
     CanonicalHash := fun n =>
       Return (if bool_decide (n = 4%Z) then hash4
               else if bool_decide (n = 5%Z) then hash5 else zeroHash);
     BlockByHash := fun h =>
       Return (if bool_decide (h = hash4) then Some (toyBlock hash4 header4)
               else if bool_decide (h = hash5) then Some (toyBlock hash5 header5)
               else None);
     BlockWithSenders := fun h n =>
       Return (if bool_decide (h = hash4) then Some (toyBlock hash4 header4)
               else if bool_decide (h = hash5) then Some (toyBlock hash5 header5)
               else None) |}.

(** Terminal total difficulty 50; Shanghai from timestamp 1700000000 on,
    Cancun never. *)
Definition toyConfig : ChainConfig :=
  {| TerminalTotalDifficulty := Some 50%Z;
     IsShanghai := fun t => (1700000000 <=? t)%Z;
     IsCancun := fun _ => false |}.

(** The same chain without a terminal total difficulty. *)
Definition powConfig : ChainConfig :=
  {| TerminalTotalDifficulty := None;
     IsShanghai := fun t => (1700000000 <=? t)%Z;
     IsCancun := fun _ => false |}.

Definition validReply : PayloadStatus :=
  mkPayloadStatus ValidStatus (Some 7004005006%Z) None None.

(** A downloader in PoS sync, idle, with no bad header, an empty queue, a
    waiting stage loop and one reply of the importer to come. *)
Definition toyHd : HeaderDownload :=
  {| hd_POSSync := true; hd_PosStatus := Idle; hd_badHeaders := ∅;
     hd_BeaconRequestList := []; hd_WaitForWaiting := AlreadyWaiting;
     hd_PayloadStatusCh := [validReply] |}.

Definition toyBuild : BlockBuilderFunc :=
  fun p => Return (mkBlockWithReceipts
                     (toyBlock 0%Z (toyHeader (bp_ParentHash p) 6 (bp_Timestamp p))) []).

Definition server0 : EngineServer :=
  NewEngineServer toyConfig toyBuild (Return toyTx) (Some toyHd) true.

Definition powServer : EngineServer :=
  NewEngineServer powConfig toyBuild (Return toyTx) (Some toyHd) true.

Definition toyPayload (parent number time blockHash : Z)
    (withdrawals : option (list Withdrawal)) : ExecutionPayload :=
  {| ep_ParentHash := parent; ep_FeeRecipient := 0%Z; ep_StateRoot := 0%Z;
     ep_ReceiptsRoot := 0%Z; ep_LogsBloom := []; ep_PrevRandao := 0%Z;
     ep_BlockNumber := number; ep_GasLimit := 0%Z; ep_GasUsed := 0%Z;
     ep_Timestamp := time; ep_ExtraData := []; ep_BaseFeePerGas := Some 7%Z;
     ep_BlockHash := blockHash; ep_Transactions := [];
     ep_Withdrawals := withdrawals; ep_DataGasUsed := None;
     ep_ExcessDataGas := None |}.

(** Block 6 on top of the head, sent with a block hash that is not the
    hash of its header (which is 7004005006). *)
Definition mismatchedPayload : ExecutionPayload :=
  toyPayload hash5 6 1700000012 0xAAAA (Some []).

(** A block before Shanghai on top of the head that carries a withdrawals
    list all the same, with the right block hash. *)
Definition earlyWithdrawalsPayload : ExecutionPayload :=
  toyPayload hash5 6 1600000000 7004005006 (Some []).

(** Block 4 sent again as a payload: its parent, block 3 (hash 7), has
    total difficulty 49, below the terminal 50. *)
Definition preMergePayload : ExecutionPayload :=
  toyPayload 7 4 1699999988 hash4 None.

Definition persistedForkChoice : ForkChoiceState :=
  mkForkChoiceState hash5 hash4 hash4.

Definition toyAttributes : PayloadAttributes :=
  mkPayloadAttributes 1700000012 0x11 0xAbCd (Some []).

(** A client whose call times out. *)
Definition timedOutClient : ExecutionClient.ExecutionClientRpc :=
  ExecutionClient.mkExecutionClientRpc
    (fun _ _ => (Some (Errorf "context deadline exceeded"), None)).

(** A registry with the ids 1 to [n]. *)
Definition toyBuilder (id : Z) : BlockBuilder :=
  NewBlockBuilder toyBuild (mkBlockBuilderParameters hash5 1700000012 0 0 id None).

Definition registryUpTo (n : nat) : gmap Z BlockBuilder :=
  list_to_map ((fun i => (Z.of_nat i, toyBuilder (Z.of_nat i))) <$> seq 1 n).

Definition fullServer : EngineServer :=
  mkEngineServer (Some toyHd) toyConfig 128 None (registryUpTo 128) toyBuild true
    (Return toyTx).

(** The canonical hashes and the bodies of [toyTx], as functions of the
    block number. *)
Definition toyCanon (n : Z) : Hash :=
  if bool_decide (n = 4%Z) then hash4
  else if bool_decide (n = 5%Z) then hash5 else zeroHash.

Definition toyBody (n : Z) : option ExecutionPayloadBodyV1 :=
  Some (mkExecutionPayloadBodyV1 [] (Some [])).

(** The server after a first and after a second forkchoice update with
    [toyAttributes] on the persisted forkchoice. *)
Definition server1 : EngineServer :=
  (@forkchoiceUpdated toyExternals server0 persistedForkChoice
     (Some toyAttributes) CapellaVersion).2.

Definition server2 : EngineServer :=
  (@forkchoiceUpdated toyExternals (with_collaborators server1 (Some toyHd) (Return toyTx))
     persistedForkChoice (Some toyAttributes) CapellaVersion).2.

Definition buildAnswer : ForkChoiceUpdatedResponse :=
  mkForkChoiceUpdatedResponse (mkPayloadStatus ValidStatus (Some hash5) None None)
    (Some (convertPayloadId 1)).

End Examples.


(** ** Further notions for the properties of the operations *)

(** The replies of the importer still to come. *)
Definition pendingReplies (s : EngineServer) : list PayloadStatus :=
  match hd s with
  | Some h => hd_PayloadStatusCh h
  | None => []
  end.

(** The bad-header memory of the downloader at [x]. *)
Definition badHeader (s : EngineServer) (x : Hash) : option Hash :=
  match hd s with
  | Some h => hd_badHeaders h !! x
  | None => None
  end.

(** The data-gas fields a versioned [newPayload] reads: the envelope's
    from Deneb on, none before. *)
Definition payloadDataGasUsed (req : ExecutionPayload) (version : StateVersion)
    : option Z :=
  if version_ge version DenebVersion then ep_DataGasUsed req else None.

Definition payloadExcessDataGas (req : ExecutionPayload) (version : StateVersion)
    : option Z :=
  if version_ge version DenebVersion then ep_ExcessDataGas req else None.

(** A total difficulty that does not put a block before the merge: unknown,
    or at least the terminal one. *)
Definition notBelow (ttd : Z) (td : option Z) : Prop :=
  match td with
  | Some t => ttd <= t
  | None => True
  end.

(** What [getPayload] makes of the block a stopped builder yields: the
    envelope, the block value and the blobs bundle (the statements of
    [getPayload] after [builder.Stop()]). *)
Definition payloadResponse (blockWithReceipts : BlockWithReceipts)
    : Outcome GetPayloadResponse :=
  let block := bwr_Block blockWithReceipts in
  let header := blk_header block in
  baseFee ← match h_BaseFee header with
            | Some b => Return (b mod two256)%Z
            | None => Panic
            end;
  txs ← MarshalTransactionsBinary (blk_transactions block);
  let bothGas := isSome (h_DataGasUsed header) && isSome (h_ExcessDataGas header) in
  let payload :=
    {| ep_ParentHash := h_ParentHash header;
       ep_FeeRecipient := h_Coinbase header;
       ep_Timestamp := h_Time header;
       ep_PrevRandao := h_MixDigest header;
       ep_StateRoot := h_Root header;
       ep_ReceiptsRoot := h_ReceiptHash header;
       ep_LogsBloom := h_Bloom header;
       ep_GasLimit := h_GasLimit header;
       ep_GasUsed := h_GasUsed header;
       ep_BlockNumber := BigInt_Uint64 (h_Number header);
       ep_ExtraData := h_Extra header;
       ep_BaseFeePerGas := h_BaseFee header;
       ep_BlockHash := blk_hash block;
       ep_Transactions := txs;
       ep_Withdrawals := blk_withdrawals block;
       ep_DataGasUsed := if bothGas then h_DataGasUsed header else None;
       ep_ExcessDataGas := if bothGas then h_ExcessDataGas header else None |} in
  value ← blockValue blockWithReceipts baseFee;
  blobsBundle ← collectBlobs (blk_transactions block) (mkBlobsBundleV1 [] [] []);
  Return (mkGetPayloadResponse payload value blobsBundle).

(** The payload ids in use lie between one and the counter, which has not
    wrapped around. *)
Definition ids_below (s : EngineServer) : Prop :=
  0 <= payloadId s < two64
  /\ forall k, is_Some (builders s !! k) -> 1 <= k <= payloadId s.

(** The sum of gas used times effective tip over the transactions and
    their receipts, in order. *)
Fixpoint tipSum (txs : list Transaction) (receipts : list Z) (baseFee : Z) : Z :=
  match txs, receipts with
  | tx :: txs', gas :: receipts' =>
      gas * tx_GetEffectiveGasTip tx baseFee + tipSum txs' receipts' baseFee
  | _, _ => 0
  end.

(** The versioned hashes of the blob transactions that carry their side
    car, in block order. *)
Definition versionedHashes (txs : list Transaction) : list Hash :=
  flat_map (fun tx =>
              if bool_decide (tx_Type tx = BlobTxType) then
                match tx_Wrapper tx with
                | Some blobTx => btw_DataHashes blobTx
                | None => []
                end
              else []) txs.

(** A header as the builder seals it after the merge, for the transactions
    in their binary encoding [txs] and the withdrawals of the block: the
    constants of proof of stake, the derived roots, a bloom of 256 bytes, a
    block number that fits an [int64], and the two data-gas fields
    together or not at all. *)
Definition sealedHeader `{Externals} (header : Header) (txs : list Bytes)
    (withdrawals : option (list Withdrawal)) : Prop :=
  h_UncleHash header = EmptyUncleHash
  /\ h_Difficulty header = ProofOfStakeDifficulty
  /\ h_Nonce header = ProofOfStakeNonce
  /\ h_TxHash header = DeriveSha_Transactions txs
  /\ h_WithdrawalsHash header = DeriveSha_Withdrawals <$> withdrawals
  /\ length (h_Bloom header) = 256%nat
  /\ 0 <= h_Number header < 2 ^ 63
  /\ isSome (h_DataGasUsed header) = isSome (h_ExcessDataGas header).

(** ** The remaining methods of the engine server *)

(** [engine_types.TransitionConfiguration]; the two numbers are pointers
    to big integers. *)
Record TransitionConfiguration : Type := mkTransitionConfiguration {
  tc_TerminalTotalDifficulty : option Z;
  tc_TerminalBlockHash : Hash;
  tc_TerminalBlockNumber : option Z
}.

(** [ExchangeTransitionConfigurationV1].  The two messages are cut short:
    the source also prints the total difficulties.  Reading the field of a
    nil [beaconConfig], and comparing with a nil total difficulty, panic. *)
Definition ExchangeTransitionConfigurationV1 (e : EngineServer)
    (beaconConfig : option TransitionConfiguration) : Outcome TransitionConfiguration :=
  tx ← db_BeginRo e;
  let terminalTotalDifficulty := TerminalTotalDifficulty (config e) in
  match terminalTotalDifficulty with
  | None =>
      match beaconConfig with
      | None => Panic
      | Some _ =>
          Fail (Errorf "the execution layer doesn't have a terminal total difficulty")
      end
  | Some ttd =>
      match beaconConfig with
      | None => Panic
      | Some beaconConfig =>
          match tc_TerminalTotalDifficulty beaconConfig with
          | None => Panic
          | Some theirs =>
              if negb (bool_decide (ttd = theirs)) then
                Fail (Errorf "the execution layer has a wrong terminal total difficulty")
              else
                Return (mkTransitionConfiguration (Some ttd) zeroHash (Some 0))
          end
      end
  end.

Definition ourCapabilities : list string :=
  [ "engine_forkchoiceUpdatedV1";
    "engine_forkchoiceUpdatedV2";
    "engine_newPayloadV1";
    "engine_newPayloadV2";
    "engine_getPayloadV1";
    "engine_getPayloadV2";
    "engine_exchangeTransitionConfigurationV1";
    "engine_getPayloadBodiesByHashV1";
    "engine_getPayloadBodiesByRangeV1" ]%string.

(** The inner loop of [compareCapabilities]: [found] after the scan of
    [to], which stops at the first match. *)
Fixpoint foundIn (f : string) (to : list string) : bool :=
  match to with
  | [] => false
  | t :: to' => if String.eqb f t then true else foundIn f to'
  end.

(** The outer loop of [compareCapabilities], with the result so far. *)
Fixpoint compareCapabilitiesFrom (from to result : list string) : list string :=
  match from with
  | [] => result
  | f :: from' =>
      compareCapabilitiesFrom from' to
        (if negb (foundIn f to) then result ++ [f] else result)
  end.

Definition compareCapabilities (from to : list string) : list string :=
  compareCapabilitiesFrom from to [].

(** [ExchangeCapabilities] with the record it logs, if any: the methods
    the consensus layer lacks and the ones this server lacks. *)
Definition ExchangeCapabilities (e : EngineServer) (fromCl : list string)
    : list string * option (list string * list string) :=
  let missingOurs := compareCapabilities fromCl ourCapabilities in
  let missingCl := compareCapabilities ourCapabilities fromCl in
  (ourCapabilities,
   if (0 <? Z.of_nat (length missingCl)) || (0 <? Z.of_nat (length missingOurs))
   then Some (missingCl, missingOurs)
   else None).

(** ** The client that calls the engine server directly *)

(** [cltypes.Eth1Block] as the client reads it: the fields, [Version()],
    and the transactions and withdrawals of [Body()].  [eb_Version] is
    [None] for a version that is none of Bellatrix, Capella and Deneb. *)
Record Eth1Block : Type := mkEth1Block {
  eb_ParentHash : Hash;
  eb_FeeRecipient : Address;
  eb_StateRoot : Hash;
  eb_ReceiptsRoot : Hash;
  eb_LogsBloom : Bytes;
  eb_PrevRandao : Hash;
  eb_BlockNumber : Z;
  eb_GasLimit : Z;
  eb_GasUsed : Z;
  eb_Time : Z;
  eb_Extra : Bytes;
  eb_BaseFeePerGas : Bytes;
  eb_BlockHash : Hash;
  eb_DataGasUsed : Z;
  eb_ExcessDataGas : Z;
  eb_Version : option StateVersion;
  eb_Transactions : list Bytes;
  eb_Withdrawals : option (list Withdrawal)
}.

(** The loop that reverses the copy of the base fee in place, [i] going
    up and [j] going down; [None] is an index out of range, and the end of
    the fuel, which the length of the slice never lets happen. *)
Fixpoint reverseLoop (fuel : nat) (i j : Z) (a : Bytes) : option Bytes :=
  if i <? j then
    match fuel with
    | O => None
    | S fuel' =>
        match a !! Z.to_nat i, a !! Z.to_nat j with
        | Some x, Some y =>
            reverseLoop fuel' (i + 1) (j - 1)
              (<[Z.to_nat i := y]> (<[Z.to_nat j := x]> a))
        | _, _ => None
        end
    end
  else Some a.

Definition reversedBytes (a : Bytes) : option Bytes :=
  reverseLoop (length a) 0 (Z.of_nat (length a) - 1) a.

(** [payload.Version() >= clparams.DenebVersion]; for a version outside
    the three the request it decides on is never sent. *)
Definition fromDeneb (payload : Eth1Block) : bool :=
  match eb_Version payload with
  | Some v => version_ge v DenebVersion
  | None => false
  end.

(** The request [NewPayload] assembles; [SetBytes] reads the reversed
    base fee in big-endian order. *)
Definition clientRequest (payload : Eth1Block) (reversedBaseFeePerGas : Bytes)
    : ExecutionPayload :=
  {| ep_ParentHash := eb_ParentHash payload;
     ep_FeeRecipient := eb_FeeRecipient payload;
     ep_StateRoot := eb_StateRoot payload;
     ep_ReceiptsRoot := eb_ReceiptsRoot payload;
     ep_LogsBloom := eb_LogsBloom payload;
     ep_PrevRandao := eb_PrevRandao payload;
     ep_BlockNumber := eb_BlockNumber payload;
     ep_GasLimit := eb_GasLimit payload;
     ep_GasUsed := eb_GasUsed payload;
     ep_Timestamp := eb_Time payload;
     ep_ExtraData := eb_Extra payload;
     ep_BaseFeePerGas := Some (be_value reversedBaseFeePerGas);
     ep_BlockHash := eb_BlockHash payload;
     ep_Transactions := eb_Transactions payload;
     ep_Withdrawals := eb_Withdrawals payload;
     ep_DataGasUsed := if fromDeneb payload then Some (eb_DataGasUsed payload) else None;
     ep_ExcessDataGas :=
       if fromDeneb payload then Some (eb_ExcessDataGas payload) else None |}.

Definition newPayloadFailed : string :=
  "execution Client RPC failed to retrieve the NewPayload status response, err: ".

Definition forkChoiceUpdateFailed : string :=
  "execution Client RPC failed to retrieve ForkChoiceUpdate response, err: ".

Module ExecutionClientDirect.

Section Direct.
Context `{Externals}.

(** [NewPayload] of [ExecutionClientDirect] on the engine server behind
    [cc.api]: the pair [(invalid, err)] it returns, and the server after
    the call. *)
Definition NewPayload (api : EngineServer) (payload : option Eth1Block)
    : Outcome (bool * option Error) * EngineServer :=
  match payload with
  | None => (Return (false, None), api)
  | Some payload =>
  match reversedBytes (eb_BaseFeePerGas payload) with
  | None => (Panic, api)
  | Some reversedBaseFeePerGas =>
  let request := clientRequest payload reversedBaseFeePerGas in
  let '(answer, api) :=
    match eb_Version payload with
    | Some BellatrixVersion => NewPayloadV1 api request
    | Some CapellaVersion => NewPayloadV2 api request
    | Some DenebVersion => NewPayloadV3 api request
    | None => (Fail (Errorf "invalid payload version"), api)
    end in
  match answer with
  | Fail err =>
      (Return (false, Some (Errorf (newPayloadFailed ++ Error_Error err))), api)
  | Panic => (Panic, api)
  | Hang => (Hang, api)
  | Return payloadStatus =>
      let invalid :=
        bool_decide (ps_Status payloadStatus = InvalidStatus)
        || bool_decide (ps_Status payloadStatus = InvalidBlockHashStatus) in
      (Return (invalid, ExecutionClient.checkPayloadStatus (Some payloadStatus)), api)
  end
  end
  end.

(** [ForkChoiceUpdate] of [ExecutionClientDirect], statement by
    statement: the response of the server is dropped, and the status that
    is checked is the one of the empty [forkChoiceResp]. *)
Definition ForkChoiceUpdate (api : EngineServer) (finalized head : Hash)
    : Outcome (option Error) * EngineServer :=
  let forkChoiceRequest := mkForkChoiceState head head finalized in
  let forkChoiceResp : option PayloadStatus := None in
  let '(answer, api) := ForkchoiceUpdatedV1 api forkChoiceRequest None in
  match answer with
  | Panic => (Panic, api)
  | Hang => (Hang, api)
  | Fail e =>
      (Return (Some (Errorf (forkChoiceUpdateFailed ++ Error_Error e))), api)
  | Return _ =>
      let err : option Error := None in
      (* Ignore timeouts *)
      if match err with
         | Some e => bool_decide (Error_Error e = ExecutionClient.errContextExceeded)
         | None => false
         end
      then (Return None, api)
      else
        match err with
        | Some e => (Return (Some e), api)
        | None => (Return (ExecutionClient.checkPayloadStatus forkChoiceResp), api)
        end
  end.

End Direct.

End ExecutionClientDirect.

(** The number a byte sequence denotes in little-endian order. *)
Definition le_value (bs : Bytes) : Z :=
  foldr (fun b acc => Z_of_byte b + 256 * acc) 0 bs.

(** ** The execution module ([eth1]) *)

Module Eth1.

(** The types of the answers and the conversions to them are outside the
    sources at hand. *)
Class Conversions : Type := {
  Body : Type;
  RpcHeader : Type;
  RpcBody : Type;
  HeaderToHeaderRPC : Header -> RpcHeader;
  (** [ConvertRawBlockBodyToRpc(body.RawBody(), blockNumber, blockHash)] *)
  ConvertRawBlockBodyToRpc : Body -> Z -> Hash -> RpcBody
}.

(** [execution.GetSegmentRequest]: both fields are pointers. *)
Record GetSegmentRequest : Type := mkGetSegmentRequest {
  BlockHash : option Hash;
  BlockNumber : option Z
}.

Section Module_.
Context `{Conversions}.

(** The module with its store and the three readers the methods at hand
    call. *)
Record EthereumExecutionModule : Type := mkEthereumExecutionModule {
  em_BeginRo : Outcome Tx;
  canonicalHash : Tx -> Z -> Outcome Hash;
  getHeader : Tx -> Hash -> Z -> Outcome (option Header);
  getBody : Tx -> Hash -> Z -> Outcome (option Body)
}.

Local Open Scope string_scope.

(** What an error returned as it is, or printed with [%s] into a message,
    becomes; a panic or a call that does not return stays what it is. *)
Definition wrapError {A : Type} (prefix : string) (o : Outcome A) : Outcome A :=
  match o with
  | Fail err => Fail (Errorf (prefix ++ Error_Error err))
  | _ => o
  end.

(** [parseSegmentRequest]; the message of the second case is cut short:
    the source also prints the block number.  With neither field set the
    switch has no case and the zero values are returned. *)
Definition parseSegmentRequest (e : EthereumExecutionModule) (tx : Tx)
    (req : GetSegmentRequest) : Outcome (Hash * Z) :=
  match BlockHash req, BlockNumber req with
  | Some blockHash, None =>
      match ReadHeaderNumber tx blockHash with
      | None =>
          Fail (Errorf "ethereumExecutionModule.parseSegmentRequest: could not read block: non existent index")
      | Some blockNumber => Return (blockHash, blockNumber)
      end
  | None, Some blockNumber =>
      blockHash ← wrapError "ethereumExecutionModule.parseSegmentRequest: could not read block: "
                    (canonicalHash e tx blockNumber);
      Return (blockHash, blockNumber)
  | Some blockHash, Some blockNumber => Return (blockHash, blockNumber)
  | None, None => Return (zeroHash, 0)
  end.

Definition badRequest (req : option GetSegmentRequest) : bool :=
  match req with
  | None => true
  | Some req => negb (isSome (BlockHash req)) && negb (isSome (BlockNumber req))
  end.

Definition GetBody (e : EthereumExecutionModule) (req : option GetSegmentRequest)
    : Outcome (option RpcBody) :=
  match req with
  | None => Fail (Errorf "ethereumExecutionModule.GetBody: bad request")
  | Some req =>
  if negb (isSome (BlockHash req)) && negb (isSome (BlockNumber req)) then
    Fail (Errorf "ethereumExecutionModule.GetBody: bad request")
  else
    tx ← wrapError "ethereumExecutionModule.GetHeader: could not open database: "
           (em_BeginRo e);
    '(blockHash, blockNumber) ← wrapError "ethereumExecutionModule.GetBody: "
                                  (parseSegmentRequest e tx req);
    body ← wrapError "ethereumExecutionModule.GetBody: coild not read body: "
             (getBody e tx blockHash blockNumber);
    match body with
    | None => Return None
    | Some body => Return (Some (ConvertRawBlockBodyToRpc body blockNumber blockHash))
    end
  end.

Definition GetHeader (e : EthereumExecutionModule) (req : option GetSegmentRequest)
    : Outcome (option RpcHeader) :=
  match req with
  | None => Fail (Errorf "ethereumExecutionModule.GetHeader: bad request")
  | Some req =>
  if negb (isSome (BlockHash req)) && negb (isSome (BlockNumber req)) then
    Fail (Errorf "ethereumExecutionModule.GetHeader: bad request")
  else
    tx ← wrapError "ethereumExecutionModule.GetHeader: could not open database: "
           (em_BeginRo e);
    '(blockHash, blockNumber) ← wrapError "ethereumExecutionModule.GetHeader: "
                                  (parseSegmentRequest e tx req);
    header ← wrapError "ethereumExecutionModule.GetHeader: coild not read body: "
               (getHeader e tx blockHash blockNumber);
    match header with
    | None => Return None
    | Some header => Return (Some (HeaderToHeaderRPC header))
    end
  end.

Definition GetHeaderHashNumber (e : EthereumExecutionModule) (req : Hash)
    : Outcome Z :=
  tx ← wrapError "ethereumExecutionModule.GetBody: could not open database: "
         (em_BeginRo e);
  match ReadHeaderNumber tx req with
  | None =>
      Fail (Errorf "ethereumExecutionModule.parseSegmentRequest: could not read block: non existent index")
  | Some blockNumber => Return blockNumber
  end.

(** [CanonicalHash]; the error of the canonical-hash read is replaced by
    a message of its own. *)
Definition CanonicalHash (e : EthereumExecutionModule) (req : Hash) : Outcome bool :=
  tx ← wrapError "ethereumExecutionModule.CanonicalHash: could not open database: "
         (em_BeginRo e);
  let blockHash := req in
  match ReadHeaderNumber tx blockHash with
  | None =>
      Fail (Errorf "ethereumExecutionModule.CanonicalHash: could not read block: non existent index")
  | Some blockNumber =>
      match canonicalHash e tx blockNumber with
      | Fail _ =>
          Fail (Errorf "ethereumExecutionModule.CanonicalHash: could not read canonical hash")
      | Panic => Panic
      | Hang => Hang
      | Return expectedHash => Return (bool_decide (expectedHash = blockHash))
      end
  end.

End Module_.

End Eth1.

(** The classifier on a chain of payloads sent one after the other, each
    with the hash and the number of its block, the first on top of
    [parentHash] and every other on top of the one before: the answers in
    order, and the server after the last. *)
Fixpoint classifyChain `{Externals} (s : EngineServer) (parentHash : Hash)
    (chain : list (Hash * Z)) : list (Outcome (option PayloadStatus)) * EngineServer :=
  match chain with
  | [] => ([], s)
  | (blockHash, blockNumber) :: rest =>
      let answer :=
        getQuickPayloadStatusIfPossible s blockHash blockNumber parentHash None true in
      let answers := classifyChain answer.2 blockHash rest in
      (answer.1 :: answers.1, answers.2)
  end.

(** ** Further concrete inputs *)

Module MoreExamples.

Import Examples.

Local Open Scope string_scope.

(** The chain of [toyConfig] with Cancun active from timestamp
    1700000000 on. *)
Definition cancunConfig : ChainConfig :=
  {| TerminalTotalDifficulty := Some 50%Z;
     IsShanghai := fun t => (1700000000 <=? t)%Z;
     IsCancun := fun t => (1700000000 <=? t)%Z |}.

Definition cancunServer : EngineServer :=
  NewEngineServer cancunConfig toyBuild (Return toyTx) (Some toyHd) true.

(** The chain of [toyConfig] with the terminal total difficulty reached
    one block earlier, at 49. *)
Definition earlyMergeConfig : ChainConfig :=
  {| TerminalTotalDifficulty := Some 49%Z;
     IsShanghai := fun t => (1700000000 <=? t)%Z;
     IsCancun := fun _ => false |}.

Definition earlyMergeServer : EngineServer :=
  NewEngineServer earlyMergeConfig toyBuild (Return toyTx) (Some toyHd) true.

(** Block 6 on top of the head with the right block hash, 7004005006. *)
Definition goodPayload : ExecutionPayload :=
  toyPayload hash5 6 1700000012 7004005006 (Some []).

(** The same block with the two data-gas fields set. *)
Definition denebPayload : ExecutionPayload :=
  {| ep_ParentHash := hash5; ep_FeeRecipient := 0%Z; ep_StateRoot := 0%Z;
     ep_ReceiptsRoot := 0%Z; ep_LogsBloom := []; ep_PrevRandao := 0%Z;
     ep_BlockNumber := 6%Z; ep_GasLimit := 0%Z; ep_GasUsed := 0%Z;
     ep_Timestamp := 1700000012%Z; ep_ExtraData := []; ep_BaseFeePerGas := Some 7%Z;
     ep_BlockHash := 7004005006%Z; ep_Transactions := [];
     ep_Withdrawals := Some []; ep_DataGasUsed := Some 0%Z;
     ep_ExcessDataGas := Some 0%Z |}.

(** The same block with one transaction, the bytes [bs]. *)
Definition payloadWithTransaction (bs : Bytes) : ExecutionPayload :=
  {| ep_ParentHash := hash5; ep_FeeRecipient := 0%Z; ep_StateRoot := 0%Z;
     ep_ReceiptsRoot := 0%Z; ep_LogsBloom := []; ep_PrevRandao := 0%Z;
     ep_BlockNumber := 6%Z; ep_GasLimit := 0%Z; ep_GasUsed := 0%Z;
     ep_Timestamp := 1700000012%Z; ep_ExtraData := []; ep_BaseFeePerGas := Some 7%Z;
     ep_BlockHash := 7004005006%Z; ep_Transactions := [bs];
     ep_Withdrawals := Some []; ep_DataGasUsed := None;
     ep_ExcessDataGas := None |}.

(** The hash functions of [toyExternals] with a decoder that takes a
    transaction starting with the byte 0xb8 for a typed transaction
    wrapped as an RLP string, and fails on an empty one. *)
Definition pickyExternals : Externals :=
  {| Header_Hash := fun h => (h_ParentHash h * 1000 + h_Number h)%Z;
     DeriveSha_Transactions := fun _ => 0%Z;
     DeriveSha_Withdrawals := fun _ => 0%Z;
     TypedTransactionMarshalledAsRlpString := fun bs =>
       match bs with
       | b :: _ => bool_decide (b = xb8)
       | [] => false
       end;
     DecodeTransactions := fun txs =>
       if existsb (fun bs => bool_decide (bs = [])) txs
       then Fail (Errorf "transaction is empty")
       else Return [] |}.

(** A forkchoice on block 5 that is not the persisted one. *)
Definition newForkChoice : ForkChoiceState :=
  mkForkChoiceState hash5 hash5 hash4.

(** A forkchoice on block 4, an ancestor of the head. *)
Definition ancestorForkChoice : ForkChoiceState :=
  mkForkChoiceState hash4 hash4 hash4.

(** The full registry after a forkchoice update that starts a build. *)
Definition fullServer' : EngineServer :=
  (@forkchoiceUpdated toyExternals fullServer persistedForkChoice
     (Some toyAttributes) CapellaVersion).2.

Definition fullAnswer : ForkChoiceUpdatedResponse :=
  mkForkChoiceUpdatedResponse (mkPayloadStatus ValidStatus (Some hash5) None None)
    (Some (convertPayloadId 129)).

(** A blob transaction with two blobs. *)
Definition blobWrapper : BlobTxWrapper :=
  mkBlobTxWrapper [1%Z; 2%Z] [[x01]; [x02]] [[x03]; [x04]] [[x05]; [x06]].

Definition blobTransaction : Transaction :=
  mkTransaction BlobTxType (Return [x03]) (fun baseFee => 2%Z) (Some blobWrapper).

Definition blobBundle : BlobsBundleV1 :=
  mkBlobsBundleV1 [[x01]; [x02]] [[x03]; [x04]] [[x05]; [x06]].

(** A sealed block 6 with an empty list of withdrawals. *)
Definition sealedHeader6 : Header :=
  {| h_ParentHash := hash5; h_UncleHash := EmptyUncleHash; h_Coinbase := 0%Z;
     h_Root := 0%Z; h_TxHash := 0%Z; h_ReceiptHash := 0%Z;
     h_Bloom := replicate 256 x00;
     h_Difficulty := ProofOfStakeDifficulty; h_Number := 6%Z; h_GasLimit := 0%Z;
     h_GasUsed := 0%Z; h_Time := 1700000012%Z; h_Extra := []; h_MixDigest := 0%Z;
     h_Nonce := ProofOfStakeNonce; h_BaseFee := Some 7%Z;
     h_WithdrawalsHash := Some 0%Z; h_DataGasUsed := None;
     h_ExcessDataGas := None |}.

Definition sealedBlock : BlockWithReceipts :=
  mkBlockWithReceipts (mkBlock 7004005006%Z sealedHeader6 [] (Some [])) [].

(** The response [getPayload] makes of it. *)
Definition sealedResponse : GetPayloadResponse :=
  mkGetPayloadResponse
    {| ep_ParentHash := hash5; ep_FeeRecipient := 0%Z; ep_StateRoot := 0%Z;
       ep_ReceiptsRoot := 0%Z; ep_LogsBloom := replicate 256 x00;
       ep_PrevRandao := 0%Z; ep_BlockNumber := 6%Z; ep_GasLimit := 0%Z;
       ep_GasUsed := 0%Z; ep_Timestamp := 1700000012%Z; ep_ExtraData := [];
       ep_BaseFeePerGas := Some 7%Z; ep_BlockHash := 7004005006%Z;
       ep_Transactions := []; ep_Withdrawals := Some []; ep_DataGasUsed := None;
       ep_ExcessDataGas := None |}
    0 (mkBlobsBundleV1 [] [] []).

(** Block 6 as the consensus layer holds it, with a block hash that is not
    the hash of its header, and the base fee 7 in little-endian order. *)
Definition toyEth1Block (version : option StateVersion) : Eth1Block :=
  {| eb_ParentHash := hash5; eb_FeeRecipient := 0%Z; eb_StateRoot := 0%Z;
     eb_ReceiptsRoot := 0%Z; eb_LogsBloom := replicate 256 x00; eb_PrevRandao := 0%Z;
     eb_BlockNumber := 6%Z; eb_GasLimit := 0%Z; eb_GasUsed := 0%Z;
     eb_Time := 1700000012%Z; eb_Extra := [];
     eb_BaseFeePerGas := x07 :: replicate 31 x00;
     eb_BlockHash := 0xAAAA%Z; eb_DataGasUsed := 0%Z; eb_ExcessDataGas := 0%Z;
     eb_Version := version; eb_Transactions := [];
     eb_Withdrawals := Some [] |}.

(** An execution module over [toyTx] whose answers are the headers
    themselves. *)
Definition toyConversions : Eth1.Conversions :=
  {| Eth1.Body := unit; Eth1.RpcHeader := Header; Eth1.RpcBody := unit;
     Eth1.HeaderToHeaderRPC := fun h => h;
     Eth1.ConvertRawBlockBodyToRpc := fun b _ _ => b |}.

Definition toyModule : @Eth1.EthereumExecutionModule toyConversions :=
  @Eth1.mkEthereumExecutionModule toyConversions (Return toyTx)
    (fun tx n => CanonicalHash tx n)
    (fun tx h n => Return (ReadHeader tx h n))
    (fun tx h n => Return None).

(** A downloader that remembers the block 0xBEEF as bad, with block 5 as
    the latest valid one, and a server on it. *)
Definition taintedHd : HeaderDownload :=
  ReportBadHeaderPoS toyHd 0xBEEF hash5.

Definition taintedServer : EngineServer :=
  NewEngineServer toyConfig toyBuild (Return toyTx) (Some taintedHd) true.

(** Two blocks on top of it. *)
Definition taintedChain : list (Hash * Z) := [(0xBEF0, 10); (0xBEF1, 11)]%Z.

(** A downloader whose stage loop does not start waiting in time, and a
    server on it. *)
Definition busyHd : HeaderDownload :=
  {| hd_POSSync := true; hd_PosStatus := Idle; hd_badHeaders := ∅;
     hd_BeaconRequestList := []; hd_WaitForWaiting := DeadlineExceeded;
     hd_PayloadStatusCh := [validReply] |}.

Definition busyServer : EngineServer :=
  NewEngineServer toyConfig toyBuild (Return toyTx) (Some busyHd) true.

End MoreExamples.


(** * Properties *)

(** ** Payload identifiers: encoding and decoding *)

Lemma Z_of_byte_of_Z (z : Z) : Z_of_byte (byte_of_Z z) = z mod 256.
Proof.
  unfold Z_of_byte, byte_of_Z.
  assert (Hr : 0 <= z mod 256 < 256) by (apply Z.mod_pos_bound; lia).
  destruct (Byte.of_N (Z.to_N (z mod 256))) as [b|] eqn:E.
  - apply Byte.to_of_N in E. rewrite E. lia.
  - apply Byte.of_N_None_iff in E. lia.
Qed.

Lemma Z_of_byte_range (b : byte) : 0 <= Z_of_byte b < 256.
Proof.
  unfold Z_of_byte. pose proof (Byte.to_N_bounded b). lia.
Qed.

Lemma land_low_high (a b k : Z) :
  0 <= k -> 0 <= a < 2 ^ k -> Z.land a (b * 2 ^ k) = 0.
Proof.
  intros Hk Ha. apply Z.bits_inj'. intros n Hn.
  rewrite Z.land_spec, Z.bits_0.
  destruct (Z.lt_ge_cases n k) as [Hlt|Hge].
  - rewrite Z.mul_pow2_bits_low by lia. apply andb_false_r.
  - rewrite <- (Z.mod_small a (2 ^ k)) by lia.
    rewrite Z.mod_pow2_bits_high by lia. reflexivity.
Qed.

Lemma lor_low_high (a b k : Z) :
  0 <= k -> 0 <= a < 2 ^ k -> Z.lor a (b * 2 ^ k) = a + b * 2 ^ k.
Proof.
  intros Hk Ha.
  pose proof (land_low_high a b k Hk Ha) as Hl.
  rewrite <- Z.lxor_lor by exact Hl.
  symmetry. apply Z.add_nocarry_lxor. exact Hl.
Qed.


Ltac norm_pow :=
  repeat match goal with
  | |- context [2 ^ ?n] =>
      let v := eval vm_compute in (2 ^ n) in change (2 ^ n) with v
  end.

Lemma Uint64_value (b0 b1 b2 b3 b4 b5 b6 b7 : byte) (rest : Bytes) :
  BigEndian.Uint64 (b0 :: b1 :: b2 :: b3 :: b4 :: b5 :: b6 :: b7 :: rest)
  = Some (be_value [b0; b1; b2; b3; b4; b5; b6; b7]).
Proof.
  unfold BigEndian.Uint64, be_value. simpl foldl. f_equal.
  pose proof (Z_of_byte_range b0). pose proof (Z_of_byte_range b1).
  pose proof (Z_of_byte_range b2). pose proof (Z_of_byte_range b3).
  pose proof (Z_of_byte_range b4). pose proof (Z_of_byte_range b5).
  pose proof (Z_of_byte_range b6). pose proof (Z_of_byte_range b7).
  set (z0 := Z_of_byte b0) in *. set (z1 := Z_of_byte b1) in *.
  set (z2 := Z_of_byte b2) in *. set (z3 := Z_of_byte b3) in *.
  set (z4 := Z_of_byte b4) in *. set (z5 := Z_of_byte b5) in *.
  set (z6 := Z_of_byte b6) in *. set (z7 := Z_of_byte b7) in *.
  rewrite !Z.shiftl_mul_pow2 by lia.
  rewrite (lor_low_high (z1 * 2 ^ 48) z0 56) by (norm_pow; lia).
  replace (z1 * 2 ^ 48 + z0 * 2 ^ 56) with ((z1 + z0 * 256) * 2 ^ 48)
    by (norm_pow; lia).
  rewrite (lor_low_high (z2 * 2 ^ 40) _ 48) by (norm_pow; lia).
  replace (z2 * 2 ^ 40 + (z1 + z0 * 256) * 2 ^ 48)
    with ((z2 + (z1 + z0 * 256) * 256) * 2 ^ 40) by (norm_pow; lia).
  rewrite (lor_low_high (z3 * 2 ^ 32) _ 40) by (norm_pow; lia).
  replace (z3 * 2 ^ 32 + (z2 + (z1 + z0 * 256) * 256) * 2 ^ 40)
    with ((z3 + (z2 + (z1 + z0 * 256) * 256) * 256) * 2 ^ 32) by (norm_pow; lia).
  rewrite (lor_low_high (z4 * 2 ^ 24) _ 32) by (norm_pow; lia).
  replace (z4 * 2 ^ 24 + (z3 + (z2 + (z1 + z0 * 256) * 256) * 256) * 2 ^ 32)
    with ((z4 + (z3 + (z2 + (z1 + z0 * 256) * 256) * 256) * 256) * 2 ^ 24)
    by (norm_pow; lia).
  rewrite (lor_low_high (z5 * 2 ^ 16) _ 24) by (norm_pow; lia).
  replace (z5 * 2 ^ 16 + (z4 + (z3 + (z2 + (z1 + z0 * 256) * 256) * 256) * 256) * 2 ^ 24)
    with ((z5 + (z4 + (z3 + (z2 + (z1 + z0 * 256) * 256) * 256) * 256) * 256) * 2 ^ 16)
    by (norm_pow; lia).
  rewrite (lor_low_high (z6 * 2 ^ 8) _ 16) by (norm_pow; lia).
  replace (z6 * 2 ^ 8
           + (z5 + (z4 + (z3 + (z2 + (z1 + z0 * 256) * 256) * 256) * 256) * 256) * 2 ^ 16)
    with ((z6 + (z5 + (z4 + (z3 + (z2 + (z1 + z0 * 256) * 256) * 256) * 256) * 256) * 256)
          * 2 ^ 8) by (norm_pow; lia).
  rewrite (lor_low_high z7 _ 8) by (norm_pow; lia).
  norm_pow. lia.
Qed.

Lemma div_pow2_step (v k k' : Z) :
  0 <= k -> k' = k + 8 -> v / 2 ^ k' * 256 + (v / 2 ^ k) mod 256 = v / 2 ^ k.
Proof.
  intros Hk ->.
  assert (Hp : 0 < 2 ^ k) by (apply Z.pow_pos_nonneg; lia).
  rewrite Z.pow_add_r by lia. rewrite <- Z.div_div by lia.
  change (2 ^ 8) with 256.
  pose proof (Z.div_mod (v / 2 ^ k) 256). lia.
Qed.

Lemma bytes_of_value (v : Z) :
  0 <= v < two64 -> be_value (BigEndian.bytes_of v) = v.
Proof.
  intros Hv. unfold be_value, BigEndian.bytes_of, two64 in *. simpl foldl.
  rewrite !Z_of_byte_of_Z, !Z.shiftr_div_pow2 by lia.
  rewrite (Z.mod_small (v / 2 ^ 56)).
  2:{ split; [apply Z.div_pos; lia|].
      apply Z.div_lt_upper_bound; [lia|]. norm_pow. lia. }
  rewrite Z.mul_0_l, Z.add_0_l.
  rewrite (div_pow2_step v 48 56), (div_pow2_step v 40 48), (div_pow2_step v 32 40),
    (div_pow2_step v 24 32), (div_pow2_step v 16 24), (div_pow2_step v 8 16) by lia.
  pose proof (div_pow2_step v 0 8) as H0. rewrite Z.pow_0_r, Z.div_1_r in H0.
  apply H0; lia.
Qed.

Lemma convertPayloadId_bytes (id : Z) : convertPayloadId id = BigEndian.bytes_of id.
Proof. reflexivity. Qed.

(** C9: a 64-bit payload id is encoded as exactly eight bytes, the
    big-endian digits of the counter value, and decoding the encoding with
    the read the GetPayload methods use gives the id back. *)
Theorem payloadId_roundtrip (e : EngineServer) (id : Z) :
  0 <= id < two64 ->
  length (convertPayloadId id) = 8%nat
  /\ be_value (convertPayloadId id) = id
  /\ BigEndian.Uint64 (convertPayloadId id) = Some id
  /\ GetPayloadV2 e (convertPayloadId id) = getPayload e id.
Proof.
  intros Hid.
  assert (Hdec : BigEndian.Uint64 (convertPayloadId id) = Some id).
  { rewrite convertPayloadId_bytes. unfold BigEndian.bytes_of.
    rewrite Uint64_value. f_equal. apply (bytes_of_value id Hid). }
  repeat split.
  - rewrite convertPayloadId_bytes. apply (bytes_of_value id Hid).
  - exact Hdec.
  - unfold GetPayloadV2. rewrite Hdec. reflexivity.
Qed.

Lemma payloadId_roundtrip_witness :
  0 <= 258 < two64
  /\ (length (convertPayloadId 258) = 8%nat
      /\ be_value (convertPayloadId 258) = 258
      /\ BigEndian.Uint64 (convertPayloadId 258) = Some 258
      /\ GetPayloadV2 Examples.server0 (convertPayloadId 258)
         = getPayload Examples.server0 258).
Proof.
  split; [unfold two64; lia |].
  apply (payloadId_roundtrip Examples.server0 258). unfold two64. lia.
Defined.

Lemma Uint64_short (b : Bytes) :
  (length b < 8)%nat -> BigEndian.Uint64 b = None.
Proof.
  intros Hlen.
  do 8 (destruct b as [|? b]; [reflexivity | simpl in Hlen]).
  lia.
Qed.

Lemma Uint64_long (b : Bytes) :
  (8 <= length b)%nat -> BigEndian.Uint64 b = Some (be_value (take 8 b)).
Proof.
  intros Hlen.
  do 8 (destruct b as [|? b]; [simpl in Hlen; lia |]).
  rewrite Uint64_value. reflexivity.
Qed.

Lemma Uint64_cases (b : Bytes) :
  BigEndian.Uint64 b
  = if (length b <? 8)%nat then None else Some (be_value (take 8 b)).
Proof.
  destruct (length b <? 8)%nat eqn:E.
  - apply Uint64_short. apply Nat.ltb_lt. exact E.
  - apply Uint64_long. apply Nat.ltb_ge. exact E.
Qed.

(** C10: GetPayloadV1, V2 and V3 read the wire id with a fixed-width
    big-endian read and no guard: on eight bytes or more the id is the
    big-endian value of the first eight, on fewer the call panics instead
    of returning an error. *)
Theorem GetPayload_decodes_unguarded (e : EngineServer) (payloadId : Bytes) :
  BigEndian.Uint64 payloadId
  = (if (length payloadId <? 8)%nat then None
     else Some (be_value (take 8 payloadId)))
  /\ GetPayloadV1 e payloadId
     = (if (length payloadId <? 8)%nat then Panic
        else response ← getPayload e (be_value (take 8 payloadId));
             Return (gpr_ExecutionPayload response))
  /\ GetPayloadV2 e payloadId
     = (if (length payloadId <? 8)%nat then Panic
        else getPayload e (be_value (take 8 payloadId)))
  /\ GetPayloadV3 e payloadId
     = (if (length payloadId <? 8)%nat then Panic
        else getPayload e (be_value (take 8 payloadId))).
Proof.
  unfold GetPayloadV1, GetPayloadV2, GetPayloadV3.
  rewrite (Uint64_cases payloadId).
  destruct (length payloadId <? 8)%nat; repeat split; reflexivity.
Qed.

(** ** The consensus-side client *)

(** Whatever error the call returns, [ForkChoiceUpdate] returns it wrapped:
    the statement that ignores timeouts comes after that return. *)
Lemma ForkChoiceUpdate_wraps_error (cc : ExecutionClient.ExecutionClientRpc)
    (finalized head : Hash) (e : Error) (resp : option PayloadStatus) :
  ExecutionClient.CallContext cc ExecutionClient.ForkChoiceUpdatedV1
    (mkForkChoiceState head head finalized) = (Some e, resp) ->
  ExecutionClient.ForkChoiceUpdate cc finalized head
  = Some (Errorf ("execution Client RPC failed to retrieve ForkChoiceUpdate response, err: "
                  ++ Error_Error e)).
Proof.
  intros Hcall. unfold ExecutionClient.ForkChoiceUpdate. rewrite Hcall. reflexivity.
Qed.

(** C2 (the code departs from it): when the call fails with "context
    deadline exceeded", [ForkChoiceUpdate] does not return nil; it returns
    the error, wrapped. *)
Theorem ForkChoiceUpdate_deadline_exceeded_is_returned :
  ExecutionClient.CallContext Examples.timedOutClient
    ExecutionClient.ForkChoiceUpdatedV1
    (mkForkChoiceState Examples.hash5 Examples.hash5 Examples.hash4)
  = (Some (Errorf ExecutionClient.errContextExceeded), None)
  /\ ExecutionClient.ForkChoiceUpdate Examples.timedOutClient
       Examples.hash4 Examples.hash5
     = Some (Errorf "execution Client RPC failed to retrieve ForkChoiceUpdate response, err: context deadline exceeded")
  /\ ExecutionClient.ForkChoiceUpdate Examples.timedOutClient
       Examples.hash4 Examples.hash5 <> None.
Proof.
  split; [reflexivity |]. split; [reflexivity | discriminate].
Qed.

(** ** Header reconstruction and fork gating *)

Section Gating.
Context `{Externals}.

Lemma payloadHeader_Time (req : ExecutionPayload) (version : StateVersion) :
  h_Time (payloadHeader req version) = ep_Timestamp req.
Proof. reflexivity. Qed.

Lemma checkWithdrawalsPresence_None (s : EngineServer) (time : Z)
    (withdrawals : option (list Withdrawal)) :
  checkWithdrawalsPresence s time withdrawals = None
  <-> IsShanghai (config s) time = isSome withdrawals.
Proof.
  unfold checkWithdrawalsPresence.
  destruct (IsShanghai (config s) time), withdrawals; simpl;
    split; intros; congruence.
Qed.

Lemma checkWithdrawalsPresence_Some (s : EngineServer) (time : Z)
    (withdrawals : option (list Withdrawal)) :
  IsShanghai (config s) time <> isSome withdrawals ->
  exists msg,
    checkWithdrawalsPresence s time withdrawals = Some (InvalidParamsError msg).
Proof.
  unfold checkWithdrawalsPresence.
  destruct (IsShanghai (config s) time), withdrawals; simpl; intros Hne;
    try congruence; eauto.
Qed.

Lemma newPayload_after_gates (s : EngineServer) (req : ExecutionPayload)
    (version : StateVersion) :
  forkGatedFieldsMatch s req version = true ->
  Header_Hash (payloadHeader req version) <> ep_BlockHash req ->
  newPayload s req version
  = (Return (mkPayloadStatus InvalidStatus None (Some "invalid block hash"%string) None), s).
Proof.
  intros Hgate Hhash. unfold forkGatedFieldsMatch in Hgate.
  apply andb_prop in Hgate as [Hgate Hx]. apply andb_prop in Hgate as [Hw Hd].
  apply bool_decide_eq_true in Hw, Hd, Hx.
  unfold newPayload. cbv zeta. fold (payloadWithdrawals req version).
  rewrite payloadHeader_Time.
  apply checkWithdrawalsPresence_None in Hw. rewrite Hw.
  rewrite <- Hd, <- Hx.
  destruct (IsCancun (config s) (ep_Timestamp req)); simpl;
    rewrite bool_decide_eq_false_2 by exact Hhash; reflexivity.
Qed.

Lemma newPayload_presence_fails (s : EngineServer) (req : ExecutionPayload)
    (version : StateVersion) :
  IsShanghai (config s) (ep_Timestamp req) <> isSome (payloadWithdrawals req version) ->
  exists msg, newPayload s req version = (Fail (InvalidParamsError msg), s).
Proof.
  intros Hne. unfold newPayload. cbv zeta. fold (payloadWithdrawals req version).
  rewrite payloadHeader_Time.
  destruct (checkWithdrawalsPresence_Some s _ _ Hne) as [msg ->]. eauto.
Qed.

(** Past the gates, the hash check and the decoding of the transactions,
    [newPayload] asks the classifier. *)
Lemma newPayload_reaches_classifier (s : EngineServer) (req : ExecutionPayload)
    (version : StateVersion) (transactions : list Transaction) :
  forkGatedFieldsMatch s req version = true ->
  Header_Hash (payloadHeader req version) = ep_BlockHash req ->
  existsb TypedTransactionMarshalledAsRlpString (ep_Transactions req) = false ->
  DecodeTransactions (ep_Transactions req) = Return transactions ->
  forall st s',
    getQuickPayloadStatusIfPossible s (ep_BlockHash req) (ep_BlockNumber req)
      (ep_ParentHash req) None true = (Return (Some st), s') ->
    newPayload s req version = (Return st, s').
Proof.
  intros Hgate Hhash Hrlp Hdec st s' Hq. unfold forkGatedFieldsMatch in Hgate.
  apply andb_prop in Hgate as [Hgate Hx]. apply andb_prop in Hgate as [Hw Hd].
  apply bool_decide_eq_true in Hw, Hd, Hx.
  unfold newPayload. cbv zeta. fold (payloadWithdrawals req version).
  rewrite payloadHeader_Time.
  apply checkWithdrawalsPresence_None in Hw. rewrite Hw.
  rewrite <- Hd, <- Hx.
  destruct (IsCancun (config s) (ep_Timestamp req)); simpl;
    rewrite bool_decide_eq_true_2 by exact Hhash; simpl;
    rewrite Hrlp, Hdec; simpl; rewrite Hq; reflexivity.
Qed.

End Gating.

(** ** The status classifier *)

Section Classifier.
Context `{Externals}.

Lemma classifier_repeated_forkchoice (s : EngineServer) (h : HeaderDownload)
    (ttd : Z) (tx : Tx) (blockHash : Hash) (blockNumber : Z) (parentHash : Hash)
    (m : ForkChoiceState) (newPayload : bool) :
  TerminalTotalDifficulty (config s) = Some ttd ->
  hd s = Some h ->
  db_BeginRo s = Return tx ->
  fcs_HeadHash m = ReadForkchoiceHead tx ->
  fcs_SafeBlockHash m = ReadForkchoiceSafe tx ->
  fcs_FinalizedBlockHash m = ReadForkchoiceFinalized tx ->
  getQuickPayloadStatusIfPossible s blockHash blockNumber parentHash (Some m) newPayload
  = (Return (Some (mkPayloadStatus ValidStatus (Some blockHash) None None)), s).
Proof.
  intros Httd Hhd Htx Hh Hs Hf. unfold getQuickPayloadStatusIfPossible.
  rewrite Httd, Hhd, Htx. simpl.
  rewrite !bool_decide_eq_true_2 by assumption. reflexivity.
Qed.

Lemma classifier_before_TTD (s : EngineServer) (h : HeaderDownload)
    (ttd td : Z) (tx : Tx) (blockHash : Hash) (blockNumber : Z) (parentHash : Hash)
    (header parent : option Header) :
  TerminalTotalDifficulty (config s) = Some ttd ->
  hd s = Some h ->
  db_BeginRo s = Return tx ->
  ReadHeaderByHash tx blockHash = Return header ->
  ReadHeaderByHash tx parentHash = Return parent ->
  ReadTdByHash tx parentHash = Return (Some td) ->
  td < ttd ->
  getQuickPayloadStatusIfPossible s blockHash blockNumber parentHash None true
  = (Return (Some (mkPayloadStatus InvalidStatus (Some zeroHash) None None)), s).
Proof.
  intros Httd Hhd Htx Hhdr Hpar Htd Hlt. unfold getQuickPayloadStatusIfPossible.
  rewrite Httd, Hhd, Htx. simpl. rewrite Hhdr. simpl. rewrite Hpar. simpl.
  rewrite Htd. simpl.
  destruct (td <? ttd) eqn:E; [reflexivity | apply Z.ltb_ge in E; lia].
Qed.

(** Once the classifier has answered, [forkchoiceUpdated] leaves the
    downloader as the classifier left it: nothing is queued. *)
Lemma forkchoiceUpdated_decided_hd (s s1 : EngineServer) (st : PayloadStatus)
    (forkChoice : ForkChoiceState) (attrs : option PayloadAttributes)
    (version : StateVersion) :
  getQuickPayloadStatusIfPossible s (fcs_HeadHash forkChoice) 0 zeroHash
    (Some (mkForkChoiceState (fcs_HeadHash forkChoice) (fcs_SafeBlockHash forkChoice)
             (fcs_FinalizedBlockHash forkChoice))) false = (Return (Some st), s1) ->
  hd (forkchoiceUpdated s forkChoice attrs version).2 = hd s1.
Proof.
  intros Hq. unfold forkchoiceUpdated. cbv zeta. simpl fcs_HeadHash.
  rewrite Hq. unfold andThen. simpl.
  repeat (case_match; simpl; try reflexivity).
  all: match goal with
       | Hev : evictOldBuilders _ = Some _ |- _ =>
           unfold evictOldBuilders in Hev;
           destruct (evictLoop _ _ _); simpl in Hev; simplify_eq; reflexivity
       end.
Qed.

End Classifier.

(** ** The builder registry *)

Section Registry.
Context `{Externals}.

Lemma same_but_hd_refl (s : EngineServer) : same_but_hd s s.
Proof. destruct s. reflexivity. Qed.

Lemma same_but_hd_set_hd (s : EngineServer) (h : HeaderDownload) :
  same_but_hd s (set_hd s h).
Proof. reflexivity. Qed.

Lemma same_but_hd_trans (s1 s2 s3 : EngineServer) :
  same_but_hd s1 s2 -> same_but_hd s2 s3 -> same_but_hd s1 s3.
Proof.
  unfold same_but_hd. intros H12 H23. rewrite H23. rewrite H12. reflexivity.
Qed.

Lemma classifier_same_but_hd (s : EngineServer) (blockHash : Hash) (blockNumber : Z)
    (parentHash : Hash) (m : option ForkChoiceState) (newPayload : bool) :
  same_but_hd s
    (getQuickPayloadStatusIfPossible s blockHash blockNumber parentHash m newPayload).2.
Proof.
  unfold getQuickPayloadStatusIfPossible, andThen.
  repeat (case_match; simpl;
          try apply same_but_hd_refl; try apply same_but_hd_set_hd).
Qed.

Lemma newPayload_same_but_hd (s : EngineServer) (req : ExecutionPayload)
    (version : StateVersion) :
  same_but_hd s (newPayload s req version).2.
Proof.
  unfold newPayload. cbv zeta.
  pose proof (classifier_same_but_hd s (ep_BlockHash req) (ep_BlockNumber req)
                (h_ParentHash (payloadHeader req version)) None true) as Hq.
  destruct (getQuickPayloadStatusIfPossible s (ep_BlockHash req) (ep_BlockNumber req)
              (h_ParentHash (payloadHeader req version)) None true) as [q s1].
  simpl in Hq. unfold andThen.
  repeat (case_match; simpl; try apply same_but_hd_refl; try exact Hq;
          try (eapply same_but_hd_trans; [exact Hq | apply same_but_hd_set_hd])).
Qed.


Ltac fcu_version :=
  unfold buildParameters;
  repeat match goal with
         | Hv : version_ge _ _ = _ |- _ => rewrite Hv
         end.

Ltac fcu_quiet :=
  fcu_version; left; split; [reflexivity |];
  intros r id Hr Hid; simplify_eq; simpl in Hid; simplify_eq;
  (eexists; split; [reflexivity |]; split; [| reflexivity];
   match goal with
   | Hd : bool_decide _ = true |- _ => apply bool_decide_eq_true in Hd; exact Hd
   end).

Ltac fcu_build :=
  fcu_version; right; do 3 eexists; split; [reflexivity |]; split;
  [ match goal with
    | Hd : bool_decide _ = false |- _ => apply bool_decide_eq_false in Hd; exact Hd
    end |];
  split; [first [eassumption | reflexivity] |]; split; reflexivity.

(** What [forkchoiceUpdated] does to the server: either nothing but to the
    downloader, and then a payload id in the answer is the current one,
    found by the comparison with the last parameters; or one round of
    eviction, one step of the counter and one new builder. *)
Lemma forkchoiceUpdated_registry (s : EngineServer) (forkChoice : ForkChoiceState)
    (attrs : option PayloadAttributes) (version : StateVersion) :
  let res := forkchoiceUpdated s forkChoice attrs version in
  (res.2 = with_collaborators s (hd res.2) (db_BeginRo s)
   /\ forall r id, res.1 = Return r -> fcr_PayloadId r = Some id ->
        exists a, attrs = Some a
          /\ lastParameters s = Some (buildParameters forkChoice a version (payloadId s))
          /\ id = convertPayloadId (payloadId s))
  \/ (exists a b st,
        let id := add64 (payloadId s) 1 in
        let p := buildParameters forkChoice a version id in
        attrs = Some a
        /\ lastParameters s <> Some (buildParameters forkChoice a version (payloadId s))
        /\ evictLoop (SortedKeys (builders s)) 0 (builders s) = Some b
        /\ res.2 = mkEngineServer (hd res.2) (config s) id (Some p)
                     (<[id := NewBlockBuilder (builderFunc s) p]> b)
                     (builderFunc s) (proposing s) (db_BeginRo s)
        /\ res.1 = Return (mkForkChoiceUpdatedResponse st (Some (convertPayloadId id)))).
Proof.
  cbv zeta. unfold forkchoiceUpdated. cbv zeta. simpl fcs_HeadHash.
  pose proof (classifier_same_but_hd s (fcs_HeadHash forkChoice) 0 zeroHash
    (Some (mkForkChoiceState (fcs_HeadHash forkChoice) (fcs_SafeBlockHash forkChoice)
             (fcs_FinalizedBlockHash forkChoice))) false) as Hq.
  destruct (getQuickPayloadStatusIfPossible s (fcs_HeadHash forkChoice) 0 zeroHash
    (Some (mkForkChoiceState (fcs_HeadHash forkChoice) (fcs_SafeBlockHash forkChoice)
             (fcs_FinalizedBlockHash forkChoice))) false) as [q s0].
  simpl in Hq. destruct s0 as [h0 c0 id0 l0 b0 f0 pr0 d0].
  unfold same_but_hd in Hq. simpl in Hq. injection Hq as -> -> -> -> -> -> ->.
  unfold andThen, evictOldBuilders, set_hd, set_builders, with_collaborators.
  simpl.
  repeat (case_match; simpl in *; simplify_eq);
    try match goal with
        | Hx : _ <$> ?o = _ |- _ => destruct o eqn:?; simpl in Hx; simplify_eq; simpl
        end;
    first [ solve [fcu_quiet] | solve [fcu_build] ].
Qed.

(** *** The key list *)

Lemma SortedKeys_elem_of (b : gmap Z BlockBuilder) (x : Z) :
  x ∈ SortedKeys b <-> is_Some (b !! x).
Proof.
  unfold SortedKeys. rewrite merge_sort_Permutation.
  rewrite list_elem_of_fmap. split.
  - intros [[k v] [-> Hin]]. apply elem_of_map_to_list in Hin. simpl. eauto.
  - intros [v Hv]. exists (x, v). split; [reflexivity |].
    apply elem_of_map_to_list. exact Hv.
Qed.

Lemma SortedKeys_NoDup (b : gmap Z BlockBuilder) : NoDup (SortedKeys b).
Proof.
  unfold SortedKeys. rewrite merge_sort_Permutation.
  apply NoDup_fst_map_to_list.
Qed.

Lemma SortedKeys_sorted (b : gmap Z BlockBuilder) :
  StronglySorted Z.le (SortedKeys b).
Proof. unfold SortedKeys. apply StronglySorted_merge_sort; apply _. Qed.

Lemma SortedKeys_length (b : gmap Z BlockBuilder) :
  length (SortedKeys b) = size b.
Proof.
  unfold SortedKeys. rewrite merge_sort_Permutation.
  rewrite length_fmap. apply length_map_to_list.
Qed.

(** In the ascending list of distinct keys, a key among the first [k] is
    below every key after them. *)
Lemma SortedKeys_take_lt_drop (b : gmap Z BlockBuilder) (k : nat) (x y : Z) :
  x ∈ take k (SortedKeys b) -> y ∈ drop k (SortedKeys b) -> x < y.
Proof.
  intros Hx Hy.
  pose proof (SortedKeys_sorted b) as Hs. pose proof (SortedKeys_NoDup b) as Hn.
  rewrite <- (take_drop k (SortedKeys b)) in Hs, Hn.
  apply NoDup_app in Hn as (_ & Hdisj & _).
  pose proof (StronglySorted_app_1_elem_of _ _ _ x y Hs Hx Hy) as Hle.
  assert (x <> y) by (intros ->; exact (Hdisj y Hx Hy)).
  lia.
Qed.

(** *** The eviction loop *)

Lemma evicted_S (id : Z) (ids : list Z) (k : nat) (b : gmap Z BlockBuilder) :
  evicted (id :: ids) (S k) b = evicted ids k (delete id b).
Proof. reflexivity. Qed.

Lemma evicted_lookup (ids : list Z) (k : nat) (b : gmap Z BlockBuilder) (y : Z) :
  evicted ids k b !! y = if bool_decide (y ∈ take k ids) then None else b !! y.
Proof.
  revert k b. induction ids as [|id ids IH]; intros k b.
  - unfold evicted. rewrite take_nil. reflexivity.
  - destruct k as [|k]; [reflexivity |].
    rewrite evicted_S, IH. rewrite firstn_cons.
    destruct (decide (y = id)) as [->|Hne].
    + rewrite (bool_decide_eq_true_2 (id ∈ id :: take k ids)) by apply list_elem_of_here.
      case_bool_decide; [reflexivity | apply lookup_delete_eq].
    + rewrite lookup_delete_ne by congruence.
      rewrite (bool_decide_ext (y ∈ id :: take k ids) (y ∈ take k ids));
        [reflexivity |]. rewrite elem_of_cons. split; [intros [Heq | Hin]; [congruence | exact Hin] | auto].
Qed.

(** The loop stops after some number of rounds, having deleted the keys it
    went through. *)
Lemma evictLoop_evicted (ids : list Z) (i : Z) (b b' : gmap Z BlockBuilder) :
  evictLoop ids i b = Some b' ->
  exists k : nat, (k <= length ids)%nat /\ b' = evicted ids k b.
Proof.
  revert i b. induction ids as [|id ids IH]; intros i b Hloop; simpl in Hloop.
  - destruct (i <=? Z.of_nat (size b) - MaxBuilders); [discriminate |].
    exists 0%nat. split; [lia | injection Hloop as <-; reflexivity].
  - destruct (i <=? Z.of_nat (size b) - MaxBuilders).
    + destruct (IH _ _ Hloop) as (k & Hk & ->).
      exists (S k). split; [simpl; lia | reflexivity].
    + exists 0%nat. split; [simpl; lia | injection Hloop as <-; reflexivity].
Qed.

(** On a registry within the bound the loop deletes at most the smallest
    key, and leaves room for one builder. *)
Lemma evictLoop_bounded (b : gmap Z BlockBuilder) :
  Z.of_nat (size b) <= MaxBuilders ->
  exists b', evictLoop (SortedKeys b) 0 b = Some b'
             /\ Z.of_nat (size b') <= MaxBuilders - 1.
Proof.
  intros Hsize.
  destruct (Z.of_nat (size b) <? MaxBuilders) eqn:Hlt.
  - apply Z.ltb_lt in Hlt. exists b. split; [| lia].
    assert (E : (0 <=? Z.of_nat (size b) - MaxBuilders) = false)
      by (apply Z.leb_gt; lia).
    destruct (SortedKeys b); simpl; rewrite E; reflexivity.
  - apply Z.ltb_ge in Hlt. assert (Hfull : Z.of_nat (size b) = MaxBuilders) by lia.
    pose proof (SortedKeys_length b) as Hlen.
    pose proof (SortedKeys_elem_of b) as Hin.
    destruct (SortedKeys b) as [|id ids].
    { simpl in Hlen. rewrite <- Hlen in Hfull. discriminate Hfull. }
    assert (Hid : is_Some (b !! id)) by (apply Hin; apply list_elem_of_here).
    pose proof (map_size_delete_Some id b Hid) as Hdel.
    exists (delete id b). split; [| unfold MaxBuilders in *; lia].
    assert (E : (0 + 1 <=? Z.of_nat (size (delete id b)) - MaxBuilders) = false)
      by (apply Z.leb_gt; unfold MaxBuilders in *; lia).
    simpl. rewrite Hfull, Z.sub_diag. simpl.
    destruct ids; simpl; rewrite E; reflexivity.
Qed.

(** *** The bound on the registry *)

Lemma registry_inv_fields (s s' : EngineServer) :
  payloadId s' = payloadId s -> lastParameters s' = lastParameters s ->
  builders s' = builders s -> builderFunc s' = builderFunc s ->
  registry_inv s -> registry_inv s'.
Proof.
  unfold registry_inv. intros -> -> -> ->. auto.
Qed.

Lemma registry_inv_new (cfg : ChainConfig) (build : BlockBuilderFunc)
    (db : Outcome Tx) (h : option HeaderDownload) (prop : bool) :
  registry_inv (NewEngineServer cfg build db h prop).
Proof.
  split; simpl.
  - rewrite map_size_empty. unfold MaxBuilders. lia.
  - intros p Hp. discriminate Hp.
Qed.

Lemma registry_inv_forkchoiceUpdated (s : EngineServer) (forkChoice : ForkChoiceState)
    (attrs : option PayloadAttributes) (version : StateVersion) :
  registry_inv s -> registry_inv (forkchoiceUpdated s forkChoice attrs version).2.
Proof.
  intros Hinv.
  destruct (forkchoiceUpdated_registry s forkChoice attrs version)
    as [[Hsame _] | (a & b & st & _ & _ & Hev & Hstate & _)].
  - rewrite Hsame. revert Hinv. apply registry_inv_fields; reflexivity.
  - rewrite Hstate. destruct Hinv as [Hsize _].
    destruct (evictLoop_bounded _ Hsize) as (b' & Hev' & Hb').
    rewrite Hev in Hev'. injection Hev' as <-.
    split; simpl.
    + rewrite map_size_insert.
      destruct (b !! add64 (payloadId s) 1); unfold id; lia.
    + intros p Hp. injection Hp as <-. split; [reflexivity |].
      apply lookup_insert_eq.
Qed.

Lemma registry_inv_step (s s' : EngineServer) :
  registry_inv s -> step s s' -> registry_inv s'.
Proof.
  intros Hinv Hstep. destruct Hstep as [s fc attrs v | s req v | s h db].
  - apply registry_inv_forkchoiceUpdated. exact Hinv.
  - pose proof (newPayload_same_but_hd s req v) as Hs. unfold same_but_hd in Hs.
    rewrite Hs. revert Hinv. apply registry_inv_fields; reflexivity.
  - revert Hinv. apply registry_inv_fields; reflexivity.
Qed.

Lemma reachable_registry_inv (s : EngineServer) : reachable s -> registry_inv s.
Proof.
  induction 1 as [cfg build db h prop | s s' _ IH Hstep].
  - apply registry_inv_new.
  - exact (registry_inv_step s s' IH Hstep).
Qed.

(** C5: after any sequence of calls, and so of builder insertions by
    ForkchoiceUpdated, the registry holds at most MaxBuilders builders; and
    an eviction deletes an initial stretch of the ascending key list, each
    deleted id below every id that stays. *)
Theorem builders_bounded_and_evicted_oldest_first (s : EngineServer) :
  (reachable s -> Z.of_nat (size (builders s)) <= MaxBuilders)
  /\ (forall s', evictOldBuilders s = Some s' ->
        exists k : nat,
          builders s' = evicted (SortedKeys (builders s)) k (builders s)
          /\ StronglySorted Z.le (SortedKeys (builders s))
          /\ (forall x, x ∈ take k (SortedKeys (builders s)) ->
                builders s' !! x = None)
          /\ (forall y, y ∉ take k (SortedKeys (builders s)) ->
                builders s' !! y = builders s !! y)
          /\ (forall x y, x ∈ take k (SortedKeys (builders s)) ->
                is_Some (builders s' !! y) -> x < y)).
Proof.
  split.
  - intros Hr. exact (proj1 (reachable_registry_inv s Hr)).
  - intros s' Hev. unfold evictOldBuilders in Hev.
    destruct (evictLoop (SortedKeys (builders s)) 0 (builders s)) as [b'|] eqn:Hloop;
      [| discriminate Hev].
    simpl in Hev. injection Hev as <-. simpl.
    destruct (evictLoop_evicted _ _ _ _ Hloop) as (k & _ & ->).
    exists k. split; [reflexivity |]. split; [apply SortedKeys_sorted |].
    split; [| split].
    + intros x Hx. rewrite evicted_lookup.
      rewrite bool_decide_eq_true_2 by exact Hx. reflexivity.
    + intros y Hy. rewrite evicted_lookup.
      rewrite bool_decide_eq_false_2 by exact Hy. reflexivity.
    + intros x y Hx Hy. rewrite evicted_lookup in Hy.
      case_bool_decide as Hin; [destruct Hy as [? Hy]; discriminate Hy |].
      apply (SortedKeys_take_lt_drop (builders s) k); [exact Hx |].
      apply SortedKeys_elem_of in Hy.
      rewrite <- (take_drop k (SortedKeys (builders s))) in Hy.
      apply elem_of_app in Hy as [Hy | Hy]; [contradiction | exact Hy].
Qed.

(** *** Deduplication of build requests *)

Lemma normalised_buildParameters (fc1 fc2 : ForkChoiceState)
    (a1 a2 : PayloadAttributes) (v1 v2 : StateVersion) (id : Z) :
  normalisedParameters fc1 a1 v1 = normalisedParameters fc2 a2 v2 ->
  buildParameters fc1 a1 v1 id = buildParameters fc2 a2 v2 id.
Proof.
  unfold normalisedParameters, buildParameters. intros Hn.
  injection Hn as -> -> -> -> ->. reflexivity.
Qed.

(** After a call that answers with a payload id, the server builds for the
    parameters of that call under that id. *)
Lemma forkchoiceUpdated_answers_current (s s' : EngineServer)
    (forkChoice : ForkChoiceState) (a : PayloadAttributes) (version : StateVersion)
    (r : ForkChoiceUpdatedResponse) (id : Bytes) :
  registry_inv s ->
  forkchoiceUpdated s forkChoice (Some a) version = (Return r, s') ->
  fcr_PayloadId r = Some id ->
  id = convertPayloadId (payloadId s')
  /\ lastParameters s' = Some (buildParameters forkChoice a version (payloadId s'))
  /\ builders s' !! payloadId s'
     = Some (NewBlockBuilder (builderFunc s)
               (buildParameters forkChoice a version (payloadId s')))
  /\ builderFunc s' = builderFunc s
  /\ (payloadId s' = payloadId s /\ builders s' = builders s
      \/ payloadId s' = add64 (payloadId s) 1
         /\ exists b, evictLoop (SortedKeys (builders s)) 0 (builders s) = Some b
              /\ builders s'
                 = <[payloadId s' := NewBlockBuilder (builderFunc s)
                       (buildParameters forkChoice a version (payloadId s'))]> b).
Proof.
  intros Hinv Hcall Hid.
  pose proof (forkchoiceUpdated_registry s forkChoice (Some a) version) as Hreg.
  cbv zeta in Hreg. rewrite Hcall in Hreg. simpl in Hreg.
  destruct Hreg as [[Hsame Hquiet] | (a' & b & st & Ha & _ & Hev & Hstate & Hres)].
  - destruct (Hquiet r id eq_refl Hid) as (a' & Ha & Hlast & ->).
    injection Ha as <-. rewrite Hsame. simpl.
    destruct Hinv as [_ Hlp]. destruct (Hlp _ Hlast) as [_ Hb].
    repeat split; try assumption; try reflexivity. left. split; reflexivity.
  - injection Ha as <-. injection Hres as ->. simpl in Hid. injection Hid as <-.
    rewrite Hstate. simpl.
    repeat split; try reflexivity.
    + apply lookup_insert_eq.
    + right. split; [reflexivity |]. exists b. split; [exact Hev | reflexivity].
Qed.

(** C4: of two successive ForkchoiceUpdated calls whose attributes
    normalise to the same parameter record (the payload id apart) and which
    both answer with a payload id, the second instantiates no builder and
    answers with the id of the first; the one builder registered under that
    id, with these parameters, serves both, and the first call instantiated
    no other. *)
Theorem forkchoiceUpdated_deduplicates (s1 s2 s3 : EngineServer)
    (fc1 fc2 : ForkChoiceState) (a1 a2 : PayloadAttributes) (v1 v2 : StateVersion)
    (r1 r2 : ForkChoiceUpdatedResponse) (id1 id2 : Bytes)
    (h : option HeaderDownload) (db : Outcome Tx) :
  reachable s1 ->
  forkchoiceUpdated s1 fc1 (Some a1) v1 = (Return r1, s2) ->
  fcr_PayloadId r1 = Some id1 ->
  forkchoiceUpdated (with_collaborators s2 h db) fc2 (Some a2) v2 = (Return r2, s3) ->
  fcr_PayloadId r2 = Some id2 ->
  normalisedParameters fc1 a1 v1 = normalisedParameters fc2 a2 v2 ->
  id2 = id1
  /\ id1 = convertPayloadId (payloadId s3)
  /\ builders s3 !! payloadId s3
     = Some (NewBlockBuilder (builderFunc s1) (buildParameters fc1 a1 v1 (payloadId s3)))
  /\ (payloadId s3 = payloadId s2 /\ builders s3 = builders s2
      /\ lastParameters s3 = lastParameters s2)
  /\ (payloadId s2 = payloadId s1 /\ builders s2 = builders s1
      \/ payloadId s2 = add64 (payloadId s1) 1
         /\ exists b, evictLoop (SortedKeys (builders s1)) 0 (builders s1) = Some b
              /\ builders s2
                 = <[payloadId s2 := NewBlockBuilder (builderFunc s1)
                       (buildParameters fc1 a1 v1 (payloadId s2))]> b).
Proof.
  intros Hreach Hcall1 Hid1 Hcall2 Hid2 Hnorm.
  pose proof (reachable_registry_inv s1 Hreach) as Hinv1.
  destruct (forkchoiceUpdated_answers_current _ _ _ _ _ _ _ Hinv1 Hcall1 Hid1)
    as (-> & Hlast2 & Hb2 & Hf2 & Hfirst).
  pose proof (forkchoiceUpdated_registry (with_collaborators s2 h db) fc2 (Some a2) v2)
    as Hreg.
  cbv zeta in Hreg. rewrite Hcall2 in Hreg. simpl in Hreg.
  destruct Hreg as [[Hsame Hquiet] | (a' & b & st & Ha & Hne & _)].
  - destruct (Hquiet r2 id2 eq_refl Hid2) as (a' & _ & _ & ->).
    assert (Hp : payloadId s3 = payloadId s2) by (rewrite Hsame; reflexivity).
    assert (Hb : builders s3 = builders s2) by (rewrite Hsame; reflexivity).
    assert (Hl : lastParameters s3 = lastParameters s2) by (rewrite Hsame; reflexivity).
    rewrite Hp, Hb. repeat split; try assumption; try reflexivity.
  - exfalso. injection Ha as <-. apply Hne. simpl.
    rewrite Hlast2. f_equal. apply normalised_buildParameters. exact Hnorm.
Qed.

End Registry.

(** ** Payload bodies by range *)

Lemma add64_succ (start i : Z) : add64 (add64 start i) 1 = add64 start (i + 1).
Proof.
  unfold add64, wrap64, two64. rewrite Z.add_mod_idemp_l by lia.
  f_equal. lia.
Qed.

Lemma bodiesByRangeLoop_run (tx : Tx) (canon : Z -> Hash)
    (body : Z -> option ExecutionPayloadBodyV1) (start : Z) :
  forall (left : nat) (i : Z) (bodies : list (option ExecutionPayloadBodyV1)),
    (forall j, i <= j < i + Z.of_nat left ->
       ReadCanonicalHash tx (add64 start j) = Return (canon (add64 start j))) ->
    (forall j, i <= j < i + Z.of_nat left -> canon (add64 start j) <> zeroHash ->
       (block ← BlockWithSenders tx (canon (add64 start j)) (add64 start j);
        extractPayloadBodyFromBlock block)
       = Return (body (add64 start j))) ->
    bodiesByRangeLoop tx start left i bodies
    = Return (bodies ++ (body <$> (canonicalRun canon (add64 start i) left).*1)).
Proof.
  induction left as [|left IH]; intros i bodies Hcanon Hbody; simpl.
  - rewrite app_nil_r. reflexivity.
  - rewrite Hcanon by lia. simpl. case_bool_decide as Hgap.
    + simpl. rewrite app_nil_r. reflexivity.
    + assert (Hi : i <= i < i + Z.of_nat (S left)) by lia.
      pose proof (Hbody i Hi Hgap) as Hb.
      destruct (BlockWithSenders tx (canon (add64 start i)) (add64 start i))
        as [block| | |]; simpl in Hb; try discriminate Hb.
      simpl. rewrite Hb. simpl. rewrite IH, add64_succ.
      * rewrite <- app_assoc. reflexivity.
      * intros j Hj. apply Hcanon. lia.
      * intros j Hj. apply Hbody. lia.
Qed.

(** C8: GetPayloadBodiesByRangeV1 refuses a zero start or count with
    INVALID_PARAMS and a count above 1024 with TOO_LARGE_REQUEST; otherwise,
    the store reads of the [count] numbers from [start] on succeeding, it
    returns the bodies of the canonical blocks numbered from [start] on, in
    order, as many as there are canonical hashes before the first gap among
    these numbers, and no padding. *)
Theorem GetPayloadBodiesByRangeV1_spec (e : EngineServer) (start count : Z) :
  0 <= start < two64 ->
  0 <= count < two64 ->
  (start = 0 \/ count = 0 ->
     exists msg, GetPayloadBodiesByRangeV1 e start count = Fail (InvalidParamsError msg))
  /\ (start <> 0 -> count <> 0 -> 1024 < count ->
        GetPayloadBodiesByRangeV1 e start count = Fail TooLargeRequestErr)
  /\ (start <> 0 -> count <> 0 -> count <= 1024 ->
        forall (tx : Tx) (canon : Z -> Hash) (body : Z -> option ExecutionPayloadBodyV1),
          db_BeginRo e = Return tx ->
          (forall i, 0 <= i < count ->
             ReadCanonicalHash tx (add64 start i) = Return (canon (add64 start i))) ->
          (forall i, 0 <= i < count -> canon (add64 start i) <> zeroHash ->
             (block ← BlockWithSenders tx (canon (add64 start i)) (add64 start i);
              extractPayloadBodyFromBlock block)
             = Return (body (add64 start i))) ->
          GetPayloadBodiesByRangeV1 e start count
          = Return (body <$> (canonicalRun canon start (Z.to_nat count)).*1)
          /\ (length (body <$> (canonicalRun canon start (Z.to_nat count)).*1)
              = length (canonicalRun canon start (Z.to_nat count)))).
Proof.
  intros Hstart Hcount. unfold GetPayloadBodiesByRangeV1.
  split; [| split].
  - intros [-> | ->].
    + rewrite bool_decide_eq_true_2 by reflexivity. simpl. eauto.
    + rewrite (bool_decide_eq_true_2 (0 = 0)) by reflexivity.
      rewrite orb_true_r. eauto.
  - intros Hs Hc Hbig.
    rewrite !bool_decide_eq_false_2 by assumption. simpl.
    destruct (1024 <? count) eqn:E; [reflexivity | apply Z.ltb_ge in E; lia].
  - intros Hs Hc Hsmall tx canon body Htx Hcanon Hbody.
    rewrite !bool_decide_eq_false_2 by assumption. simpl.
    destruct (1024 <? count) eqn:E; [apply Z.ltb_lt in E; lia |].
    split; [| rewrite !length_fmap; reflexivity].
    unfold getPayloadBodiesByRange. rewrite Htx. simpl.
    rewrite (bodiesByRangeLoop_run tx canon body start (Z.to_nat count) 0 []).
    + simpl. unfold add64, wrap64. rewrite Z.add_0_r, Z.mod_small by lia.
      reflexivity.
    + intros j Hj. apply Hcanon. lia.
    + intros j Hj. apply Hbody. lia.
Qed.

(** ** The claims about [newPayload] and the classifier *)

Section Claims.
Context `{Externals}.

Lemma newPayload_gates_fail (s : EngineServer) (req : ExecutionPayload)
    (version : StateVersion) :
  forkGatedFieldsMatch s req version = false ->
  exists msg, newPayload s req version = (Fail (InvalidParamsError msg), s).
Proof.
  intros Hgate. unfold forkGatedFieldsMatch in Hgate.
  unfold newPayload. cbv zeta. fold (payloadWithdrawals req version).
  rewrite payloadHeader_Time.
  destruct (decide (IsShanghai (config s) (ep_Timestamp req)
                    = isSome (payloadWithdrawals req version))) as [Hw | Hw].
  - rewrite (bool_decide_eq_true_2 _ Hw) in Hgate.
    apply checkWithdrawalsPresence_None in Hw. rewrite Hw.
    destruct (IsCancun (config s) (ep_Timestamp req)),
      (isSome (h_DataGasUsed (payloadHeader req version))),
      (isSome (h_ExcessDataGas (payloadHeader req version)));
      simpl in *; try discriminate Hgate; eauto.
  - destruct (checkWithdrawalsPresence_Some s _ _ Hw) as [msg ->]. eauto.
Qed.

(** C1 (amended): a payload that passes the fork gates and whose rebuilt
    header does not hash to the stated block hash is answered, without an
    error, with status INVALID, no latest valid hash and the validation
    error "invalid block hash"; the server is left as it was, nothing is
    queued for the importer. *)
Theorem newPayload_hash_mismatch_is_INVALID (s : EngineServer)
    (req : ExecutionPayload) (version : StateVersion) :
  forkGatedFieldsMatch s req version = true ->
  Header_Hash (payloadHeader req version) <> ep_BlockHash req ->
  newPayload s req version
  = (Return (mkPayloadStatus InvalidStatus None (Some "invalid block hash"%string) None), s)
  /\ queued (newPayload s req version).2 = queued s.
Proof.
  intros Hgate Hhash.
  rewrite (newPayload_after_gates s req version Hgate Hhash).
  split; reflexivity.
Qed.

(** C6 (amended): when the presence of the withdrawals list that the
    called version reads (the envelope's from Capella on, none for the
    Bellatrix method) disagrees with the activation of Shanghai at the
    payload's timestamp, [newPayload] fails with INVALID_PARAMS and queues
    nothing for the importer. *)
Theorem newPayload_withdrawals_presence_checked (s : EngineServer)
    (req : ExecutionPayload) (version : StateVersion) :
  IsShanghai (config s) (ep_Timestamp req) <> isSome (payloadWithdrawals req version) ->
  (exists msg, newPayload s req version = (Fail (InvalidParamsError msg), s))
  /\ queued (newPayload s req version).2 = queued s.
Proof.
  intros Hne. destruct (newPayload_presence_fails s req version Hne) as [msg Hres].
  rewrite Hres. split; [eauto | reflexivity].
Qed.

(** C7: on a server with a terminal total difficulty and a header
    downloader, whose store reads succeed: when the total difficulty of the
    parent is known to the chain store and below the terminal total
    difficulty, the classifier answers a new payload with status INVALID
    and the zero hash as latest valid hash, and so does [newPayload] for
    every payload that gets as far as the classifier. *)
Theorem newPayload_parent_below_TTD_is_INVALID (s : EngineServer)
    (h : HeaderDownload) (ttd td : Z) (tx : Tx) (blockHash : Hash)
    (blockNumber : Z) (parentHash : Hash) (header parent : option Header) :
  TerminalTotalDifficulty (config s) = Some ttd ->
  hd s = Some h ->
  db_BeginRo s = Return tx ->
  ReadHeaderByHash tx blockHash = Return header ->
  ReadHeaderByHash tx parentHash = Return parent ->
  ReadTdByHash tx parentHash = Return (Some td) ->
  td < ttd ->
  getQuickPayloadStatusIfPossible s blockHash blockNumber parentHash None true
  = (Return (Some (mkPayloadStatus InvalidStatus (Some zeroHash) None None)), s)
  /\ forall (req : ExecutionPayload) (version : StateVersion)
            (transactions : list Transaction),
       ep_BlockHash req = blockHash ->
       ep_BlockNumber req = blockNumber ->
       ep_ParentHash req = parentHash ->
       forkGatedFieldsMatch s req version = true ->
       Header_Hash (payloadHeader req version) = ep_BlockHash req ->
       existsb TypedTransactionMarshalledAsRlpString (ep_Transactions req) = false ->
       DecodeTransactions (ep_Transactions req) = Return transactions ->
       newPayload s req version
       = (Return (mkPayloadStatus InvalidStatus (Some zeroHash) None None), s).
Proof.
  intros Httd Hhd Htx Hhdr Hpar Htd Hlt.
  pose proof (classifier_before_TTD s h ttd td tx blockHash blockNumber parentHash
                header parent Httd Hhd Htx Hhdr Hpar Htd Hlt) as Hq.
  split; [exact Hq |].
  intros req version transactions <- <- <- Hgate Hhash Hrlp Hdec.
  exact (newPayload_reaches_classifier s req version transactions
           Hgate Hhash Hrlp Hdec _ _ Hq).
Qed.

(** C3: on a server with a terminal total difficulty and a header
    downloader, whose read transaction opens: a forkchoice update whose
    head, safe and finalized hashes are the persisted ones is answered by
    the classifier with status VALID and the head hash as latest valid
    hash; [forkchoiceUpdated] queues nothing for the importer, and without
    attributes returns just that status. *)
Theorem forkchoiceUpdated_repeated_forkchoice_is_VALID (s : EngineServer)
    (h : HeaderDownload) (ttd : Z) (tx : Tx) (forkChoice : ForkChoiceState) :
  TerminalTotalDifficulty (config s) = Some ttd ->
  hd s = Some h ->
  db_BeginRo s = Return tx ->
  fcs_HeadHash forkChoice = ReadForkchoiceHead tx ->
  fcs_SafeBlockHash forkChoice = ReadForkchoiceSafe tx ->
  fcs_FinalizedBlockHash forkChoice = ReadForkchoiceFinalized tx ->
  getQuickPayloadStatusIfPossible s (fcs_HeadHash forkChoice) 0 zeroHash
    (Some forkChoice) false
  = (Return (Some (mkPayloadStatus ValidStatus (Some (fcs_HeadHash forkChoice)) None None)), s)
  /\ (forall attrs version,
        queued (forkchoiceUpdated s forkChoice attrs version).2 = queued s)
  /\ (forall version,
        forkchoiceUpdated s forkChoice None version
        = (Return (mkForkChoiceUpdatedResponse
                     (mkPayloadStatus ValidStatus (Some (fcs_HeadHash forkChoice)) None None)
                     None), s)).
Proof.
  intros Httd Hhd Htx Hhead Hsafe Hfin.
  pose proof (classifier_repeated_forkchoice s h ttd tx (fcs_HeadHash forkChoice) 0
                zeroHash forkChoice false Httd Hhd Htx Hhead Hsafe Hfin) as Hq.
  split; [exact Hq |]. destruct forkChoice as [head safe fin]. simpl in *.
  split.
  - intros attrs version. unfold queued.
    rewrite (forkchoiceUpdated_decided_hd s s _ (mkForkChoiceState head safe fin)
               attrs version Hq). reflexivity.
  - intros version. unfold forkchoiceUpdated. cbv zeta. simpl fcs_HeadHash.
    simpl fcs_SafeBlockHash. simpl fcs_FinalizedBlockHash.
    rewrite Hq. reflexivity.
Qed.

End Claims.

(** ** The properties on the concrete inputs *)

(** The hash-mismatch rule on block 6 sent with the block hash 0xAAAA. *)
Lemma newPayload_hash_mismatch_is_INVALID_witness :
  @newPayload Examples.toyExternals Examples.server0 Examples.mismatchedPayload
    CapellaVersion
  = (Return (mkPayloadStatus InvalidStatus None (Some "invalid block hash"%string) None),
     Examples.server0)
  /\ queued (@newPayload Examples.toyExternals Examples.server0
               Examples.mismatchedPayload CapellaVersion).2
     = queued Examples.server0.
Proof.
  apply (@newPayload_hash_mismatch_is_INVALID Examples.toyExternals).
  - reflexivity.
  - vm_compute. discriminate.
Defined.

(** C1 as stated fails there: the gates pass, the hashes differ, and the
    status of the answer is INVALID, not INVALID_BLOCK_HASH. *)
Lemma newPayload_hash_mismatch_status_counterexample :
  @forkGatedFieldsMatch Examples.toyExternals Examples.server0
    Examples.mismatchedPayload CapellaVersion = true
  /\ @Header_Hash Examples.toyExternals
       (@payloadHeader Examples.toyExternals Examples.mismatchedPayload CapellaVersion)
     <> ep_BlockHash Examples.mismatchedPayload
  /\ ~ (exists st,
          (@newPayload Examples.toyExternals Examples.server0
             Examples.mismatchedPayload CapellaVersion).1 = Return st
          /\ ps_Status st = InvalidBlockHashStatus
          /\ ps_LatestValidHash st = None
          /\ ps_ValidationError st = Some "invalid block hash"%string).
Proof.
  split; [reflexivity |]. split; [vm_compute; discriminate |].
  intros (st & Hres & Hstatus & _). vm_compute in Hres.
  injection Hres as <-. discriminate Hstatus.
Qed.

(** The presence rule on a Capella call before Shanghai. *)
Lemma newPayload_withdrawals_presence_checked_witness :
  (exists msg,
     @newPayload Examples.toyExternals Examples.server0
       Examples.earlyWithdrawalsPayload CapellaVersion
     = (Fail (InvalidParamsError msg), Examples.server0))
  /\ queued (@newPayload Examples.toyExternals Examples.server0
               Examples.earlyWithdrawalsPayload CapellaVersion).2
     = queued Examples.server0.
Proof.
  apply (@newPayload_withdrawals_presence_checked Examples.toyExternals).
  vm_compute. discriminate.
Defined.

(** C6 as stated fails on the Bellatrix method: the envelope carries
    withdrawals before Shanghai, and the call neither fails nor stays away
    from the importer. *)
Lemma newPayload_V1_ignores_withdrawals_counterexample :
  isSome (ep_Withdrawals Examples.earlyWithdrawalsPayload) = true
  /\ IsShanghai (config Examples.server0)
       (ep_Timestamp Examples.earlyWithdrawalsPayload) = false
  /\ (@NewPayloadV1 Examples.toyExternals Examples.server0
        Examples.earlyWithdrawalsPayload).1 = Return Examples.validReply
  /\ length (queued (@NewPayloadV1 Examples.toyExternals Examples.server0
                       Examples.earlyWithdrawalsPayload).2) = 1%nat.
Proof.
  repeat split; reflexivity.
Qed.

(** Block 4 sent as a payload: its parent has total difficulty 49, the
    terminal total difficulty is 50. *)
Lemma newPayload_parent_below_TTD_is_INVALID_witness :
  @getQuickPayloadStatusIfPossible Examples.toyExternals Examples.server0
    Examples.hash4 4 7 None true
  = (Return (Some (mkPayloadStatus InvalidStatus (Some zeroHash) None None)),
     Examples.server0)
  /\ @newPayload Examples.toyExternals Examples.server0 Examples.preMergePayload
       BellatrixVersion
     = (Return (mkPayloadStatus InvalidStatus (Some zeroHash) None None),
        Examples.server0).
Proof.
  destruct (@newPayload_parent_below_TTD_is_INVALID Examples.toyExternals
              Examples.server0 Examples.toyHd 50 49 Examples.toyTx Examples.hash4 4 7
              (Some Examples.header4) None)
    as [Hq Hnew]; try reflexivity.
  split; [exact Hq |].
  apply (Hnew Examples.preMergePayload BellatrixVersion []); reflexivity.
Defined.

(** The persisted forkchoice sent again. *)
Lemma forkchoiceUpdated_repeated_forkchoice_is_VALID_witness :
  @getQuickPayloadStatusIfPossible Examples.toyExternals Examples.server0
    Examples.hash5 0 zeroHash (Some Examples.persistedForkChoice) false
  = (Return (Some (mkPayloadStatus ValidStatus (Some Examples.hash5) None None)),
     Examples.server0)
  /\ queued (@forkchoiceUpdated Examples.toyExternals Examples.server0
               Examples.persistedForkChoice (Some Examples.toyAttributes)
               CapellaVersion).2 = []
  /\ @forkchoiceUpdated Examples.toyExternals Examples.server0
       Examples.persistedForkChoice None CapellaVersion
     = (Return (mkForkChoiceUpdatedResponse
                  (mkPayloadStatus ValidStatus (Some Examples.hash5) None None) None),
        Examples.server0).
Proof.
  destruct (@forkchoiceUpdated_repeated_forkchoice_is_VALID Examples.toyExternals
              Examples.server0 Examples.toyHd 50 Examples.toyTx
              Examples.persistedForkChoice)
    as (Hq & Hqueue & Hnone); try reflexivity.
  split; [exact Hq |]. split; [| exact (Hnone CapellaVersion)].
  exact (Hqueue (Some Examples.toyAttributes) CapellaVersion).
Defined.

(** Two forkchoice updates with the same attributes on the fresh server:
    both answer with payload id 1, and one builder is registered. *)
Lemma forkchoiceUpdated_deduplicates_witness :
  Some (convertPayloadId 1) = Some (convertPayloadId 1)
  /\ convertPayloadId 1 = convertPayloadId (payloadId Examples.server2)
  /\ builders Examples.server2 !! payloadId Examples.server2
     = Some (NewBlockBuilder (builderFunc Examples.server0)
               (buildParameters Examples.persistedForkChoice Examples.toyAttributes
                  CapellaVersion (payloadId Examples.server2)))
  /\ size (builders Examples.server2) = 1%nat.
Proof.
  destruct (@forkchoiceUpdated_deduplicates Examples.toyExternals
              Examples.server0 Examples.server1 Examples.server2
              Examples.persistedForkChoice Examples.persistedForkChoice
              Examples.toyAttributes Examples.toyAttributes
              CapellaVersion CapellaVersion
              Examples.buildAnswer Examples.buildAnswer
              (convertPayloadId 1) (convertPayloadId 1)
              (Some Examples.toyHd) (Return Examples.toyTx))
    as (Hid & Hcur & Hb & _ & _).
  - apply reachable_new.
  - vm_compute. reflexivity.
  - reflexivity.
  - vm_compute. reflexivity.
  - reflexivity.
  - reflexivity.
  - split; [f_equal; exact Hid |]. split; [exact Hcur |]. split; [exact Hb |].
    vm_compute. reflexivity.
Defined.

(** The full registry with the ids 1 to 128: an eviction deletes id 1 and
    keeps the 127 others. *)
Lemma builders_bounded_and_evicted_oldest_first_witness :
  Z.of_nat (size (builders Examples.server2)) <= MaxBuilders
  /\ exists s' k,
       evictOldBuilders Examples.fullServer = Some s'
       /\ builders s'
          = evicted (SortedKeys (builders Examples.fullServer)) k
              (builders Examples.fullServer)
       /\ builders s' !! 1 = None
       /\ size (builders s') = 127%nat.
Proof.
  split.
  - apply (proj1 (@builders_bounded_and_evicted_oldest_first Examples.toyExternals
                    Examples.server2)).
    unfold Examples.server2, Examples.server1.
    eapply reachable_step; [| apply step_forkchoiceUpdated].
    eapply reachable_step; [| apply step_collaborators].
    eapply reachable_step; [| apply step_forkchoiceUpdated].
    apply reachable_new.
  - destruct (evictOldBuilders Examples.fullServer) as [s'|] eqn:Hev;
      [| vm_compute in Hev; discriminate Hev].
    destruct (proj2 (@builders_bounded_and_evicted_oldest_first Examples.toyExternals
                       Examples.fullServer) s' Hev)
      as (k & Hk & _).
    exists s', k. split; [reflexivity |]. split; [exact Hk |].
    vm_compute in Hev. injection Hev as <-. split; vm_compute; reflexivity.
Defined.

(** The range of five numbers from block 4 on: the blocks 4 and 5 are
    canonical, block 6 is the first gap. *)
Lemma GetPayloadBodiesByRangeV1_spec_witness :
  @GetPayloadBodiesByRangeV1 Examples.server0 4 5
  = Return [Examples.toyBody 4; Examples.toyBody 5]
  /\ @GetPayloadBodiesByRangeV1 Examples.server0 1 1025 = Fail TooLargeRequestErr
  /\ exists msg,
       @GetPayloadBodiesByRangeV1 Examples.server0 0 5 = Fail (InvalidParamsError msg).
Proof.
  assert (Hr : forall z, 0 <= z < 2000 -> 0 <= z < two64) by (unfold two64; lia).
  split; [| split].
  - destruct (GetPayloadBodiesByRangeV1_spec Examples.server0 4 5) as (_ & _ & Hrun);
      [apply Hr; lia | apply Hr; lia |].
    destruct (Hrun ltac:(lia) ltac:(lia) ltac:(lia) Examples.toyTx Examples.toyCanon
                Examples.toyBody) as [Hres _].
    + reflexivity.
    + intros i Hi. reflexivity.
    + intros i Hi Hn. unfold Examples.toyCanon in *. simpl.
      repeat case_bool_decide; try reflexivity; congruence.
    + exact Hres.
  - destruct (GetPayloadBodiesByRangeV1_spec Examples.server0 1 1025) as (_ & Hbig & _);
      [apply Hr; lia | apply Hr; lia |].
    apply Hbig; lia.
  - destruct (GetPayloadBodiesByRangeV1_spec Examples.server0 0 5) as (Hzero & _);
      [apply Hr; lia | apply Hr; lia |].
    apply Hzero. left. reflexivity.
Defined.


(** * Further properties of the code *)

(** * Further properties of the operations *)

(** ** The classifier and [newPayload] *)

Section OperationsMore.
Context `{Externals}.

Lemma classifier_frame (s : EngineServer) (blockHash : Hash)
    (blockNumber : Z) (parentHash : Hash) (m : option ForkChoiceState)
    (newPayload : bool) :
  let s' := (getQuickPayloadStatusIfPossible s blockHash blockNumber parentHash m
               newPayload).2 in
  same_but_hd s s'
  /\ queued s' = queued s
  /\ pendingReplies s' = pendingReplies s
  /\ (forall x, x <> blockHash -> badHeader s' x = badHeader s x).
Proof.
  cbv zeta. unfold getQuickPayloadStatusIfPossible, andThen.
  repeat (case_match; simpl);
    (split; [first [apply same_but_hd_refl | apply same_but_hd_set_hd] |]);
    unfold queued, pendingReplies, badHeader; simpl;
    repeat match goal with Hh : hd s = _ |- _ => rewrite Hh end;
    (split; [reflexivity |]); (split; [reflexivity |]);
    intros x Hx; try reflexivity;
    rewrite lookup_insert_ne by congruence; reflexivity.
Qed.

(** X1: the classifier reads the store and the downloader, and writes nothing
    but the bad-header entry of the block hash it is asked about: no
    request is queued, no reply taken, the registry is left alone. *)
Theorem classifier_touches_only_bad_headers (s : EngineServer) (blockHash : Hash)
    (blockNumber : Z) (parentHash : Hash) (m : option ForkChoiceState)
    (newPayload : bool) :
  let s' := (getQuickPayloadStatusIfPossible s blockHash blockNumber parentHash m
               newPayload).2 in
  same_but_hd s s'
  /\ queued s' = queued s
  /\ pendingReplies s' = pendingReplies s
  /\ (forall x, x <> blockHash -> badHeader s' x = badHeader s x).
Proof.
  exact (classifier_frame s blockHash blockNumber parentHash m newPayload).
Qed.

(** When the classifier gives no decision it has changed nothing, and there
    is a downloader to hand the request to. *)
Lemma classifier_defers (s : EngineServer) (blockHash : Hash) (blockNumber : Z)
    (parentHash : Hash) (m : option ForkChoiceState) (newPayload : bool) :
  (getQuickPayloadStatusIfPossible s blockHash blockNumber parentHash m newPayload).1
  = Return None ->
  (getQuickPayloadStatusIfPossible s blockHash blockNumber parentHash m newPayload).2 = s
  /\ is_Some (hd s).
Proof.
  unfold getQuickPayloadStatusIfPossible, andThen.
  repeat (case_match; simpl; try discriminate); intros _; split; eauto.
Qed.

Lemma newPayload_gates_pass (s : EngineServer) (req : ExecutionPayload)
    (version : StateVersion) :
  forkGatedFieldsMatch s req version = true ->
  newPayload s req version
  = (let txs := ep_Transactions req in
     let header := payloadHeader req version in
     let withdrawals := payloadWithdrawals req version in
     let blockHash := ep_BlockHash req in
     if negb (bool_decide (Header_Hash header = blockHash)) then
       (Return (mkPayloadStatus InvalidStatus None (Some "invalid block hash"%string) None), s)
     else if existsb TypedTransactionMarshalledAsRlpString (ep_Transactions req) then
       (Return (mkPayloadStatus InvalidStatus None
                  (Some "typed txn marshalled as RLP string"%string) None), s)
     else
     match DecodeTransactions txs with
     | Fail err =>
         (Return (mkPayloadStatus InvalidStatus None (Some (Error_Error err)) None), s)
     | Panic => (Panic, s)
     | Hang => (Hang, s)
     | Return transactions =>
     let block := NewBlockFromStorage blockHash header transactions withdrawals in
     let '(possibleStatus, s) :=
       getQuickPayloadStatusIfPossible s blockHash (ep_BlockNumber req)
         (h_ParentHash header) None true in
     andThen possibleStatus s (fun possibleStatus =>
     match possibleStatus with
     | Some st => (Return st, s)
     | None =>
     match hd s with
     | None => (Panic, s)
     | Some h =>
     let h := AddRequest h (PayloadRequest block) in
     match ReceiveStatus h with
     | None => (Hang, set_hd s h)
     | Some (payloadStatus, h) =>
         match ps_CriticalError payloadStatus with
         | Some err => (Fail err, set_hd s h)
         | None => (Return payloadStatus, set_hd s h)
         end
     end
     end
     end)
     end).
Proof.
  intros Hgate. unfold forkGatedFieldsMatch in Hgate.
  apply andb_prop in Hgate as [Hgate Hx]. apply andb_prop in Hgate as [Hw Hd].
  apply bool_decide_eq_true in Hw, Hd, Hx.
  unfold newPayload. cbv zeta. fold (payloadWithdrawals req version).
  rewrite payloadHeader_Time.
  apply checkWithdrawalsPresence_None in Hw. rewrite Hw.
  rewrite <- Hd, <- Hx.
  destruct (IsCancun (config s) (ep_Timestamp req)); reflexivity.
Qed.

Lemma newPayload_data_gas_gates (s : EngineServer)
    (req : ExecutionPayload) (version : StateVersion) :
  IsShanghai (config s) (ep_Timestamp req) = isSome (payloadWithdrawals req version) ->
  (IsCancun (config s) (ep_Timestamp req) = false ->
   isSome (payloadDataGasUsed req version) || isSome (payloadExcessDataGas req version)
   = true ->
   newPayload s req version
   = (Fail (InvalidParamsError "dataGasUsed/excessDataGas present before Cancun"), s))
  /\ (IsCancun (config s) (ep_Timestamp req) = true ->
      isSome (payloadDataGasUsed req version) && isSome (payloadExcessDataGas req version)
      = false ->
      newPayload s req version
      = (Fail (InvalidParamsError "dataGasUsed/excessDataGas missing"), s)).
Proof.
  intros Hw. apply checkWithdrawalsPresence_None in Hw.
  unfold payloadDataGasUsed, payloadExcessDataGas.
  split; intros Hc Hp; unfold newPayload; cbv zeta;
    fold (payloadWithdrawals req version); rewrite payloadHeader_Time, Hw, Hc;
    simpl h_DataGasUsed; simpl h_ExcessDataGas.
  - rewrite Hp. reflexivity.
  - simpl negb. simpl andb.
    destruct (isSome (if version_ge version DenebVersion then ep_DataGasUsed req else None)),
      (isSome (if version_ge version DenebVersion then ep_ExcessDataGas req else None));
      try discriminate Hp; reflexivity.
Qed.

(** X2: the data-gas fields are gated by Cancun as the withdrawals are by
    Shanghai: with the withdrawals in order, data-gas fields read before
    Cancun, or one of them missing from Cancun on, fail the call with
    INVALID_PARAMS and leave the server as it was. *)
Theorem newPayload_data_gas_presence_checked (s : EngineServer)
    (req : ExecutionPayload) (version : StateVersion) :
  IsShanghai (config s) (ep_Timestamp req) = isSome (payloadWithdrawals req version) ->
  (IsCancun (config s) (ep_Timestamp req) = false ->
   isSome (payloadDataGasUsed req version) || isSome (payloadExcessDataGas req version)
   = true ->
   newPayload s req version
   = (Fail (InvalidParamsError "dataGasUsed/excessDataGas present before Cancun"), s))
  /\ (IsCancun (config s) (ep_Timestamp req) = true ->
      isSome (payloadDataGasUsed req version) && isSome (payloadExcessDataGas req version)
      = false ->
      newPayload s req version
      = (Fail (InvalidParamsError "dataGasUsed/excessDataGas missing"), s)).
Proof. exact (newPayload_data_gas_gates s req version). Qed.

(** X3: the methods before Deneb never read the data-gas fields, so from
    Cancun on they refuse every payload with INVALID_PARAMS. *)
Theorem newPayload_before_Deneb_refused_after_Cancun (s : EngineServer)
    (req : ExecutionPayload) (version : StateVersion) :
  version <> DenebVersion ->
  IsCancun (config s) (ep_Timestamp req) = true ->
  exists msg, newPayload s req version = (Fail (InvalidParamsError msg), s).
Proof.
  intros Hv Hc.
  destruct (decide (IsShanghai (config s) (ep_Timestamp req)
                    = isSome (payloadWithdrawals req version))) as [Hw | Hw].
  - destruct (newPayload_data_gas_gates s req version Hw) as [_ Hmiss].
    eexists. apply Hmiss; [exact Hc |].
    unfold payloadDataGasUsed. destruct version; try congruence; reflexivity.
  - exact (newPayload_presence_fails s req version Hw).
Qed.

(** X4: a payload with the right block hash whose transactions cannot be taken
    as they are is answered with status INVALID and the reason, not with an
    error, and is not handed on: a typed transaction wrapped as an RLP
    string, or a transaction list that fails to decode. *)
Theorem newPayload_bad_transactions_are_INVALID (s : EngineServer)
    (req : ExecutionPayload) (version : StateVersion) :
  forkGatedFieldsMatch s req version = true ->
  Header_Hash (payloadHeader req version) = ep_BlockHash req ->
  (existsb TypedTransactionMarshalledAsRlpString (ep_Transactions req) = true ->
   newPayload s req version
   = (Return (mkPayloadStatus InvalidStatus None
                (Some "typed txn marshalled as RLP string"%string) None), s))
  /\ (existsb TypedTransactionMarshalledAsRlpString (ep_Transactions req) = false ->
      forall err, DecodeTransactions (ep_Transactions req) = Fail err ->
      newPayload s req version
      = (Return (mkPayloadStatus InvalidStatus None (Some (Error_Error err)) None), s)).
Proof.
  intros Hgate Hhash. rewrite (newPayload_gates_pass s req version Hgate). cbv zeta.
  rewrite (bool_decide_eq_true_2 _ Hhash). simpl.
  split.
  - intros ->. reflexivity.
  - intros -> err ->. reflexivity.
Qed.

End OperationsMore.

Section GatewayMore.
Context `{Externals}.

Lemma queued_set_hd (s : EngineServer) (h : HeaderDownload) :
  queued (set_hd s h) = hd_BeaconRequestList h.
Proof. reflexivity. Qed.

(** X5: every call of [newPayload] and of [forkchoiceUpdated] either leaves the
    request queue and the reply channel alone, or appends one request of
    its own kind and takes one reply (none when there is none to take):
    there is never more than one request per call. *)
Theorem one_request_per_call (s : EngineServer) :
  (forall req version,
     let s' := (newPayload s req version).2 in
     (queued s' = queued s /\ pendingReplies s' = pendingReplies s)
     \/ exists block,
          queued s' = queued s ++ [PayloadRequest block]
          /\ pendingReplies s' = tail (pendingReplies s))
  /\ (forall forkChoice attrs version,
        let s' := (forkchoiceUpdated s forkChoice attrs version).2 in
        (queued s' = queued s /\ pendingReplies s' = pendingReplies s)
        \/ (queued s' = queued s ++ [ForkChoiceRequest forkChoice]
            /\ pendingReplies s' = tail (pendingReplies s))).
Proof.
  split.
  - intros req version. cbv zeta. unfold newPayload. cbv zeta.
    pose proof (classifier_frame s (ep_BlockHash req)
                  (ep_BlockNumber req) (h_ParentHash (payloadHeader req version))
                  None true) as Hq.
    cbv zeta in Hq.
    destruct (getQuickPayloadStatusIfPossible s (ep_BlockHash req) (ep_BlockNumber req)
                (h_ParentHash (payloadHeader req version)) None true) as [q s1].
    simpl in Hq. destruct Hq as (_ & Hqueue & Hreplies & _).
    unfold andThen, ReceiveStatus, AddRequest.
    repeat (case_match; simpl in *; simplify_eq);
      try (left; split; [first [reflexivity | assumption] |
                         first [reflexivity | assumption]]);
      right; eexists; unfold queued, pendingReplies in *; simpl;
      repeat match goal with Hh : hd s1 = _ |- _ => rewrite Hh in * end;
      simpl in *; rewrite <- Hqueue, <- Hreplies;
      (split; [reflexivity |]);
      repeat match goal with Hc : hd_PayloadStatusCh _ = _ |- _ => rewrite Hc end;
      reflexivity.
  - intros [head safe fin] attrs version. cbv zeta.
    unfold forkchoiceUpdated. cbv zeta. simpl fcs_HeadHash.
    simpl fcs_SafeBlockHash. simpl fcs_FinalizedBlockHash.
    pose proof (classifier_frame s head 0 zeroHash
                  (Some (mkForkChoiceState head safe fin)) false) as Hq.
    cbv zeta in Hq.
    destruct (getQuickPayloadStatusIfPossible s head 0 zeroHash
                (Some (mkForkChoiceState head safe fin)) false) as [q s1].
    simpl in Hq. destruct Hq as (_ & Hqueue & Hreplies & _).
    unfold andThen, ReceiveStatus, AddRequest, evictOldBuilders, set_builders.
    repeat (case_match; simpl in *; simplify_eq);
      try match goal with
          | Hx : _ <$> ?o = _ |- _ => destruct o eqn:?; simpl in Hx; simplify_eq; simpl
          end;
      try (left; split; [first [reflexivity | assumption] |
                         first [reflexivity | assumption]]);
      right; unfold queued, pendingReplies in *; simpl;
      repeat match goal with Hh : hd s1 = _ |- _ => rewrite Hh in * end;
      simpl in *; rewrite <- Hqueue, <- Hreplies;
      (split; [reflexivity |]);
      repeat match goal with Hc : hd_PayloadStatusCh _ = _ |- _ => rewrite Hc end;
      reflexivity.
Qed.

End GatewayMore.

Section RoundTrip.
Context `{Externals}.

(** X6: when the classifier gives no decision, [newPayload] queues the block
    rebuilt from the envelope, under the stated hash, and answers with the
    next reply of the importer as it is; a reply with a critical error
    becomes the error of the call, and with no reply the call waits. *)
Theorem newPayload_importer_round_trip (s : EngineServer) (req : ExecutionPayload)
    (version : StateVersion) (transactions : list Transaction) :
  forkGatedFieldsMatch s req version = true ->
  Header_Hash (payloadHeader req version) = ep_BlockHash req ->
  existsb TypedTransactionMarshalledAsRlpString (ep_Transactions req) = false ->
  DecodeTransactions (ep_Transactions req) = Return transactions ->
  (getQuickPayloadStatusIfPossible s (ep_BlockHash req) (ep_BlockNumber req)
     (ep_ParentHash req) None true).1 = Return None ->
  queued (newPayload s req version).2
  = queued s ++ [PayloadRequest
                   (NewBlockFromStorage (ep_BlockHash req) (payloadHeader req version)
                      transactions (payloadWithdrawals req version))]
  /\ pendingReplies (newPayload s req version).2 = tail (pendingReplies s)
  /\ (newPayload s req version).1
     = match pendingReplies s with
       | [] => Hang
       | payloadStatus :: _ =>
           match ps_CriticalError payloadStatus with
           | Some err => Fail err
           | None => Return payloadStatus
           end
       end.
Proof.
  intros Hgate Hhash Hrlp Hdec Hq.
  rewrite (newPayload_gates_pass s req version Hgate). cbv zeta.
  rewrite (bool_decide_eq_true_2 _ Hhash), Hrlp, Hdec. simpl.
  change (h_ParentHash (payloadHeader req version)) with (ep_ParentHash req).
  destruct (classifier_defers _ _ _ _ _ _ Hq) as [Hs [h Hh]].
  destruct (getQuickPayloadStatusIfPossible s (ep_BlockHash req) (ep_BlockNumber req)
              (ep_ParentHash req) None true) as [q s1].
  simpl in Hq, Hs. subst q s1. simpl.
  unfold queued, pendingReplies, ReceiveStatus, AddRequest. rewrite Hh. simpl.
  destruct (hd_PayloadStatusCh h) as [|st rest]; simpl.
  - repeat split; reflexivity.
  - destruct (ps_CriticalError st); simpl; repeat split; reflexivity.
Qed.

(** X7: the same for [forkchoiceUpdated] when the classifier gives no
    decision: with no reply the call waits, a critical error is the error
    of the call, and a reply that is not VALID, or any reply when the call
    carries no attributes, is the status of the answer, with no payload
    id. *)
Theorem forkchoiceUpdated_importer_round_trip (s : EngineServer)
    (forkChoice : ForkChoiceState) (attrs : option PayloadAttributes)
    (version : StateVersion) :
  (getQuickPayloadStatusIfPossible s (fcs_HeadHash forkChoice) 0 zeroHash
     (Some forkChoice) false).1 = Return None ->
  match pendingReplies s with
  | [] => (forkchoiceUpdated s forkChoice attrs version).1 = Hang
  | status :: _ =>
      match ps_CriticalError status with
      | Some err => (forkchoiceUpdated s forkChoice attrs version).1 = Fail err
      | None =>
          attrs = None \/ ps_Status status <> ValidStatus ->
          (forkchoiceUpdated s forkChoice attrs version).1
          = Return (mkForkChoiceUpdatedResponse status None)
      end
  end.
Proof.
  destruct forkChoice as [head safe fin]. simpl fcs_HeadHash. intros Hq.
  destruct (classifier_defers _ _ _ _ _ _ Hq) as [Hs [h Hh]].
  unfold forkchoiceUpdated. cbv zeta. simpl fcs_HeadHash.
  simpl fcs_SafeBlockHash. simpl fcs_FinalizedBlockHash.
  destruct (getQuickPayloadStatusIfPossible s head 0 zeroHash
              (Some (mkForkChoiceState head safe fin)) false) as [q s1].
  simpl in Hq, Hs. subst q s1. simpl.
  unfold pendingReplies, ReceiveStatus, AddRequest. rewrite Hh. simpl.
  destruct (hd_PayloadStatusCh h) as [|st rest]; simpl; [reflexivity |].
  destruct (ps_CriticalError st) eqn:Hcrit; simpl; [reflexivity |].
  intros [-> | Hst]; [reflexivity |].
  destruct attrs; [| reflexivity].
  rewrite (bool_decide_eq_false_2 _ Hst). reflexivity.
Qed.

End RoundTrip.

Section ClassifierSteps.
Context `{Externals}.

Lemma notBelow_ltb (ttd : Z) (td : option Z) :
  notBelow ttd td -> match td with Some t => t <? ttd | None => false end = false.
Proof.
  destruct td as [t|]; simpl; [| reflexivity]. intros Hle. apply Z.ltb_ge. exact Hle.
Qed.

(** X8: a payload for a block the store already holds as the canonical block of
    its number is answered VALID, with its own hash as latest valid hash,
    by the classifier alone: the server is left as it was. *)
Theorem newPayload_known_canonical_block_is_VALID (s : EngineServer)
    (h : HeaderDownload) (ttd : Z) (tx : Tx) (blockHash : Hash) (blockNumber : Z)
    (parentHash : Hash) (header : Header) (parent : option Header) (td : option Z) :
  TerminalTotalDifficulty (config s) = Some ttd ->
  hd s = Some h ->
  db_BeginRo s = Return tx ->
  ReadHeaderByHash tx blockHash = Return (Some header) ->
  ReadHeaderByHash tx parentHash = Return parent ->
  ReadTdByHash tx parentHash = Return td ->
  notBelow ttd td ->
  hd_POSSync h = true ->
  CanonicalHash tx (BigInt_Uint64 (h_Number header)) = Return blockHash ->
  (forall p, parent = Some p -> blockNumber = add64 (BigInt_Uint64 (h_Number p)) 1) ->
  hd_badHeaders h !! blockHash = None ->
  hd_badHeaders h !! parentHash = None ->
  getQuickPayloadStatusIfPossible s blockHash blockNumber parentHash None true
  = (Return (Some (mkPayloadStatus ValidStatus (Some blockHash) None None)), s).
Proof.
  intros Httd Hhd Htx Hhdr Hpar Htd Hnb Hsync Hcanon Hnum Hbad Hbadp.
  unfold getQuickPayloadStatusIfPossible.
  rewrite Httd, Hhd, Htx. simpl. rewrite Hhdr. simpl. rewrite Hpar. simpl.
  rewrite Htd. simpl. rewrite (notBelow_ltb _ _ Hnb), Hsync. simpl.
  rewrite Hcanon. simpl.
  assert (Hwrong : match parent with
                   | Some p =>
                       if negb (bool_decide
                                  (blockNumber = add64 (BigInt_Uint64 (h_Number p)) 1))
                       then Some p else None
                   | None => None
                   end = None).
  { destruct parent as [p|]; [| reflexivity].
    rewrite (bool_decide_eq_true_2 _ (Hnum p eq_refl)). reflexivity. }
  rewrite Hwrong. unfold IsBadHeaderPoS. rewrite Hbad, Hbadp. simpl.
  rewrite bool_decide_eq_true_2 by reflexivity. reflexivity.
Qed.

(** X9: a payload whose number is not its known parent's plus one is answered
    INVALID with the parent's hash and "invalid block number", and the
    verdict is remembered: a later forkchoice update to that hash, which
    the store does not hold below the terminal difficulty, is answered
    INVALID with the same latest valid hash, again without the importer. *)
Theorem invalid_block_number_is_remembered (s : EngineServer) (h : HeaderDownload)
    (ttd : Z) (tx : Tx) (blockHash : Hash) (blockNumber : Z) (parentHash : Hash)
    (header : option Header) (p : Header) (td tdBlock : option Z)
    (canonical : Hash) (forkChoice : ForkChoiceState) :
  TerminalTotalDifficulty (config s) = Some ttd ->
  hd s = Some h ->
  db_BeginRo s = Return tx ->
  ReadHeaderByHash tx blockHash = Return header ->
  ReadHeaderByHash tx parentHash = Return (Some p) ->
  ReadTdByHash tx parentHash = Return td ->
  notBelow ttd td ->
  hd_POSSync h = true ->
  (forall hdr, header = Some hdr ->
     CanonicalHash tx (BigInt_Uint64 (h_Number hdr)) = Return canonical) ->
  blockNumber <> add64 (BigInt_Uint64 (h_Number p)) 1 ->
  let first :=
    getQuickPayloadStatusIfPossible s blockHash blockNumber parentHash None true in
  first.1 = Return (Some (mkPayloadStatus InvalidStatus (Some (Header_Hash p))
                            (Some "invalid block number"%string) None))
  /\ badHeader first.2 blockHash = Some (Header_Hash p)
  /\ (fcs_HeadHash forkChoice = blockHash ->
      ~ (fcs_HeadHash forkChoice = ReadForkchoiceHead tx
         /\ fcs_SafeBlockHash forkChoice = ReadForkchoiceSafe tx
         /\ fcs_FinalizedBlockHash forkChoice = ReadForkchoiceFinalized tx) ->
      ReadTdByHash tx blockHash = Return tdBlock ->
      notBelow ttd tdBlock ->
      (getQuickPayloadStatusIfPossible first.2 blockHash 0 zeroHash
         (Some forkChoice) false).1
      = Return (Some (mkPayloadStatus InvalidStatus (Some (Header_Hash p)) None None))).
Proof.
  intros Httd Hhd Htx Hhdr Hpar Htd Hnb Hsync Hcanon Hnum. cbv zeta.
  assert (Hcan : match header with
                 | Some hdr => CanonicalHash tx (BigInt_Uint64 (h_Number hdr))
                 | None => Return zeroHash
                 end = Return (match header with Some _ => canonical | None => zeroHash end)).
  { destruct header as [hdr|]; [apply Hcanon |]; reflexivity. }
  assert (Hfirst :
    getQuickPayloadStatusIfPossible s blockHash blockNumber parentHash None true
    = (Return (Some (mkPayloadStatus InvalidStatus (Some (Header_Hash p))
                       (Some "invalid block number"%string) None)),
       set_hd s (ReportBadHeaderPoS h blockHash (Header_Hash p)))).
  { unfold getQuickPayloadStatusIfPossible.
    rewrite Httd, Hhd, Htx. simpl. rewrite Hhdr. simpl. rewrite Hpar. simpl.
    rewrite Htd. simpl. rewrite (notBelow_ltb _ _ Hnb), Hsync. simpl.
    rewrite Hcan. simpl. rewrite (bool_decide_eq_false_2 _ Hnum). reflexivity. }
  rewrite Hfirst. simpl. split; [reflexivity |]. split.
  - unfold badHeader. simpl. apply lookup_insert_eq.
  - intros Hhead Hnot HtdB HnbB.
    unfold getQuickPayloadStatusIfPossible. simpl.
    rewrite Httd, Htx. simpl.
    assert (Hm : bool_decide (fcs_FinalizedBlockHash forkChoice = ReadForkchoiceFinalized tx)
                 && bool_decide (fcs_HeadHash forkChoice = ReadForkchoiceHead tx)
                 && bool_decide (fcs_SafeBlockHash forkChoice = ReadForkchoiceSafe tx)
                 = false).
    { apply not_true_is_false. intros Hall.
      apply andb_prop in Hall as [Hall Hs']. apply andb_prop in Hall as [Hf' Hh'].
      apply bool_decide_eq_true in Hs', Hf', Hh'. apply Hnot. auto. }
    rewrite Hm, Hhdr. simpl. rewrite HtdB. simpl.
    rewrite (notBelow_ltb _ _ HnbB), Hsync. simpl. rewrite Hcan. simpl.
    unfold IsBadHeaderPoS. simpl. rewrite lookup_insert_eq. reflexivity.
Qed.

(** X10: a forkchoice update, with attributes, to a block that is canonical at
    its number but is not the head: the classifier answers VALID with that
    hash, and as the head header of the store does not hash to the
    forkchoice head, no build is started: no payload id, and the server is
    left as it was. *)
Theorem forkchoiceUpdated_to_ancestor_starts_no_build (s : EngineServer)
    (h : HeaderDownload) (ttd : Z) (tx : Tx) (forkChoice : ForkChoiceState)
    (attrs : PayloadAttributes) (version : StateVersion) (header headHeader : Header)
    (td : option Z) (headNumber : Z) :
  TerminalTotalDifficulty (config s) = Some ttd ->
  hd s = Some h ->
  db_BeginRo s = Return tx ->
  ~ (fcs_HeadHash forkChoice = ReadForkchoiceHead tx
     /\ fcs_SafeBlockHash forkChoice = ReadForkchoiceSafe tx
     /\ fcs_FinalizedBlockHash forkChoice = ReadForkchoiceFinalized tx) ->
  ReadHeaderByHash tx (fcs_HeadHash forkChoice) = Return (Some header) ->
  ReadTdByHash tx (fcs_HeadHash forkChoice) = Return td ->
  notBelow ttd td ->
  hd_POSSync h = true ->
  CanonicalHash tx (BigInt_Uint64 (h_Number header)) = Return (fcs_HeadHash forkChoice) ->
  hd_badHeaders h !! fcs_HeadHash forkChoice = None ->
  fcs_HeadHash forkChoice <> ReadHeadBlockHash tx ->
  proposing s = true ->
  ReadHeaderNumber tx (ReadHeadBlockHash tx) = Some headNumber ->
  ReadHeader tx (ReadHeadBlockHash tx) headNumber = Some headHeader ->
  Header_Hash headHeader = ReadHeadBlockHash tx ->
  forkchoiceUpdated s forkChoice (Some attrs) version
  = (Return (mkForkChoiceUpdatedResponse
               (mkPayloadStatus ValidStatus (Some (fcs_HeadHash forkChoice)) None None)
               None), s).
Proof.
  intros Httd Hhd Htx Hnot Hhdr Htd Hnb Hsync Hcanon Hbad Hne Hprop Hnum Hhead Hhash.
  destruct forkChoice as [head safe fin]. simpl in *.
  assert (Hq : getQuickPayloadStatusIfPossible s head 0 zeroHash
                 (Some (mkForkChoiceState head safe fin)) false
               = (Return (Some (mkPayloadStatus ValidStatus (Some head) None None)), s)).
  { unfold getQuickPayloadStatusIfPossible.
    rewrite Httd, Hhd, Htx. simpl.
    assert (Hm : bool_decide (fin = ReadForkchoiceFinalized tx)
                 && bool_decide (head = ReadForkchoiceHead tx)
                 && bool_decide (safe = ReadForkchoiceSafe tx) = false).
    { apply not_true_is_false. intros Hall.
      apply andb_prop in Hall as [Hall Hs']. apply andb_prop in Hall as [Hf' Hh'].
      apply bool_decide_eq_true in Hs', Hf', Hh'. apply Hnot. auto. }
    rewrite Hm, Hhdr. simpl. rewrite Htd. simpl.
    rewrite (notBelow_ltb _ _ Hnb), Hsync. simpl. rewrite Hcanon. simpl.
    unfold IsBadHeaderPoS. rewrite Hbad. simpl.
    rewrite (bool_decide_eq_false_2 _ Hne).
    rewrite bool_decide_eq_true_2 by reflexivity. reflexivity. }
  unfold forkchoiceUpdated. cbv zeta. simpl fcs_HeadHash.
  simpl fcs_SafeBlockHash. simpl fcs_FinalizedBlockHash.
  rewrite Hq. simpl. rewrite Hprop, Htx. simpl. rewrite Hnum, Hhead.
  rewrite bool_decide_eq_false_2 by congruence. reflexivity.
Qed.

End ClassifierSteps.

Section BuildConditions.
Context `{Externals}.

Lemma forkchoiceUpdated_payload_id_conditions_aux (s s' : EngineServer)
    (forkChoice : ForkChoiceState) (attrs : option PayloadAttributes)
    (version : StateVersion) (r : ForkChoiceUpdatedResponse) (id : Bytes) :
  forkchoiceUpdated s forkChoice attrs version = (Return r, s') ->
  fcr_PayloadId r = Some id ->
  exists a tx2 headNumber headHeader ttd,
    attrs = Some a
    /\ TerminalTotalDifficulty (config s) = Some ttd
    /\ proposing s = true
    /\ db_BeginRo s = Return tx2
    /\ ReadHeaderNumber tx2 (ReadHeadBlockHash tx2) = Some headNumber
    /\ ReadHeader tx2 (ReadHeadBlockHash tx2) headNumber = Some headHeader
    /\ Header_Hash headHeader = fcs_HeadHash forkChoice
    /\ h_Time headHeader < pa_Timestamp a
    /\ IsShanghai (config s) (pa_Timestamp a)
       = isSome (if version_ge version CapellaVersion then pa_Withdrawals a else None)
    /\ fcr_PayloadStatus r
       = mkPayloadStatus ValidStatus (Some (ReadHeadBlockHash tx2)) None None.
Proof.
  unfold forkchoiceUpdated. cbv zeta. simpl fcs_HeadHash.
  pose proof (classifier_same_but_hd s (fcs_HeadHash forkChoice) 0 zeroHash
    (Some (mkForkChoiceState (fcs_HeadHash forkChoice) (fcs_SafeBlockHash forkChoice)
             (fcs_FinalizedBlockHash forkChoice))) false) as Hq.
  assert (Httd : forall q s1,
    getQuickPayloadStatusIfPossible s (fcs_HeadHash forkChoice) 0 zeroHash
      (Some (mkForkChoiceState (fcs_HeadHash forkChoice) (fcs_SafeBlockHash forkChoice)
               (fcs_FinalizedBlockHash forkChoice))) false = (Return q, s1) ->
    is_Some (TerminalTotalDifficulty (config s))).
  { intros q s1. unfold getQuickPayloadStatusIfPossible.
    destruct (TerminalTotalDifficulty (config s)); [eauto | discriminate]. }
  destruct (getQuickPayloadStatusIfPossible s (fcs_HeadHash forkChoice) 0 zeroHash
    (Some (mkForkChoiceState (fcs_HeadHash forkChoice) (fcs_SafeBlockHash forkChoice)
             (fcs_FinalizedBlockHash forkChoice))) false) as [q s0].
  simpl in Hq. destruct s0 as [h0 c0 id0 l0 b0 f0 pr0 d0].
  unfold same_but_hd in Hq. simpl in Hq. injection Hq as -> -> -> -> -> -> ->.
  unfold andThen, evictOldBuilders, set_hd, set_builders.
  simpl. intros Hcall Hid.
  destruct q as [q | e | |]; simpl in Hcall; try discriminate Hcall.
  destruct (Httd q _ eq_refl) as [ttd Ht]. clear Httd.
  revert Hcall.
  repeat (case_match; simpl in *; simplify_eq);
    try match goal with
        | Hx : _ <$> ?o = _ |- _ => destruct o eqn:?; simpl in Hx; simplify_eq; simpl
        end;
    intros Hcall; simplify_eq; simpl in Hid; simplify_eq;
    (do 5 eexists; split; [reflexivity |]; split; [exact Ht |];
     repeat match goal with
            | Hn : negb _ = false |- _ => apply negb_false_iff in Hn
            | Hb : bool_decide _ = true |- _ => apply bool_decide_eq_true in Hb
            | Hl : (_ <=? _) = false |- _ => apply Z.leb_gt in Hl
            | Hc : checkWithdrawalsPresence _ _ _ = None |- _ =>
                apply checkWithdrawalsPresence_None in Hc; simpl in Hc
            end;
     repeat match goal with Hv : version_ge _ _ = _ |- _ => rewrite Hv end;
     repeat split; first [eassumption | reflexivity | congruence]).
Qed.


End BuildConditions.

(** ** The registry seen from [getPayload] *)

Section GetPayloadMore.
Context `{Externals}.

Lemma Uint64_convertPayloadId (id : Z) :
  0 <= id < two64 -> BigEndian.Uint64 (convertPayloadId id) = Some id.
Proof.
  intros Hid. rewrite convertPayloadId_bytes. unfold BigEndian.bytes_of.
  rewrite Uint64_value. f_equal. apply (bytes_of_value id Hid).
Qed.

Lemma getPayload_stops_builder (s : EngineServer) (id : Z) (ttd : Z)
    (builder : BlockBuilder) :
  proposing s = true ->
  TerminalTotalDifficulty (config s) = Some ttd ->
  builders s !! id = Some builder ->
  getPayload s id = bb_Stop builder ≫= payloadResponse.
Proof.
  intros Hp Ht Hb. unfold getPayload. rewrite Hp, Ht, Hb. reflexivity.
Qed.

Lemma add64_range (a b : Z) : 0 <= add64 a b < two64.
Proof. unfold add64, wrap64, two64. apply Z.mod_pos_bound. lia. Qed.

Lemma forkchoiceUpdated_payloadId_range (s : EngineServer) (forkChoice : ForkChoiceState)
    (attrs : option PayloadAttributes) (version : StateVersion) :
  0 <= payloadId s < two64 ->
  0 <= payloadId (forkchoiceUpdated s forkChoice attrs version).2 < two64.
Proof.
  intros Hr.
  destruct (forkchoiceUpdated_registry s forkChoice attrs version)
    as [[Hsame _] | (a & b & st & _ & _ & _ & Hstate & _)].
  - rewrite Hsame. exact Hr.
  - rewrite Hstate. simpl. apply add64_range.
Qed.

Lemma reachable_payloadId_range (s : EngineServer) :
  reachable s -> 0 <= payloadId s < two64.
Proof.
  induction 1 as [cfg build db h prop | s s' _ IH Hstep].
  - simpl. unfold two64. lia.
  - destruct Hstep as [s fc attrs v | s req v | s h db].
    + apply forkchoiceUpdated_payloadId_range. exact IH.
    + pose proof (newPayload_same_but_hd s req v) as Hs. unfold same_but_hd in Hs.
      rewrite Hs. exact IH.
    + exact IH.
Qed.

Lemma forkchoiceUpdated_payload_id_proposing (s s' : EngineServer)
    (forkChoice : ForkChoiceState) (attrs : option PayloadAttributes)
    (version : StateVersion) (r : ForkChoiceUpdatedResponse) (id : Bytes) :
  forkchoiceUpdated s forkChoice attrs version = (Return r, s') ->
  fcr_PayloadId r = Some id ->
  proposing s = true /\ is_Some (TerminalTotalDifficulty (config s)).
Proof.
  intros Hcall Hid.
  destruct (forkchoiceUpdated_payload_id_conditions_aux s s' forkChoice attrs version
              r id Hcall Hid) as (a & tx2 & n & hh & ttd & _ & Ht & Hp & _).
  split; [exact Hp | eauto].
Qed.

(** X12: the payload id a forkchoice update answers with retrieves, through
    every version of GetPayload, the block that the builder function
    yields for the parameters of that update: the call stops that builder
    and turns its block into the response. *)
Theorem getPayload_after_forkchoiceUpdated (s s' : EngineServer)
    (forkChoice : ForkChoiceState) (a : PayloadAttributes) (version : StateVersion)
    (r : ForkChoiceUpdatedResponse) (id : Bytes) :
  reachable s ->
  forkchoiceUpdated s forkChoice (Some a) version = (Return r, s') ->
  fcr_PayloadId r = Some id ->
  let built :=
    builderFunc s (buildParameters forkChoice a version (payloadId s'))
    ≫= payloadResponse in
  GetPayloadV2 s' id = built
  /\ GetPayloadV3 s' id = built
  /\ GetPayloadV1 s' id = (response ← built; Return (gpr_ExecutionPayload response)).
Proof.
  intros Hreach Hcall Hid. cbv zeta.
  pose proof (reachable_registry_inv s Hreach) as Hinv.
  destruct (forkchoiceUpdated_answers_current _ _ _ _ _ _ _ Hinv Hcall Hid)
    as (-> & _ & Hb & _ & _).
  destruct (forkchoiceUpdated_payload_id_proposing _ _ _ _ _ _ _ Hcall Hid)
    as [Hp [ttd Ht]].
  assert (Hreach' : reachable s').
  { replace s' with (forkchoiceUpdated s forkChoice (Some a) version).2
      by (rewrite Hcall; reflexivity).
    eapply reachable_step; [exact Hreach | apply step_forkchoiceUpdated]. }
  pose proof (reachable_payloadId_range s' Hreach') as Hrange.
  pose proof (forkchoiceUpdated_registry s forkChoice (Some a) version) as Hreg.
  cbv zeta in Hreg. rewrite Hcall in Hreg. simpl in Hreg.
  assert (Hp' : proposing s' = true /\ TerminalTotalDifficulty (config s') = Some ttd).
  { destruct Hreg as [[Hsame _] | (a' & b & st & _ & _ & _ & Hstate & _)].
    - rewrite Hsame. simpl. auto.
    - rewrite Hstate. simpl. auto. }
  destruct Hp' as [Hp' Ht'].
  pose proof (getPayload_stops_builder s' (payloadId s') ttd _ Hp' Ht' Hb) as Hget.
  simpl in Hget.
  unfold GetPayloadV1, GetPayloadV2, GetPayloadV3.
  rewrite (Uint64_convertPayloadId _ Hrange), Hget. repeat split; reflexivity.
Qed.

(** *** Payload ids before the counter wraps *)

Lemma ids_below_new (cfg : ChainConfig) (build : BlockBuilderFunc)
    (db : Outcome Tx) (h : option HeaderDownload) (prop : bool) :
  ids_below (NewEngineServer cfg build db h prop).
Proof.
  split; simpl.
  - unfold two64. lia.
  - intros k [b Hb]. rewrite lookup_empty in Hb. discriminate Hb.
Qed.

Lemma evictLoop_lookup_Some (ids : list Z) (i : Z) (b b' : gmap Z BlockBuilder) (k : Z) :
  evictLoop ids i b = Some b' -> is_Some (b' !! k) -> is_Some (b !! k).
Proof.
  intros Hloop Hk. destruct (evictLoop_evicted _ _ _ _ Hloop) as (n & _ & ->).
  rewrite evicted_lookup in Hk. case_bool_decide; [| exact Hk].
  destruct Hk as [? Hk]. discriminate Hk.
Qed.

Lemma forkchoiceUpdated_ids_below (s : EngineServer) (forkChoice : ForkChoiceState)
    (attrs : option PayloadAttributes) (version : StateVersion) :
  ids_below s ->
  payloadId s + 1 < two64 ->
  let s' := (forkchoiceUpdated s forkChoice attrs version).2 in
  ids_below s'
  /\ (payloadId s' = payloadId s /\ builders s' = builders s
      \/ payloadId s' = payloadId s + 1
         /\ builders s !! payloadId s' = None
         /\ is_Some (builders s' !! payloadId s')
         /\ forall k, is_Some (builders s' !! k) ->
              k = payloadId s' \/ is_Some (builders s !! k)).
Proof.
  intros [Hrange Hkeys] Hwrap. cbv zeta.
  destruct (forkchoiceUpdated_registry s forkChoice attrs version)
    as [[Hsame _] | (a & b & st & _ & _ & Hev & Hstate & _)].
  - rewrite Hsame. simpl. split; [split; assumption |]. left. split; reflexivity.
  - rewrite Hstate.
    assert (Hid : add64 (payloadId s) 1 = payloadId s + 1)
      by (unfold add64, wrap64; apply Z.mod_small; lia).
    rewrite Hid. unfold ids_below. cbn [payloadId builders].
    assert (Hfresh : builders s !! (payloadId s + 1) = None).
    { destruct (builders s !! (payloadId s + 1)) eqn:E; [| reflexivity].
      specialize (Hkeys (payloadId s + 1) (ex_intro _ _ E)). lia. }
    split; [split; [lia |] |].
    + intros k Hk. destruct (decide (k = payloadId s + 1)) as [-> | Hne]; [lia |].
      rewrite lookup_insert_ne in Hk by congruence.
      specialize (Hkeys k (evictLoop_lookup_Some _ _ _ _ _ Hev Hk)). lia.
    + right. split; [reflexivity |]. split; [exact Hfresh |].
      split; [rewrite lookup_insert_eq; eauto |].
      intros k Hk. destruct (decide (k = payloadId s + 1)) as [-> | Hne]; [left; reflexivity |].
      right. rewrite lookup_insert_ne in Hk by congruence.
      exact (evictLoop_lookup_Some _ _ _ _ _ Hev Hk).
Qed.

(** X13: until the counter wraps around, payload ids are issued in increasing
    order and never twice: a forkchoice update either leaves counter and
    registry alone, or steps the counter by one and registers the new
    builder under an id that was not in use; every id in use stays between
    one and the counter. *)
Theorem payload_ids_increase_until_wrap (s : EngineServer)
    (forkChoice : ForkChoiceState) (attrs : option PayloadAttributes)
    (version : StateVersion) :
  ids_below s ->
  payloadId s + 1 < two64 ->
  let s' := (forkchoiceUpdated s forkChoice attrs version).2 in
  ids_below s'
  /\ (payloadId s' = payloadId s /\ builders s' = builders s
      \/ payloadId s' = payloadId s + 1
         /\ builders s !! payloadId s' = None
         /\ is_Some (builders s' !! payloadId s')
         /\ forall k, is_Some (builders s' !! k) ->
              k = payloadId s' \/ is_Some (builders s !! k)).
Proof. exact (forkchoiceUpdated_ids_below s forkChoice attrs version). Qed.

(** X14: an id that was never issued, zero or above the counter, is unknown to
    GetPayload, which fails with UNKNOWN_PAYLOAD on a proposer of a
    proof-of-stake chain. *)
Theorem getPayload_unissued_id_is_unknown (s : EngineServer) (ttd id : Z) :
  ids_below s ->
  proposing s = true ->
  TerminalTotalDifficulty (config s) = Some ttd ->
  0 <= id < two64 ->
  id = 0 \/ payloadId s < id ->
  getPayload s id = Fail UnknownPayloadErr
  /\ GetPayloadV2 s (convertPayloadId id) = Fail UnknownPayloadErr.
Proof.
  intros [_ Hkeys] Hp Ht Hid Hout.
  assert (Hnone : builders s !! id = None).
  { destruct (builders s !! id) eqn:E; [| reflexivity].
    specialize (Hkeys id (ex_intro _ _ E)). lia. }
  assert (Hget : getPayload s id = Fail UnknownPayloadErr)
    by (unfold getPayload; rewrite Hp, Ht, Hnone; reflexivity).
  split; [exact Hget |].
  unfold GetPayloadV2. rewrite (Uint64_convertPayloadId id Hid). exact Hget.
Qed.

(** X15: on a full registry a new build evicts exactly the smallest id: after
    the forkchoice update that starts it, GetPayload no longer knows that
    id, the other builders are where they were, and the registry is full
    again. *)
Theorem new_build_evicts_smallest_id (s s' : EngineServer)
    (forkChoice : ForkChoiceState) (attrs : option PayloadAttributes)
    (version : StateVersion) (r : ForkChoiceUpdatedResponse) (oldest : Z)
    (others : list Z) :
  ids_below s ->
  payloadId s + 1 < two64 ->
  Z.of_nat (size (builders s)) = MaxBuilders ->
  SortedKeys (builders s) = oldest :: others ->
  forkchoiceUpdated s forkChoice attrs version = (Return r, s') ->
  payloadId s' <> payloadId s ->
  GetPayloadV2 s' (convertPayloadId oldest) = Fail UnknownPayloadErr
  /\ (forall k, k ∈ others -> builders s' !! k = builders s !! k)
  /\ (forall k, k ∈ others -> oldest < k)
  /\ Z.of_nat (size (builders s')) = MaxBuilders.
Proof.
  intros Hids Hwrap Hfull Hkeys Hcall Hnew.
  pose proof (forkchoiceUpdated_registry s forkChoice attrs version) as Hreg.
  cbv zeta in Hreg. rewrite Hcall in Hreg. simpl in Hreg.
  destruct Hreg as [[Hsame _] | (a & b & st & Ha & _ & Hev & Hstate & Hres)].
  { exfalso. apply Hnew. rewrite Hsame. reflexivity. }
  injection Hres as ->.
  destruct (forkchoiceUpdated_payload_id_proposing _ _ _ _ _ _ _ Hcall eq_refl)
    as [Hp [ttd Ht]].
  assert (Hid : add64 (payloadId s) 1 = payloadId s + 1)
    by (destruct Hids as [Hr _]; unfold add64, wrap64; apply Z.mod_small; lia).
  (* the loop deletes the smallest key and stops *)
  assert (Hb : b = delete oldest (builders s)).
  { revert Hev. rewrite Hkeys. simpl. rewrite Hfull, Z.sub_diag. simpl.
    assert (Hin : is_Some (builders s !! oldest))
      by (apply SortedKeys_elem_of; rewrite Hkeys; apply list_elem_of_here).
    pose proof (map_size_delete_Some oldest (builders s) Hin) as Hdel.
    assert (E : (0 + 1 <=? Z.of_nat (size (delete oldest (builders s))) - MaxBuilders)
                = false) by (apply Z.leb_gt; unfold MaxBuilders in *; lia).
    destruct others; simpl; rewrite E; congruence. }
  assert (Hold : is_Some (builders s !! oldest))
    by (apply SortedKeys_elem_of; rewrite Hkeys; apply list_elem_of_here).
  assert (Holdr : 1 <= oldest <= payloadId s) by (destruct Hids as [_ Hk]; auto).
  assert (Hlt : forall k, k ∈ others -> oldest < k).
  { intros k Hk. apply (SortedKeys_take_lt_drop (builders s) 1).
    - rewrite Hkeys. simpl. apply list_elem_of_here.
    - rewrite Hkeys. simpl. exact Hk. }
  rewrite Hstate. split; [| split; [| split]].
  - unfold GetPayloadV2.
    rewrite Uint64_convertPayloadId by (destruct Hids as [Hr _]; lia).
    unfold getPayload. simpl. rewrite Hp, Ht.
    rewrite lookup_insert_ne by lia. rewrite Hb, lookup_delete_eq. reflexivity.
  - intros k Hk. simpl.
    assert (Hkin : is_Some (builders s !! k))
      by (apply SortedKeys_elem_of; rewrite Hkeys; apply list_elem_of_further; exact Hk).
    assert (1 <= k <= payloadId s) by (destruct Hids as [_ Hks]; auto).
    rewrite lookup_insert_ne by lia. rewrite Hb.
    apply lookup_delete_ne. specialize (Hlt k Hk). lia.
  - exact Hlt.
  - simpl. rewrite map_size_insert_None.
    + rewrite Hb, (map_size_delete_Some _ _ Hold). unfold MaxBuilders in *. lia.
    + rewrite Hb, lookup_delete_ne by lia.
      destruct (builders s !! add64 (payloadId s) 1) eqn:E; [| reflexivity].
      destruct Hids as [_ Hk]. specialize (Hk _ (ex_intro _ _ E)). lia.
Qed.

End GetPayloadMore.

(** ** The response of [getPayload] *)

Section ResponseParts.
Context `{Externals}.

Lemma blockValueFrom_tipSum (txs : list Transaction) (receipts : list Z)
    (baseFee : Z) (i : nat) (acc : Z) :
  0 <= acc < two256 ->
  (i <= length receipts)%nat ->
  blockValueFrom txs i receipts baseFee acc
  = if decide (length txs + i <= length receipts)%nat
    then Return ((acc + tipSum txs (drop i receipts) baseFee) mod two256)
    else Panic.
Proof.
  revert i acc. induction txs as [| tx txs IH]; intros i acc Hacc Hi0; simpl.
  - rewrite decide_True by lia. rewrite Z.add_0_r, Z.mod_small by exact Hacc. reflexivity.
  - destruct (receipts !! i) as [gas |] eqn:Hi.
    + pose proof (lookup_lt_Some _ _ _ Hi) as Hlt.
      rewrite IH by (first [apply Z.mod_pos_bound; unfold two256; lia | lia]).
      rewrite (drop_S _ _ _ Hi).
      destruct (decide (length txs + S i <= length receipts)%nat);
        [rewrite decide_True by lia | rewrite decide_False by lia; reflexivity].
      f_equal.
      rewrite Z.add_mod_idemp_l by (unfold two256; lia).
      rewrite <- Z.add_assoc.
      rewrite <- (Z.add_mod_idemp_r acc) by (unfold two256; lia).
      rewrite Z.add_mod_idemp_l by (unfold two256; lia).
      rewrite Z.add_mod_idemp_r by (unfold two256; lia). reflexivity.
    + apply lookup_ge_None in Hi. rewrite decide_False by lia. reflexivity.
Qed.

(** X16: the block value is the sum, over the transactions and their receipts
    in order, of gas used times effective tip, reduced to 256 bits; with
    fewer receipts than transactions the computation panics, and receipts
    beyond the transactions are not read. *)
Theorem blockValue_is_tip_sum (br : BlockWithReceipts) (baseFee : Z) :
  let txs := blk_transactions (bwr_Block br) in
  blockValue br baseFee
  = if decide (length txs <= length (bwr_Receipts br))%nat
    then Return (tipSum txs (bwr_Receipts br) baseFee mod two256)
    else Panic.
Proof.
  cbv zeta. unfold blockValue.
  rewrite blockValueFrom_tipSum by (first [unfold two256; lia | lia]).
  rewrite Nat.add_0_r, drop_0. reflexivity.
Qed.

Lemma collectBlobs_lengths (txs : list Transaction) (bundle result : BlobsBundleV1) :
  collectBlobs txs bundle = Return result ->
  length (bundle_Commitments result)
    = (length (bundle_Commitments bundle) + length (versionedHashes txs))%nat
  /\ length (bundle_Proofs result)
    = (length (bundle_Proofs bundle) + length (versionedHashes txs))%nat
  /\ length (bundle_Blobs result)
    = (length (bundle_Blobs bundle) + length (versionedHashes txs))%nat.
Proof.
  revert bundle. induction txs as [| tx txs IH]; intros bundle Hrun; simpl in *.
  - injection Hrun as <-. lia.
  - unfold versionedHashes in *. simpl.
    destruct (bool_decide (tx_Type tx = BlobTxType)); simpl in Hrun.
    + destruct (tx_Wrapper tx) as [blobTx |]; [| discriminate Hrun].
      destruct (negb (bool_decide (length (btw_DataHashes blobTx)
                                   = length (btw_Commitments blobTx)))
                || negb (bool_decide (length (btw_DataHashes blobTx)
                                      = length (btw_Proofs blobTx)))
                || negb (bool_decide (length (btw_DataHashes blobTx)
                                      = length (btw_Blobs blobTx)))) eqn:Hchk;
        [discriminate Hrun |].
      apply orb_false_elim in Hchk as [Hchk Hb].
      apply orb_false_elim in Hchk as [Hc Hp].
      apply negb_false_iff, bool_decide_eq_true in Hc, Hp, Hb.
      destruct (IH _ Hrun) as (Hc' & Hp' & Hb'). simpl in Hc', Hp', Hb'.
      rewrite !length_app in *. lia.
    + destruct (IH _ Hrun) as (Hc' & Hp' & Hb'). simpl. lia.
Qed.

(** X17: a blobs bundle that [getPayload] returns holds exactly one commitment,
    one proof and one blob for every versioned hash of the block's blob
    transactions: the three lists have the same length, that of the
    versioned hashes. *)
Theorem collectBlobs_one_entry_per_versioned_hash (txs : list Transaction)
    (result : BlobsBundleV1) :
  collectBlobs txs (mkBlobsBundleV1 [] [] []) = Return result ->
  length (bundle_Commitments result) = length (versionedHashes txs)
  /\ length (bundle_Proofs result) = length (versionedHashes txs)
  /\ length (bundle_Blobs result) = length (versionedHashes txs).
Proof.
  intros Hrun. destruct (collectBlobs_lengths _ _ _ Hrun) as (Hc & Hp & Hb).
  simpl in Hc, Hp, Hb. auto.
Qed.

Lemma copyBloom_full (bloom : Bytes) : length bloom = 256%nat -> copyBloom bloom = bloom.
Proof.
  intros Hlen. unfold copyBloom. rewrite Hlen, Nat.sub_diag. simpl.
  rewrite app_nil_r. apply take_ge. lia.
Qed.

Lemma int64_of_BigInt_Uint64 (n : Z) :
  0 <= n < 2 ^ 63 -> int64_of_uint64 (BigInt_Uint64 n) = n.
Proof.
  intros Hn. unfold int64_of_uint64, BigInt_Uint64, wrap64, two64.
  assert (E : 2 ^ 64 = 2 * 2 ^ 63) by reflexivity.
  rewrite Z.abs_eq by lia. rewrite Z.mod_small by lia.
  destruct (Z.ltb_spec n (2 ^ 63)); [reflexivity | lia].
Qed.

(** X18: the envelope that [getPayload] makes of a sealed block round trips
    through [newPayload]'s reading of it: under a version that covers the
    block's withdrawals and data-gas fields, the header rebuilt from the
    envelope is the header of the block, so a block whose hash is the hash
    of its header passes the block-hash check. *)
Theorem payloadHeader_of_payloadResponse (br : BlockWithReceipts)
    (response : GetPayloadResponse) (version : StateVersion) :
  let block := bwr_Block br in
  let header := blk_header block in
  let payload := gpr_ExecutionPayload response in
  payloadResponse br = Return response ->
  sealedHeader header (ep_Transactions payload) (blk_withdrawals block) ->
  (version_ge version CapellaVersion = true \/ blk_withdrawals block = None) ->
  (version_ge version DenebVersion = true \/ h_DataGasUsed header = None) ->
  payloadHeader payload version = header
  /\ (blk_hash block = Header_Hash header ->
      Header_Hash (payloadHeader payload version) = ep_BlockHash payload).
Proof.
  cbv zeta. intros Hresp (Hu & Hd & Hn & Htx & Hw & Hbloom & Hnum & Hgas) Hcap Hden.
  unfold payloadResponse in Hresp.
  destruct (h_BaseFee (blk_header (bwr_Block br))) as [fee |] eqn:Hfee;
    [| discriminate Hresp].
  simpl in Hresp.
  destruct (MarshalTransactionsBinary (blk_transactions (bwr_Block br)))
    as [txs | | |] eqn:Hm; try discriminate Hresp.
  simpl in Hresp.
  destruct (blockValue br (fee mod two256)) as [value | | |];
    try discriminate Hresp.
  simpl in Hresp.
  destruct (collectBlobs (blk_transactions (bwr_Block br)) (mkBlobsBundleV1 [] [] []))
    as [bundle | | |]; try discriminate Hresp.
  simpl in Hresp. injection Hresp as <-. simpl in *.
  assert (Hhdr : payloadHeader
                   {| ep_ParentHash := h_ParentHash (blk_header (bwr_Block br));
                      ep_FeeRecipient := h_Coinbase (blk_header (bwr_Block br));
                      ep_StateRoot := h_Root (blk_header (bwr_Block br));
                      ep_ReceiptsRoot := h_ReceiptHash (blk_header (bwr_Block br));
                      ep_LogsBloom := h_Bloom (blk_header (bwr_Block br));
                      ep_PrevRandao := h_MixDigest (blk_header (bwr_Block br));
                      ep_BlockNumber := BigInt_Uint64 (h_Number (blk_header (bwr_Block br)));
                      ep_GasLimit := h_GasLimit (blk_header (bwr_Block br));
                      ep_GasUsed := h_GasUsed (blk_header (bwr_Block br));
                      ep_Timestamp := h_Time (blk_header (bwr_Block br));
                      ep_ExtraData := h_Extra (blk_header (bwr_Block br));
                      ep_BaseFeePerGas := Some fee;
                      ep_BlockHash := blk_hash (bwr_Block br);
                      ep_Transactions := txs;
                      ep_Withdrawals := blk_withdrawals (bwr_Block br);
                      ep_DataGasUsed :=
                        if isSome (h_DataGasUsed (blk_header (bwr_Block br)))
                           && isSome (h_ExcessDataGas (blk_header (bwr_Block br)))
                        then h_DataGasUsed (blk_header (bwr_Block br)) else None;
                      ep_ExcessDataGas :=
                        if isSome (h_DataGasUsed (blk_header (bwr_Block br)))
                           && isSome (h_ExcessDataGas (blk_header (bwr_Block br)))
                        then h_ExcessDataGas (blk_header (bwr_Block br)) else None |}
                   version
                 = blk_header (bwr_Block br)).
  { unfold payloadHeader. simpl.
    destruct (blk_header (bwr_Block br)) eqn:Hh. simpl in *.
    rewrite (copyBloom_full _ Hbloom), (int64_of_BigInt_Uint64 _ Hnum).
    subst.
    assert (Hwd : (if version_ge version CapellaVersion
                   then blk_withdrawals (bwr_Block br) else None)
                  = blk_withdrawals (bwr_Block br)).
    { destruct Hcap as [-> | ->]; [reflexivity |].
      destruct (version_ge version CapellaVersion); reflexivity. }
    rewrite Hwd.
    destruct Hden as [-> | Hnone].
    - repeat match goal with
             | x : option Z |- _ => destruct x; simpl in *; try discriminate
             end; reflexivity.
    - subst.
      repeat match goal with
             | x : option Z |- _ => destruct x; simpl in *; try discriminate
             end; destruct (version_ge version DenebVersion); reflexivity. }
  split; [exact Hhdr |].
  intros Hhash. rewrite Hhdr. simpl. symmetry. exact Hhash.
Qed.

End ResponseParts.

(** ** Payload bodies by hash, transition configuration, capabilities *)

Section Housekeeping.
Context `{Externals}.

Lemma bodiesByHashLoop_slots (tx : Tx) (request : list Hash)
    (bodies : list (option ExecutionPayloadBodyV1)) :
  bodiesByHashLoop tx request = Return bodies ->
  length bodies = length request
  /\ forall (i : nat) (hash : Hash),
       request !! i = Some hash ->
       exists block body,
         BlockByHash tx hash = Return block
         /\ extractPayloadBodyFromBlock block = Return body
         /\ bodies !! i = Some body.
Proof.
  revert bodies. induction request as [| h request IH]; intros bodies Hrun; simpl in Hrun.
  - injection Hrun as <-. split; [reflexivity |]. intros i hash Hi. discriminate Hi.
  - destruct (BlockByHash tx h) as [block | | |] eqn:Hb; try discriminate Hrun.
    simpl in Hrun.
    destruct (extractPayloadBodyFromBlock block) as [body | | |] eqn:He;
      try discriminate Hrun.
    simpl in Hrun.
    destruct (bodiesByHashLoop tx request) as [rest | | |] eqn:Hr; try discriminate Hrun.
    simpl in Hrun. injection Hrun as <-.
    destruct (IH rest eq_refl) as [Hlen Hslots].
    split; [simpl; congruence |].
    intros [| i] hash Hi; simpl in Hi.
    + injection Hi as <-. exists block, body. auto.
    + exact (Hslots i hash Hi).
Qed.

(** X19: GetPayloadBodiesByHashV1 refuses more than 1024 hashes with
    TOO_LARGE_REQUEST; an answer has one slot for every hash of the
    request, in the order of the request, holding what
    [extractPayloadBodyFromBlock] makes of the block read for that hash:
    nil for a hash the store does not know, where the method by range
    would have stopped. *)
Theorem GetPayloadBodiesByHashV1_answers_slot_by_slot (e : EngineServer)
    (hashes : list Hash) :
  ((1024 < length hashes)%nat ->
   GetPayloadBodiesByHashV1 e hashes = Fail TooLargeRequestErr)
  /\ forall bodies,
       GetPayloadBodiesByHashV1 e hashes = Return bodies ->
       (length hashes <= 1024)%nat
       /\ length bodies = length hashes
       /\ exists tx,
            db_BeginRo e = Return tx
            /\ forall (i : nat) (hash : Hash),
                 hashes !! i = Some hash ->
                 exists block body,
                   BlockByHash tx hash = Return block
                   /\ extractPayloadBodyFromBlock block = Return body
                   /\ bodies !! i = Some body
                   /\ (block = None -> body = None).
Proof.
  unfold GetPayloadBodiesByHashV1. split.
  - intros Hbig. destruct (Z.ltb_spec 1024 (Z.of_nat (length hashes))); [reflexivity | lia].
  - intros bodies Hrun.
    destruct (Z.ltb_spec 1024 (Z.of_nat (length hashes))); [discriminate Hrun |].
    unfold getPayloadBodiesByHash in Hrun.
    destruct (db_BeginRo e) as [tx | | |]; try discriminate Hrun. simpl in Hrun.
    destruct (bodiesByHashLoop_slots tx hashes bodies Hrun) as [Hlen Hslots].
    split; [lia |]. split; [exact Hlen |]. exists tx. split; [reflexivity |].
    intros i hash Hi. destruct (Hslots i hash Hi) as (block & body & Hb & He & Hs).
    exists block, body. repeat split; try assumption.
    intros ->. simpl in He. congruence.
Qed.

(** X20: the heartbeat succeeds exactly when the store opens and both sides
    state the same terminal total difficulty; it then answers with that
    difficulty, the zero hash and block number zero, an answer that is
    itself accepted when sent back. *)
Theorem ExchangeTransitionConfigurationV1_echoes (e : EngineServer)
    (beaconConfig : option TransitionConfiguration) (r : TransitionConfiguration) :
  (ExchangeTransitionConfigurationV1 e beaconConfig = Return r
   <-> exists tx ttd theirs,
         db_BeginRo e = Return tx
         /\ TerminalTotalDifficulty (config e) = Some ttd
         /\ beaconConfig = Some theirs
         /\ tc_TerminalTotalDifficulty theirs = Some ttd
         /\ r = mkTransitionConfiguration (Some ttd) zeroHash (Some 0))
  /\ (ExchangeTransitionConfigurationV1 e beaconConfig = Return r ->
      ExchangeTransitionConfigurationV1 e (Some r) = Return r).
Proof.
  assert (Hiff : ExchangeTransitionConfigurationV1 e beaconConfig = Return r
                 <-> exists tx ttd theirs,
                       db_BeginRo e = Return tx
                       /\ TerminalTotalDifficulty (config e) = Some ttd
                       /\ beaconConfig = Some theirs
                       /\ tc_TerminalTotalDifficulty theirs = Some ttd
                       /\ r = mkTransitionConfiguration (Some ttd) zeroHash (Some 0)).
  { unfold ExchangeTransitionConfigurationV1. split.
    - intros Hrun.
      destruct (db_BeginRo e) as [tx | | |]; try discriminate Hrun. simpl in Hrun.
      destruct (TerminalTotalDifficulty (config e)) as [ttd |];
        [| destruct beaconConfig; discriminate Hrun].
      destruct beaconConfig as [theirs |]; [| discriminate Hrun].
      destruct (tc_TerminalTotalDifficulty theirs) as [t |] eqn:Ht; [| discriminate Hrun].
      case_bool_decide; simpl in Hrun; [| discriminate Hrun].
      injection Hrun as <-. subst. exists tx, t, theirs. auto.
    - intros (tx & ttd & theirs & -> & -> & -> & Ht & ->). simpl. rewrite Ht.
      rewrite bool_decide_eq_true_2 by reflexivity. reflexivity. }
  split; [exact Hiff |].
  intros Hrun. apply Hiff in Hrun as (tx & ttd & theirs & Hdb & Httd & _ & _ & ->).
  unfold ExchangeTransitionConfigurationV1. rewrite Hdb, Httd. simpl.
  rewrite bool_decide_eq_true_2 by reflexivity. reflexivity.
Qed.

End Housekeeping.

Lemma foundIn_In (f : string) (to : list string) : foundIn f to = true <-> In f to.
Proof.
  induction to as [| t to IH]; simpl.
  - split; [discriminate | contradiction].
  - destruct (String.eqb_spec f t) as [-> | Hne].
    + split; auto.
    + rewrite IH. split; [auto | intros [Heq | Hin]; [congruence | exact Hin]].
Qed.

Lemma compareCapabilitiesFrom_filter (from to result : list string) :
  compareCapabilitiesFrom from to result
  = (result ++ List.filter (fun f => negb (foundIn f to)) from)%list.
Proof.
  revert result. induction from as [| f from IH]; intros result; simpl.
  - rewrite app_nil_r. reflexivity.
  - rewrite IH. destruct (foundIn f to); simpl; [reflexivity |].
    rewrite <- app_assoc. reflexivity.
Qed.

Lemma compareCapabilities_In (from to : list string) (x : string) :
  In x (compareCapabilities from to) <-> In x from /\ ~ In x to.
Proof.
  unfold compareCapabilities. rewrite compareCapabilitiesFrom_filter. simpl.
  rewrite filter_In, <- (foundIn_In x to).
  destruct (foundIn x to); simpl; intuition congruence.
Qed.

(** X21: [compareCapabilities from to] lists the entries of [from] that [to]
    lacks, in the order and as often as they occur in [from]; two lists
    leave nothing over in either direction exactly when they name the same
    methods. *)
Theorem compareCapabilities_is_the_difference (from to : list string) :
  (forall x, In x (compareCapabilities from to) <-> In x from /\ ~ In x to)
  /\ sublist (compareCapabilities from to) from
  /\ (compareCapabilities from to = [] /\ compareCapabilities to from = []
      <-> forall x, In x from <-> In x to).
Proof.
  split; [exact (compareCapabilities_In from to) |]. split.
  - unfold compareCapabilities. rewrite compareCapabilitiesFrom_filter. simpl.
    induction from as [| f from IH]; simpl; [constructor |].
    destruct (negb (foundIn f to)); [apply sublist_skip | apply sublist_cons]; exact IH.
  - split.
    + intros [Hft Htf] x. split; intros Hx.
      * destruct (foundIn x to) eqn:E; [apply foundIn_In; exact E |].
        assert (Hin : In x (compareCapabilities from to)).
        { apply compareCapabilities_In. split; [exact Hx |].
          rewrite <- foundIn_In. congruence. }
        rewrite Hft in Hin. contradiction.
      * destruct (foundIn x from) eqn:E; [apply foundIn_In; exact E |].
        assert (Hin : In x (compareCapabilities to from)).
        { apply compareCapabilities_In. split; [exact Hx |].
          rewrite <- foundIn_In. congruence. }
        rewrite Htf in Hin. contradiction.
    + intros Hsame. split.
      * destruct (compareCapabilities from to) as [| x l] eqn:E; [reflexivity |].
        assert (Hin : In x (compareCapabilities from to)) by (rewrite E; left; reflexivity).
        apply compareCapabilities_In in Hin as [Hx Hnx]. apply Hsame in Hx. contradiction.
      * destruct (compareCapabilities to from) as [| x l] eqn:E; [reflexivity |].
        assert (Hin : In x (compareCapabilities to from)) by (rewrite E; left; reflexivity).
        apply compareCapabilities_In in Hin as [Hx Hnx]. apply Hsame in Hx. contradiction.
Qed.

(** X22: ExchangeCapabilities answers with the server's own list whatever the
    consensus layer sent, and logs a mismatch exactly when the two lists
    do not name the same methods; the record then holds the methods each
    side lacks. *)
Theorem ExchangeCapabilities_logs_the_differences (e : EngineServer)
    (fromCl : list string) :
  (ExchangeCapabilities e fromCl).1 = ourCapabilities
  /\ ((ExchangeCapabilities e fromCl).2 = None
      <-> forall x, In x fromCl <-> In x ourCapabilities)
  /\ forall missingCl missingOurs,
       (ExchangeCapabilities e fromCl).2 = Some (missingCl, missingOurs) ->
       (forall x, In x missingCl <-> In x ourCapabilities /\ ~ In x fromCl)
       /\ (forall x, In x missingOurs <-> In x fromCl /\ ~ In x ourCapabilities).
Proof.
  unfold ExchangeCapabilities. cbv zeta. cbn [fst snd].
  split; [reflexivity |]. split.
  - destruct (compareCapabilities ourCapabilities fromCl) as [| x l] eqn:Ecl;
      destruct (compareCapabilities fromCl ourCapabilities) as [| y l'] eqn:Eours.
    + cbn [length Z.of_nat Z.ltb Z.compare orb]. split; [intros _ | reflexivity].
      intros z. split; intros Hz.
      * destruct (foundIn z ourCapabilities) eqn:E; [apply foundIn_In; exact E |].
        assert (Hin : In z (compareCapabilities fromCl ourCapabilities)).
        { apply compareCapabilities_In. split; [exact Hz |].
          rewrite <- foundIn_In. congruence. }
        rewrite Eours in Hin. contradiction.
      * destruct (foundIn z fromCl) eqn:E; [apply foundIn_In; exact E |].
        assert (Hin : In z (compareCapabilities ourCapabilities fromCl)).
        { apply compareCapabilities_In. split; [exact Hz |].
          rewrite <- foundIn_In. congruence. }
        rewrite Ecl in Hin. contradiction.
    + split; [simpl; discriminate |].
      intros Hsame. exfalso.
      assert (Hin : In y (compareCapabilities fromCl ourCapabilities))
        by (rewrite Eours; left; reflexivity).
      apply compareCapabilities_In in Hin as [Hy Hny]. apply Hsame in Hy. contradiction.
    + split; [simpl; discriminate |].
      intros Hsame. exfalso.
      assert (Hin : In x (compareCapabilities ourCapabilities fromCl))
        by (rewrite Ecl; left; reflexivity).
      apply compareCapabilities_In in Hin as [Hx Hnx]. apply Hsame in Hx. contradiction.
    + split; [simpl; discriminate |].
      intros Hsame. exfalso.
      assert (Hin : In x (compareCapabilities ourCapabilities fromCl))
        by (rewrite Ecl; left; reflexivity).
      apply compareCapabilities_In in Hin as [Hx Hnx]. apply Hsame in Hx. contradiction.
  - intros missingCl missingOurs Hlog.
    destruct ((0 <? Z.of_nat (length (compareCapabilities ourCapabilities fromCl)))
              || (0 <? Z.of_nat (length (compareCapabilities fromCl ourCapabilities))));
      [| discriminate Hlog].
    injection Hlog as <- <-.
    split; intros x; apply compareCapabilities_In.
Qed.

(** ** The direct client *)

Lemma insert_middle {A : Type} (l1 l2 : list A) (x y : A) (n : nat) :
  n = length l1 -> <[n:=y]> (l1 ++ x :: l2) = (l1 ++ y :: l2)%list.
Proof.
  intros ->. induction l1 as [| a l1 IH]; simpl; [reflexivity |].
  f_equal. exact IH.
Qed.

Lemma reverseLoop_middle (fuel : nat) (pre mid post : Bytes) :
  (length mid <= 2 * fuel + 1)%nat ->
  reverseLoop fuel (Z.of_nat (length pre)) (Z.of_nat (length pre + length mid) - 1)
    (pre ++ mid ++ post)
  = Some (pre ++ rev mid ++ post)%list.
Proof.
  revert pre mid post. induction fuel as [| fuel IH]; intros pre mid post Hfuel.
  - destruct mid as [| x [| x' mid]]; simpl in Hfuel; try lia; simpl.
    + destruct (Z.ltb_spec (Z.of_nat (length pre)) (Z.of_nat (length pre + 0) - 1));
        [lia | reflexivity].
    + destruct (Z.ltb_spec (Z.of_nat (length pre)) (Z.of_nat (length pre + 1) - 1));
        [lia | reflexivity].
  - destruct mid as [| x mid]; [| destruct (exists_last (l := x :: mid)) as (m & y & Hm);
                                    [discriminate |]].
    + simpl.
      destruct (Z.ltb_spec (Z.of_nat (length pre)) (Z.of_nat (length pre + 0) - 1));
        [lia | reflexivity].
    + destruct m as [| x0 m].
      * simpl in Hm. injection Hm as -> ->. simpl.
        destruct (Z.ltb_spec (Z.of_nat (length pre)) (Z.of_nat (length pre + 1) - 1));
          [lia | reflexivity].
      * simpl in Hm. injection Hm as <- ->.
        assert (Hlen : length (x :: m ++ [y]) = S (S (length m)))
          by (simpl; rewrite length_app; simpl; lia).
        rewrite Hlen in *. cbn [reverseLoop].
        destruct (Z.ltb_spec (Z.of_nat (length pre))
                    (Z.of_nat (length pre + S (S (length m))) - 1)); [| lia].
        rewrite Nat2Z.id.
        replace (Z.to_nat (Z.of_nat (length pre + S (S (length m))) - 1))
          with (length (pre ++ x :: m)) by (rewrite length_app; simpl; lia).
        set (a := (pre ++ (x :: m ++ [y]) ++ post)%list).
        assert (Hi : a !! length pre = Some x)
          by (apply list_lookup_middle; reflexivity).
        assert (Hshape : a = ((pre ++ x :: m) ++ y :: post)%list)
          by (unfold a; simpl; rewrite <- ?app_assoc; simpl; rewrite <- ?app_assoc;
              reflexivity).
        assert (Hj : a !! length (pre ++ x :: m) = Some y)
          by (rewrite Hshape; apply list_lookup_middle; reflexivity).
        assert (Hins : <[length pre:=y]> (<[length (pre ++ x :: m):=x]> a)
                       = ((pre ++ [y]) ++ m ++ x :: post)%list).
        { rewrite Hshape, (insert_middle (pre ++ x :: m) post y x _ eq_refl).
          rewrite <- app_assoc. simpl.
          rewrite (insert_middle pre (m ++ x :: post) x y _ eq_refl).
          rewrite <- app_assoc. reflexivity. }
        unfold Bytes in *. rewrite Hi, Hj, Hins.
        replace (Z.of_nat (length pre) + 1) with (Z.of_nat (length (pre ++ [y])))
          by (rewrite length_app; simpl; lia).
        replace (Z.of_nat (length pre + S (S (length m))) - 1 - 1)
          with (Z.of_nat (length (pre ++ [y]) + length m) - 1)
          by (rewrite !length_app; simpl; lia).
        rewrite (IH (pre ++ [y])%list m (x :: post)) by lia.
        apply (f_equal Some). simpl rev. rewrite rev_app_distr. simpl.
        rewrite <- ?app_assoc. simpl. reflexivity.
Qed.

Lemma reversedBytes_rev (a : Bytes) : reversedBytes a = Some (rev a).
Proof.
  unfold reversedBytes.
  pose proof (reverseLoop_middle (length a) [] a []) as Hloop.
  simpl in Hloop. rewrite !app_nil_r in Hloop. apply Hloop. lia.
Qed.

Lemma be_value_rev (a : Bytes) : be_value (rev a) = le_value a.
Proof.
  unfold be_value, le_value. induction a as [| b a IH]; simpl; [reflexivity |].
  rewrite foldl_app. simpl. rewrite IH. lia.
Qed.

(** X23: the loop that reverses the base fee always ends without an index out
    of range and yields the bytes in reverse order, so the base fee of the
    request is the little-endian value of the base-fee bytes of the block. *)
Theorem NewPayload_base_fee_is_little_endian (payload : Eth1Block) :
  reversedBytes (eb_BaseFeePerGas payload) = Some (rev (eb_BaseFeePerGas payload))
  /\ forall reversed,
       reversedBytes (eb_BaseFeePerGas payload) = Some reversed ->
       ep_BaseFeePerGas (clientRequest payload reversed)
       = Some (le_value (eb_BaseFeePerGas payload)).
Proof.
  split; [apply reversedBytes_rev |].
  intros reversed Hrev. rewrite reversedBytes_rev in Hrev. injection Hrev as <-.
  simpl. rewrite be_value_rev. reflexivity.
Qed.

Section DirectClient.
Context `{Externals}.

Lemma checkPayloadStatus_None (st : PayloadStatus) :
  ExecutionClient.checkPayloadStatus (Some st) = None
  <-> ps_ValidationError st = None
      /\ (ps_Status st = ValidStatus \/ ps_Status st = AcceptedStatus).
Proof.
  unfold ExecutionClient.checkPayloadStatus.
  destruct (ps_ValidationError st); [split; [discriminate | intros [? _]; discriminate] |].
  destruct (ps_Status st); simpl; split;
    try discriminate; try (intros [_ [? | ?]]; discriminate); auto.
Qed.

(** X24: the direct client never reports a block invalid without an error, and
    returns no error only for no block at all or for a block that the
    server answered with VALID or ACCEPTED and no validation error. *)
Theorem NewPayload_invalid_comes_with_error (api api' : EngineServer)
    (payload : option Eth1Block) (invalid : bool) (err : option Error) :
  ExecutionClientDirect.NewPayload api payload = (Return (invalid, err), api') ->
  (invalid = true -> is_Some err)
  /\ (err = None ->
      (payload = None /\ api' = api)
      \/ exists block version st,
           payload = Some block
           /\ eb_Version block = Some version
           /\ newPayload api (clientRequest block (rev (eb_BaseFeePerGas block))) version
              = (Return st, api')
           /\ ps_ValidationError st = None
           /\ (ps_Status st = ValidStatus \/ ps_Status st = AcceptedStatus)).
Proof.
  unfold ExecutionClientDirect.NewPayload. intros Hcall.
  destruct payload as [block |].
  2:{ injection Hcall as <- <- <-. split; [discriminate | auto]. }
  rewrite reversedBytes_rev in Hcall.
  set (request := clientRequest block (rev (eb_BaseFeePerGas block))) in *.
  assert (Hcases :
    forall version o s,
      eb_Version block = Some version ->
      newPayload api request version = (o, s) ->
      match o with
      | Fail e => (Return (false, Some (Errorf (newPayloadFailed ++ Error_Error e))), s)
      | Panic => (Panic, s)
      | Hang => (Hang, s)
      | Return payloadStatus =>
          (Return (bool_decide (ps_Status payloadStatus = InvalidStatus)
                   || bool_decide (ps_Status payloadStatus = InvalidBlockHashStatus),
                   ExecutionClient.checkPayloadStatus (Some payloadStatus)), s)
      end = (Return (invalid, err), api') ->
      (invalid = true -> is_Some err)
      /\ (err = None ->
          (Some block = None /\ api' = api)
          \/ exists block0 version0 st,
               Some block = Some block0
               /\ eb_Version block0 = Some version0
               /\ newPayload api (clientRequest block0 (rev (eb_BaseFeePerGas block0)))
                    version0 = (Return st, api')
               /\ ps_ValidationError st = None
               /\ (ps_Status st = ValidStatus \/ ps_Status st = AcceptedStatus))).
  { intros version o s Hv Hnew Hres.
    destruct o as [st | e | |]; try discriminate Hres.
    - injection Hres as <- <- <-. split.
      + intros Hinv.
        destruct (ExecutionClient.checkPayloadStatus (Some st)) eqn:Hc; [eauto |].
        apply checkPayloadStatus_None in Hc as [_ [Hs | Hs]];
          rewrite Hs in Hinv; discriminate Hinv.
      + intros Hc. apply checkPayloadStatus_None in Hc as [Hve Hs].
        right. exists block, version, st. auto.
    - injection Hres as <- <- <-. split; [discriminate | discriminate]. }
  destruct (eb_Version block) as [[| |] |] eqn:Hv.
  - unfold NewPayloadV1 in Hcall.
    destruct (newPayload api request BellatrixVersion) as [o s] eqn:Hnew.
    exact (Hcases _ _ _ eq_refl Hnew Hcall).
  - unfold NewPayloadV2 in Hcall.
    destruct (newPayload api request CapellaVersion) as [o s] eqn:Hnew.
    exact (Hcases _ _ _ eq_refl Hnew Hcall).
  - unfold NewPayloadV3 in Hcall.
    destruct (newPayload api request DenebVersion) as [o s] eqn:Hnew.
    exact (Hcases _ _ _ eq_refl Hnew Hcall).
  - injection Hcall as <- <- <-. split; discriminate.
Qed.

Lemma newPayload_Cancun_gate (s : EngineServer) (req : ExecutionPayload)
    (version : StateVersion) :
  IsCancun (config s) (ep_Timestamp req)
  <> isSome (payloadDataGasUsed req version) && isSome (payloadExcessDataGas req version) ->
  exists err, newPayload s req version = (Fail err, s).
Proof.
  intros Hgate. unfold newPayload.
  destruct (checkWithdrawalsPresence s (h_Time (payloadHeader req version))
              (if version_ge version CapellaVersion then ep_Withdrawals req else None))
    as [err |]; [eauto |].
  unfold payloadDataGasUsed, payloadExcessDataGas in Hgate. simpl.
  destruct (IsCancun (config s) (ep_Timestamp req));
    destruct (version_ge version DenebVersion);
    destruct (ep_DataGasUsed req); destruct (ep_ExcessDataGas req);
    simpl in *; try congruence; eauto.
Qed.

(** X25: a block is accepted only by a server whose Cancun activation agrees
    with the version of the block: a Deneb block sent to a server before
    Cancun, and an earlier block sent to a server after Cancun, come back
    as an error, not reported invalid, and never reach the importer. *)
Theorem NewPayload_version_must_agree_with_Cancun (api : EngineServer)
    (block : Eth1Block) (version : StateVersion) :
  eb_Version block = Some version ->
  IsCancun (config api) (eb_Time block) <> version_ge version DenebVersion ->
  exists msg,
    ExecutionClientDirect.NewPayload api (Some block)
    = (Return (false, Some (Errorf (newPayloadFailed ++ msg))), api).
Proof.
  intros Hv Hgate. unfold ExecutionClientDirect.NewPayload.
  rewrite reversedBytes_rev, Hv.
  set (request := clientRequest block (rev (eb_BaseFeePerGas block))).
  destruct (newPayload_Cancun_gate api request version) as [err Hnew].
  { unfold payloadDataGasUsed, payloadExcessDataGas, request, clientRequest, fromDeneb.
    simpl. rewrite Hv. destruct (version_ge version DenebVersion); simpl; exact Hgate. }
  exists (Error_Error err).
  destruct version; unfold NewPayloadV1, NewPayloadV2, NewPayloadV3; rewrite Hnew;
    reflexivity.
Qed.

(** X26: [ForkChoiceUpdate] of the direct client never reports success: it
    drops the answer of the server and checks the status of an empty
    response, so that whenever the server answers, with whatever status,
    the client returns the error for an empty payload status; the server
    has run its forkchoice update all the same. *)
Theorem ForkChoiceUpdate_direct_never_succeeds (api : EngineServer)
    (finalized head : Hash) :
  (ExecutionClientDirect.ForkChoiceUpdate api finalized head).1 <> Return None
  /\ (ExecutionClientDirect.ForkChoiceUpdate api finalized head).2
     = (ForkchoiceUpdatedV1 api (mkForkChoiceState head head finalized) None).2
  /\ forall r,
       (ForkchoiceUpdatedV1 api (mkForkChoiceState head head finalized) None).1
       = Return r ->
       (ExecutionClientDirect.ForkChoiceUpdate api finalized head).1
       = Return (Some (Errorf "empty payloadStatus")).
Proof.
  unfold ExecutionClientDirect.ForkChoiceUpdate.
  destruct (ForkchoiceUpdatedV1 api (mkForkChoiceState head head finalized) None)
    as [[r | e | |] s]; simpl; repeat split; try discriminate; try reflexivity;
    intros ? ?; discriminate.
Qed.

End DirectClient.

(** ** The execution module *)

Section ExecutionModule.
Context `{Eth1.Conversions}.

(** X27: a segment request is resolved to a pair of hash and number in which
    what the request states is taken as it is, without a look at the
    store, and what it leaves out is read: the number of the stated hash,
    or the canonical hash at the stated number.  GetHeader and GetBody
    answer from the reader's result at that pair, and neither answers a
    request that states nothing. *)
Theorem segment_request_resolution (e : Eth1.EthereumExecutionModule)
    (req : option Eth1.GetSegmentRequest) :
  let resolved (tx : Tx) (r : Eth1.GetSegmentRequest) (blockHash : Hash)
      (blockNumber : Z) : Prop :=
    (Eth1.BlockHash r = Some blockHash
     \/ Eth1.BlockHash r = None
        /\ Eth1.canonicalHash e tx blockNumber = Return blockHash)
    /\ (Eth1.BlockNumber r = Some blockNumber
        \/ Eth1.BlockNumber r = None
           /\ ReadHeaderNumber tx blockHash = Some blockNumber)
    /\ (is_Some (Eth1.BlockHash r) \/ is_Some (Eth1.BlockNumber r)) in
  (forall answer,
     Eth1.GetHeader e req = Return answer ->
     exists tx r blockHash blockNumber header,
       req = Some r /\ Eth1.em_BeginRo e = Return tx
       /\ resolved tx r blockHash blockNumber
       /\ Eth1.getHeader e tx blockHash blockNumber = Return header
       /\ answer = Eth1.HeaderToHeaderRPC <$> header)
  /\ (forall answer,
        Eth1.GetBody e req = Return answer ->
        exists tx r blockHash blockNumber body,
          req = Some r /\ Eth1.em_BeginRo e = Return tx
          /\ resolved tx r blockHash blockNumber
          /\ Eth1.getBody e tx blockHash blockNumber = Return body
          /\ answer
             = (fun b => Eth1.ConvertRawBlockBodyToRpc b blockNumber blockHash) <$> body).
Proof.
  cbv zeta.
  assert (Hparse : forall tx r blockHash blockNumber,
            negb (isSome (Eth1.BlockHash r)) && negb (isSome (Eth1.BlockNumber r)) = false ->
            Eth1.parseSegmentRequest e tx r = Return (blockHash, blockNumber) ->
            (Eth1.BlockHash r = Some blockHash
             \/ Eth1.BlockHash r = None
                /\ Eth1.canonicalHash e tx blockNumber = Return blockHash)
            /\ (Eth1.BlockNumber r = Some blockNumber
                \/ Eth1.BlockNumber r = None
                   /\ ReadHeaderNumber tx blockHash = Some blockNumber)
            /\ (is_Some (Eth1.BlockHash r) \/ is_Some (Eth1.BlockNumber r))).
  { intros tx r blockHash blockNumber Hgood Hp. unfold Eth1.parseSegmentRequest in Hp.
    destruct (Eth1.BlockHash r) as [h |], (Eth1.BlockNumber r) as [n |];
      simpl in Hgood; try discriminate Hgood.
    - injection Hp as <- <-.
      split; [left; reflexivity |]. split; [left; reflexivity | left; eauto].
    - destruct (ReadHeaderNumber tx h) as [n |] eqn:Hn; [| discriminate Hp].
      injection Hp as <- <-.
      split; [left; reflexivity |]. split; [right; auto | left; eauto].
    - destruct (Eth1.canonicalHash e tx n) as [h | | |] eqn:Hc; try discriminate Hp.
      simpl in Hp. injection Hp as <- <-.
      split; [right; auto |]. split; [left; reflexivity | right; eauto]. }
  split; intros answer Hrun.
  - unfold Eth1.GetHeader in Hrun. destruct req as [r |]; [| discriminate Hrun].
    destruct (negb (isSome (Eth1.BlockHash r)) && negb (isSome (Eth1.BlockNumber r)))
      eqn:Hgood; [discriminate Hrun |].
    destruct (Eth1.em_BeginRo e) as [tx | | |]; try discriminate Hrun. simpl in Hrun.
    destruct (Eth1.parseSegmentRequest e tx r) as [[blockHash blockNumber] | | |] eqn:Hp;
      try discriminate Hrun.
    simpl in Hrun.
    destruct (Eth1.getHeader e tx blockHash blockNumber) as [header | | |] eqn:Hh;
      try discriminate Hrun.
    simpl in Hrun. exists tx, r, blockHash, blockNumber, header.
    split; [reflexivity |]. split; [reflexivity |].
    split; [exact (Hparse _ _ _ _ Hgood Hp) |]. split; [assumption |].
    destruct header; injection Hrun as <-; reflexivity.
  - unfold Eth1.GetBody in Hrun. destruct req as [r |]; [| discriminate Hrun].
    destruct (negb (isSome (Eth1.BlockHash r)) && negb (isSome (Eth1.BlockNumber r)))
      eqn:Hgood; [discriminate Hrun |].
    destruct (Eth1.em_BeginRo e) as [tx | | |]; try discriminate Hrun. simpl in Hrun.
    destruct (Eth1.parseSegmentRequest e tx r) as [[blockHash blockNumber] | | |] eqn:Hp;
      try discriminate Hrun.
    simpl in Hrun.
    destruct (Eth1.getBody e tx blockHash blockNumber) as [body | | |] eqn:Hb;
      try discriminate Hrun.
    simpl in Hrun. exists tx, r, blockHash, blockNumber, body.
    split; [reflexivity |]. split; [reflexivity |].
    split; [exact (Hparse _ _ _ _ Hgood Hp) |]. split; [assumption |].
    destruct body; injection Hrun as <-; reflexivity.
Qed.

(** X28: a block that CanonicalHash reports canonical is found alike by its
    hash, by the number GetHeaderHashNumber gives for that hash, and by
    both: GetHeader gives the same answer to the three requests, and so
    does GetBody. *)
Theorem canonical_block_by_hash_or_number (e : Eth1.EthereumExecutionModule)
    (blockHash : Hash) (blockNumber : Z) :
  Eth1.CanonicalHash e blockHash = Return true ->
  Eth1.GetHeaderHashNumber e blockHash = Return blockNumber ->
  let byHash := Some (Eth1.mkGetSegmentRequest (Some blockHash) None) in
  let byNumber := Some (Eth1.mkGetSegmentRequest None (Some blockNumber)) in
  let byBoth := Some (Eth1.mkGetSegmentRequest (Some blockHash) (Some blockNumber)) in
  Eth1.GetHeader e byHash = Eth1.GetHeader e byBoth
  /\ Eth1.GetHeader e byNumber = Eth1.GetHeader e byBoth
  /\ Eth1.GetBody e byHash = Eth1.GetBody e byBoth
  /\ Eth1.GetBody e byNumber = Eth1.GetBody e byBoth.
Proof.
  intros Hcanon Hnumber. cbv zeta.
  unfold Eth1.CanonicalHash in Hcanon. unfold Eth1.GetHeaderHashNumber in Hnumber.
  destruct (Eth1.em_BeginRo e) as [tx | | |] eqn:Hdb; try discriminate Hcanon.
  simpl in Hcanon, Hnumber.
  destruct (ReadHeaderNumber tx blockHash) as [n |] eqn:Hn; [| discriminate Hcanon].
  injection Hnumber as ->.
  destruct (Eth1.canonicalHash e tx blockNumber) as [h | | |] eqn:Hc;
    try discriminate Hcanon.
  injection Hcanon as Heq. apply bool_decide_eq_true in Heq. subst h.
  unfold Eth1.GetHeader, Eth1.GetBody, Eth1.parseSegmentRequest. simpl.
  rewrite Hdb. simpl. rewrite Hn, Hc. simpl. repeat split; reflexivity.
Qed.

End ExecutionModule.

(** ** Bad blocks and a busy stage loop *)

Section BadBlocks.
Context `{Externals}.

Lemma classifier_bad_parent (s : EngineServer) (h : HeaderDownload) (ttd : Z)
    (tx : Tx) (blockHash : Hash) (blockNumber : Z) (parentHash lastValid : Hash) :
  TerminalTotalDifficulty (config s) = Some ttd ->
  hd s = Some h ->
  db_BeginRo s = Return tx ->
  hd_POSSync h = true ->
  ReadHeaderByHash tx blockHash = Return None ->
  ReadHeaderByHash tx parentHash = Return None ->
  ReadTdByHash tx parentHash = Return None ->
  hd_badHeaders h !! parentHash = Some lastValid ->
  (hd_badHeaders h !! blockHash = None
   \/ hd_badHeaders h !! blockHash = Some lastValid) ->
  getQuickPayloadStatusIfPossible s blockHash blockNumber parentHash None true
  = (Return (Some (mkPayloadStatus InvalidStatus (Some lastValid) None None)),
     set_hd s (ReportBadHeaderPoS h blockHash lastValid)).
Proof.
  intros Httd Hhd Hdb Hpos Hheader Hparent Htd Hbad Hown.
  unfold getQuickPayloadStatusIfPossible, andThen.
  rewrite Httd, Hhd, Hdb. simpl. rewrite Hheader. simpl.
  rewrite Hparent. simpl. rewrite Htd. simpl. rewrite Hpos. simpl.
  unfold IsBadHeaderPoS. rewrite Hbad.
  destruct Hown as [-> | ->]; reflexivity.
Qed.

(** X29: an invalid block taints its descendants.  When payloads for a chain
    of blocks that the store does not hold are sent in order on top of a
    block remembered as bad, on a server in PoS sync, the classifier
    answers every one of them INVALID with the latest valid hash
    remembered for that block, remembers every one of them as bad with
    the same hash, and queues nothing for the importer. *)
Theorem bad_block_taints_descendants (s : EngineServer) (h : HeaderDownload)
    (ttd : Z) (tx : Tx) (root lastValid : Hash) (chain : list (Hash * Z)) :
  TerminalTotalDifficulty (config s) = Some ttd ->
  hd s = Some h ->
  db_BeginRo s = Return tx ->
  hd_POSSync h = true ->
  hd_badHeaders h !! root = Some lastValid ->
  (forall x, x = root \/ x ∈ chain.*1 ->
     ReadHeaderByHash tx x = Return None /\ ReadTdByHash tx x = Return None) ->
  (forall x, x ∈ chain.*1 ->
     hd_badHeaders h !! x = None \/ hd_badHeaders h !! x = Some lastValid) ->
  let run := classifyChain s root chain in
  Forall (fun answer =>
            answer = Return (Some (mkPayloadStatus InvalidStatus (Some lastValid)
                                     None None))) run.1
  /\ length run.1 = length chain
  /\ (forall x, x ∈ chain.*1 -> badHeader run.2 x = Some lastValid)
  /\ queued run.2 = queued s
  /\ pendingReplies run.2 = pendingReplies s.
Proof.
  cbv zeta. revert s h root.
  induction chain as [| [blockHash blockNumber] rest IH];
    intros s h root Httd Hhd Hdb Hpos Hbad Hstore Hown.
  - simpl. repeat split; [constructor |]. intros x Hx. inversion Hx.
  - cbn [classifyChain fst snd].
    assert (Hstep : getQuickPayloadStatusIfPossible s blockHash blockNumber root None true
                    = (Return (Some (mkPayloadStatus InvalidStatus (Some lastValid)
                                       None None)),
                       set_hd s (ReportBadHeaderPoS h blockHash lastValid))).
    { apply (classifier_bad_parent s h ttd tx); try assumption.
      - apply Hstore. right. simpl. apply list_elem_of_here.
      - apply Hstore. left. reflexivity.
      - apply Hstore. left. reflexivity.
      - apply Hown. simpl. apply list_elem_of_here. }
    rewrite Hstep. cbn [fst snd].
    set (s1 := set_hd s (ReportBadHeaderPoS h blockHash lastValid)).
    destruct (IH s1 (ReportBadHeaderPoS h blockHash lastValid) blockHash)
      as (Hall & Hlen & Hmem & Hq & Hr).
    + exact Httd.
    + reflexivity.
    + exact Hdb.
    + exact Hpos.
    + simpl. apply lookup_insert_eq.
    + intros x [-> | Hx]; apply Hstore; right; simpl;
        [apply list_elem_of_here | apply list_elem_of_further; exact Hx].
    + intros x Hx. simpl.
      destruct (decide (x = blockHash)) as [-> | Hne].
      * right. apply lookup_insert_eq.
      * rewrite lookup_insert_ne by congruence.
        apply Hown. simpl. apply list_elem_of_further. exact Hx.
    + split; [constructor; [reflexivity | exact Hall] |].
      split; [simpl; congruence |].
      split; [| split].
      * intros x Hx. simpl in Hx. apply elem_of_cons in Hx as [-> | Hx];
          [| exact (Hmem x Hx)].
        destruct (decide (blockHash ∈ rest.*1)) as [Hin | Hnin];
          [exact (Hmem blockHash Hin) |].
        clear - Hnin Httd Hdb Hpos.
        assert (Hkeep : forall (chain : list (Hash * Z)) (s : EngineServer)
                          (parent : Hash) (x : Hash),
                   x ∉ chain.*1 ->
                   badHeader (classifyChain s parent chain).2 x = badHeader s x).
        { induction chain as [| [b n] chain IHc]; intros s0 parent x Hx;
            [reflexivity |].
          cbn [classifyChain fst snd]. rewrite IHc.
          - destruct (classifier_frame s0 b n parent None true) as (_ & _ & _ & Hother).
            apply Hother. intros ->. apply Hx. simpl. apply list_elem_of_here.
          - intros Hin. apply Hx. simpl. apply list_elem_of_further. exact Hin. }
        rewrite (Hkeep rest _ blockHash blockHash Hnin).
        unfold badHeader. simpl. apply lookup_insert_eq.
      * rewrite Hq. unfold s1, queued. simpl. rewrite Hhd. reflexivity.
      * rewrite Hr. unfold s1, pendingReplies. simpl. rewrite Hhd. reflexivity.
Qed.

Lemma classifier_busy (s : EngineServer) (h : HeaderDownload) (blockHash : Hash)
    (blockNumber : Z) (parentHash : Hash) (m : option ForkChoiceState)
    (newPayload : bool) :
  hd s = Some h ->
  stageLoopIsBusy h = true ->
  (getQuickPayloadStatusIfPossible s blockHash blockNumber parentHash m newPayload).1
  <> Return None.
Proof.
  intros Hhd Hbusy. unfold getQuickPayloadStatusIfPossible, andThen.
  rewrite Hhd, Hbusy.
  repeat (case_match; simpl in *; simplify_eq); discriminate.
Qed.

(** X30: while the stage loop is busy the importer gets no new request:
    the classifier then never leaves a call undecided, so every call of
    [newPayload] and of [forkchoiceUpdated] leaves the request queue and
    the reply channel as they were. *)
Theorem busy_stage_loop_gets_no_request (s : EngineServer) (h : HeaderDownload) :
  hd s = Some h ->
  stageLoopIsBusy h = true ->
  (forall req version,
     let s' := (newPayload s req version).2 in
     queued s' = queued s /\ pendingReplies s' = pendingReplies s)
  /\ (forall forkChoice attrs version,
        let s' := (forkchoiceUpdated s forkChoice attrs version).2 in
        queued s' = queued s /\ pendingReplies s' = pendingReplies s).
Proof.
  intros Hhd Hbusy. split.
  - intros req version. cbv zeta. unfold newPayload. cbv zeta.
    pose proof (classifier_frame s (ep_BlockHash req)
                  (ep_BlockNumber req) (h_ParentHash (payloadHeader req version))
                  None true) as Hq.
    pose proof (classifier_busy s h (ep_BlockHash req)
                  (ep_BlockNumber req) (h_ParentHash (payloadHeader req version))
                  None true Hhd Hbusy) as Hdecided.
    cbv zeta in Hq.
    destruct (getQuickPayloadStatusIfPossible s (ep_BlockHash req) (ep_BlockNumber req)
                (h_ParentHash (payloadHeader req version)) None true) as [q s1].
    simpl in Hq, Hdecided. destruct Hq as (_ & Hqueue & Hreplies & _).
    unfold andThen.
    repeat (case_match; simpl in *; simplify_eq);
      try (exfalso; apply Hdecided; reflexivity);
      split; first [reflexivity | assumption].
  - intros [head safe fin] attrs version. cbv zeta.
    unfold forkchoiceUpdated. cbv zeta. simpl fcs_HeadHash.
    simpl fcs_SafeBlockHash. simpl fcs_FinalizedBlockHash.
    pose proof (classifier_frame s head 0 zeroHash
                  (Some (mkForkChoiceState head safe fin)) false) as Hq.
    pose proof (classifier_busy s h head 0 zeroHash
                  (Some (mkForkChoiceState head safe fin)) false Hhd Hbusy) as Hdecided.
    cbv zeta in Hq.
    destruct (getQuickPayloadStatusIfPossible s head 0 zeroHash
                (Some (mkForkChoiceState head safe fin)) false) as [q s1].
    simpl in Hq, Hdecided. destruct Hq as (_ & Hqueue & Hreplies & _).
    unfold andThen, evictOldBuilders, set_builders.
    repeat (case_match; simpl in *; simplify_eq);
      try (exfalso; apply Hdecided; reflexivity);
      try match goal with
          | Hx : _ <$> ?o = _ |- _ => destruct o eqn:?; simpl in Hx; simplify_eq; simpl
          end;
      split; first [reflexivity | assumption].
Qed.

End BadBlocks.


(** ** The further properties on the concrete inputs *)

(** A Deneb call with data gas on a chain without Cancun. *)
Lemma newPayload_data_gas_presence_checked_witness :
  @newPayload Examples.toyExternals Examples.server0 MoreExamples.denebPayload
    DenebVersion
  = (Fail (InvalidParamsError "dataGasUsed/excessDataGas present before Cancun"),
     Examples.server0).
Proof.
  apply (proj1 (@newPayload_data_gas_presence_checked Examples.toyExternals
                  Examples.server0 MoreExamples.denebPayload DenebVersion eq_refl));
    reflexivity.
Defined.

(** A Capella call after Cancun. *)
Lemma newPayload_before_Deneb_refused_after_Cancun_witness :
  exists msg,
    @newPayload Examples.toyExternals MoreExamples.cancunServer
      MoreExamples.goodPayload CapellaVersion
    = (Fail (InvalidParamsError msg), MoreExamples.cancunServer).
Proof.
  apply (@newPayload_before_Deneb_refused_after_Cancun Examples.toyExternals).
  - discriminate.
  - reflexivity.
Defined.

(** A transaction wrapped as an RLP string, and one that does not
    decode. *)
Lemma newPayload_bad_transactions_are_INVALID_witness :
  @newPayload MoreExamples.pickyExternals Examples.server0
    (MoreExamples.payloadWithTransaction [xb8]) CapellaVersion
  = (Return (mkPayloadStatus InvalidStatus None
               (Some "typed txn marshalled as RLP string"%string) None),
     Examples.server0)
  /\ @newPayload MoreExamples.pickyExternals Examples.server0
       (MoreExamples.payloadWithTransaction []) CapellaVersion
     = (Return (mkPayloadStatus InvalidStatus None
                  (Some "transaction is empty"%string) None),
        Examples.server0).
Proof.
  split.
  - apply (proj1 (@newPayload_bad_transactions_are_INVALID MoreExamples.pickyExternals
                    Examples.server0 (MoreExamples.payloadWithTransaction [xb8])
                    CapellaVersion eq_refl eq_refl)).
    reflexivity.
  - apply (proj2 (@newPayload_bad_transactions_are_INVALID MoreExamples.pickyExternals
                    Examples.server0 (MoreExamples.payloadWithTransaction [])
                    CapellaVersion eq_refl eq_refl) eq_refl
             (Errorf "transaction is empty")).
    reflexivity.
Defined.

(** Block 6 on top of the head goes to the importer, whose reply is the
    answer. *)
Lemma newPayload_importer_round_trip_witness :
  length (queued (@newPayload Examples.toyExternals Examples.server0
                    MoreExamples.goodPayload CapellaVersion).2) = 1%nat
  /\ pendingReplies (@newPayload Examples.toyExternals Examples.server0
                       MoreExamples.goodPayload CapellaVersion).2 = []
  /\ (@newPayload Examples.toyExternals Examples.server0 MoreExamples.goodPayload
        CapellaVersion).1 = Return Examples.validReply.
Proof.
  destruct (@newPayload_importer_round_trip Examples.toyExternals Examples.server0
              MoreExamples.goodPayload CapellaVersion [])
    as (Hq & Hp & Hr); try reflexivity.
  split; [rewrite Hq; reflexivity |]. split; [exact Hp | exact Hr].
Defined.

(** A forkchoice on the head that is not the persisted one goes to the
    importer. *)
Lemma forkchoiceUpdated_importer_round_trip_witness :
  (@forkchoiceUpdated Examples.toyExternals Examples.server0
     MoreExamples.newForkChoice None CapellaVersion).1
  = Return (mkForkChoiceUpdatedResponse Examples.validReply None).
Proof.
  apply (@forkchoiceUpdated_importer_round_trip Examples.toyExternals Examples.server0
           MoreExamples.newForkChoice None CapellaVersion eq_refl).
  left. reflexivity.
Defined.

(** Block 4 sent again after a merge at total difficulty 49. *)
Lemma newPayload_known_canonical_block_is_VALID_witness :
  @getQuickPayloadStatusIfPossible Examples.toyExternals MoreExamples.earlyMergeServer
    Examples.hash4 4 7 None true
  = (Return (Some (mkPayloadStatus ValidStatus (Some Examples.hash4) None None)),
     MoreExamples.earlyMergeServer).
Proof.
  apply (@newPayload_known_canonical_block_is_VALID Examples.toyExternals
           MoreExamples.earlyMergeServer Examples.toyHd 49 Examples.toyTx
           Examples.hash4 4 7 Examples.header4 None (Some 49));
    try reflexivity.
  - simpl. lia.
  - intros p Hp. discriminate Hp.
Defined.

(** An unknown block on top of the head that claims the number 9. *)
Lemma invalid_block_number_is_remembered_witness :
  (@getQuickPayloadStatusIfPossible Examples.toyExternals Examples.server0
     0xBEEF 9 Examples.hash5 None true).1
  = Return (Some (mkPayloadStatus InvalidStatus (Some Examples.hash5)
                    (Some "invalid block number"%string) None))
  /\ badHeader (@getQuickPayloadStatusIfPossible Examples.toyExternals Examples.server0
                  0xBEEF 9 Examples.hash5 None true).2 0xBEEF
     = Some Examples.hash5.
Proof.
  destruct (@invalid_block_number_is_remembered Examples.toyExternals Examples.server0
              Examples.toyHd 50 Examples.toyTx 0xBEEF 9 Examples.hash5 None
              Examples.header5 (Some 50) None zeroHash Examples.persistedForkChoice)
    as (Hfirst & Hbad & _); try reflexivity.
  - simpl. lia.
  - intros hdr Hhdr. discriminate Hhdr.
  - vm_compute. discriminate.
  - split; [exact Hfirst | exact Hbad].
Defined.

(** A forkchoice on block 4, below the head, with attributes. *)
Lemma forkchoiceUpdated_to_ancestor_starts_no_build_witness :
  @forkchoiceUpdated Examples.toyExternals Examples.server0
    MoreExamples.ancestorForkChoice (Some Examples.toyAttributes) CapellaVersion
  = (Return (mkForkChoiceUpdatedResponse
               (mkPayloadStatus ValidStatus (Some Examples.hash4) None None) None),
     Examples.server0).
Proof.
  apply (@forkchoiceUpdated_to_ancestor_starts_no_build Examples.toyExternals
           Examples.server0 Examples.toyHd 50 Examples.toyTx
           MoreExamples.ancestorForkChoice Examples.toyAttributes CapellaVersion
           Examples.header4 Examples.header5 (Some 50) 5);
    try reflexivity.
  - intros (Hhead & _). vm_compute in Hhead. discriminate Hhead.
  - simpl. lia.
  - vm_compute. discriminate.
Defined.


(** The id of the first build retrieves what the builder function yields
    for its parameters. *)
Lemma getPayload_after_forkchoiceUpdated_witness :
  @GetPayloadV2 Examples.server1 (convertPayloadId 1)
  = (Examples.toyBuild
       (buildParameters Examples.persistedForkChoice Examples.toyAttributes
          CapellaVersion (payloadId Examples.server1))
     ≫= payloadResponse).
Proof.
  apply (@getPayload_after_forkchoiceUpdated Examples.toyExternals Examples.server0
           Examples.server1 Examples.persistedForkChoice Examples.toyAttributes
           CapellaVersion Examples.buildAnswer (convertPayloadId 1)).
  - apply reachable_new.
  - vm_compute. reflexivity.
  - reflexivity.
Defined.

(** The first build on the fresh server takes the id 1. *)
Lemma payload_ids_increase_until_wrap_witness :
  ids_below Examples.server1
  /\ (payloadId Examples.server1 = payloadId Examples.server0
      /\ builders Examples.server1 = builders Examples.server0
      \/ payloadId Examples.server1 = payloadId Examples.server0 + 1
         /\ builders Examples.server0 !! payloadId Examples.server1 = None
         /\ is_Some (builders Examples.server1 !! payloadId Examples.server1)
         /\ forall k, is_Some (builders Examples.server1 !! k) ->
              k = payloadId Examples.server1
              \/ is_Some (builders Examples.server0 !! k)).
Proof.
  apply (@payload_ids_increase_until_wrap Examples.toyExternals Examples.server0
           Examples.persistedForkChoice (Some Examples.toyAttributes) CapellaVersion).
  - split; [simpl; unfold two64; lia |].
    intros k [b Hb]. simpl in Hb. rewrite lookup_empty in Hb. discriminate Hb.
  - simpl. unfold two64. lia.
Defined.

(** The fresh server knows no payload id 7. *)
Lemma getPayload_unissued_id_is_unknown_witness :
  getPayload Examples.server0 7 = Fail UnknownPayloadErr
  /\ GetPayloadV2 Examples.server0 (convertPayloadId 7) = Fail UnknownPayloadErr.
Proof.
  apply (getPayload_unissued_id_is_unknown Examples.server0 50 7).
  - split; [simpl; unfold two64; lia |].
    intros k [b Hb]. simpl in Hb. rewrite lookup_empty in Hb. discriminate Hb.
  - reflexivity.
  - reflexivity.
  - unfold two64. lia.
  - right. simpl. lia.
Defined.

(** A build on the full registry with the ids 1 to 128: id 1 is gone. *)
Lemma new_build_evicts_smallest_id_witness :
  @GetPayloadV2 MoreExamples.fullServer' (convertPayloadId 1) = Fail UnknownPayloadErr
  /\ Z.of_nat (size (builders MoreExamples.fullServer')) = MaxBuilders.
Proof.
  destruct (@new_build_evicts_smallest_id Examples.toyExternals Examples.fullServer
              MoreExamples.fullServer' Examples.persistedForkChoice
              (Some Examples.toyAttributes) CapellaVersion MoreExamples.fullAnswer 1
              (tail (SortedKeys (builders Examples.fullServer))))
    as (Hgone & _ & _ & Hsize).
  - split; [simpl; unfold two64; lia |].
    intros k [b Hb]. simpl in Hb. unfold Examples.registryUpTo in Hb.
    apply elem_of_list_to_map_2 in Hb.
    apply list_elem_of_fmap in Hb as (i & Heq & Hi).
    injection Heq as -> _. apply elem_of_seq in Hi.
    change (payloadId Examples.fullServer) with 128. lia.
  - simpl. unfold two64. lia.
  - vm_compute. reflexivity.
  - vm_compute. reflexivity.
  - unfold MoreExamples.fullServer'.
    rewrite (surjective_pairing
               (@forkchoiceUpdated Examples.toyExternals Examples.fullServer
                  Examples.persistedForkChoice (Some Examples.toyAttributes)
                  CapellaVersion)) at 1.
    f_equal; vm_compute; reflexivity.
  - vm_compute. discriminate.
  - split; [exact Hgone | exact Hsize].
Defined.

(** A block with one blob transaction that carries two blobs. *)
Lemma collectBlobs_one_entry_per_versioned_hash_witness :
  length (bundle_Commitments MoreExamples.blobBundle) = 2%nat
  /\ length (bundle_Proofs MoreExamples.blobBundle) = 2%nat
  /\ length (bundle_Blobs MoreExamples.blobBundle) = 2%nat.
Proof.
  apply (collectBlobs_one_entry_per_versioned_hash [MoreExamples.blobTransaction]
           MoreExamples.blobBundle).
  reflexivity.
Defined.

(** The envelope of the sealed block 6, read back under Capella. *)
Lemma payloadHeader_of_payloadResponse_witness :
  payloadResponse MoreExamples.sealedBlock = Return MoreExamples.sealedResponse
  /\ @payloadHeader Examples.toyExternals
       (gpr_ExecutionPayload MoreExamples.sealedResponse) CapellaVersion
     = MoreExamples.sealedHeader6
  /\ @Header_Hash Examples.toyExternals
       (@payloadHeader Examples.toyExternals
          (gpr_ExecutionPayload MoreExamples.sealedResponse) CapellaVersion)
     = ep_BlockHash (gpr_ExecutionPayload MoreExamples.sealedResponse).
Proof.
  assert (Hresp : payloadResponse MoreExamples.sealedBlock
                  = Return MoreExamples.sealedResponse) by (vm_compute; reflexivity).
  split; [exact Hresp |].
  destruct (@payloadHeader_of_payloadResponse Examples.toyExternals
              MoreExamples.sealedBlock MoreExamples.sealedResponse CapellaVersion Hresp)
    as [Hheader Hhash].
  - repeat split; first [reflexivity | vm_compute; discriminate].
  - left. reflexivity.
  - right. reflexivity.
  - split; [exact Hheader | apply Hhash; reflexivity].
Defined.

(** The direct client on block 6 with a wrong block hash: invalid, with
    the validation error of the server as the error. *)
Lemma NewPayload_invalid_comes_with_error_witness :
  @ExecutionClientDirect.NewPayload Examples.toyExternals Examples.server0
    (Some (MoreExamples.toyEth1Block (Some CapellaVersion)))
  = (Return (true, Some (Errorf "invalid block hash")), Examples.server0)
  /\ (true = true -> is_Some (Some (Errorf "invalid block hash"))).
Proof.
  assert (Hcall : @ExecutionClientDirect.NewPayload Examples.toyExternals
                    Examples.server0
                    (Some (MoreExamples.toyEth1Block (Some CapellaVersion)))
                  = (Return (true, Some (Errorf "invalid block hash")),
                     Examples.server0)) by (vm_compute; reflexivity).
  split; [exact Hcall |].
  exact (proj1 (@NewPayload_invalid_comes_with_error Examples.toyExternals
                  Examples.server0 Examples.server0
                  (Some (MoreExamples.toyEth1Block (Some CapellaVersion)))
                  true (Some (Errorf "invalid block hash")) Hcall)).
Defined.

(** A Deneb block sent to a server of a chain without Cancun. *)
Lemma NewPayload_version_must_agree_with_Cancun_witness :
  exists msg,
    @ExecutionClientDirect.NewPayload Examples.toyExternals Examples.server0
      (Some (MoreExamples.toyEth1Block (Some DenebVersion)))
    = (Return (false, Some (Errorf (newPayloadFailed ++ msg))), Examples.server0).
Proof.
  apply (@NewPayload_version_must_agree_with_Cancun Examples.toyExternals
           Examples.server0 (MoreExamples.toyEth1Block (Some DenebVersion))
           DenebVersion).
  - reflexivity.
  - vm_compute. discriminate.
Defined.

(** Block 4 of the toy store, found by hash 7004, by number 4, and by
    both. *)
Lemma canonical_block_by_hash_or_number_witness :
  @Eth1.GetHeader MoreExamples.toyConversions MoreExamples.toyModule
    (Some (Eth1.mkGetSegmentRequest (Some Examples.hash4) None))
  = @Eth1.GetHeader MoreExamples.toyConversions MoreExamples.toyModule
      (Some (Eth1.mkGetSegmentRequest (Some Examples.hash4) (Some 4)))
  /\ @Eth1.GetHeader MoreExamples.toyConversions MoreExamples.toyModule
       (Some (Eth1.mkGetSegmentRequest None (Some 4)))
     = @Eth1.GetHeader MoreExamples.toyConversions MoreExamples.toyModule
         (Some (Eth1.mkGetSegmentRequest (Some Examples.hash4) (Some 4)))
  /\ @Eth1.GetBody MoreExamples.toyConversions MoreExamples.toyModule
       (Some (Eth1.mkGetSegmentRequest (Some Examples.hash4) None))
     = @Eth1.GetBody MoreExamples.toyConversions MoreExamples.toyModule
         (Some (Eth1.mkGetSegmentRequest (Some Examples.hash4) (Some 4)))
  /\ @Eth1.GetBody MoreExamples.toyConversions MoreExamples.toyModule
       (Some (Eth1.mkGetSegmentRequest None (Some 4)))
     = @Eth1.GetBody MoreExamples.toyConversions MoreExamples.toyModule
         (Some (Eth1.mkGetSegmentRequest (Some Examples.hash4) (Some 4))).
Proof.
  apply (@canonical_block_by_hash_or_number MoreExamples.toyConversions
           MoreExamples.toyModule Examples.hash4 4); reflexivity.
Defined.

(** Two unknown blocks on top of the bad block 0xBEEF. *)
Lemma bad_block_taints_descendants_witness :
  Forall (fun answer =>
            answer = Return (Some (mkPayloadStatus InvalidStatus (Some Examples.hash5)
                                     None None)))
    (@classifyChain Examples.toyExternals MoreExamples.taintedServer 0xBEEF
       MoreExamples.taintedChain).1
  /\ badHeader (@classifyChain Examples.toyExternals MoreExamples.taintedServer 0xBEEF
                  MoreExamples.taintedChain).2 0xBEF1
     = Some Examples.hash5
  /\ queued (@classifyChain Examples.toyExternals MoreExamples.taintedServer 0xBEEF
               MoreExamples.taintedChain).2 = [].
Proof.
  destruct (@bad_block_taints_descendants Examples.toyExternals
              MoreExamples.taintedServer MoreExamples.taintedHd 50 Examples.toyTx
              0xBEEF Examples.hash5 MoreExamples.taintedChain)
    as (Hall & _ & Hmem & Hq & _); try reflexivity.
  - intros x [-> | Hx]; [split; reflexivity |].
    simpl in Hx.
    repeat (apply elem_of_cons in Hx as [-> | Hx]; [split; reflexivity |]).
    apply elem_of_nil in Hx. contradiction.
  - intros x Hx. simpl in Hx.
    repeat (apply elem_of_cons in Hx as [-> | Hx]; [left; reflexivity |]).
    apply elem_of_nil in Hx. contradiction.
  - split; [exact Hall |]. split; [| exact Hq].
    apply Hmem. simpl. apply list_elem_of_further, list_elem_of_here.
Defined.

(** Block 6 and a new forkchoice sent to the busy server. *)
Lemma busy_stage_loop_gets_no_request_witness :
  queued (@newPayload Examples.toyExternals MoreExamples.busyServer
            MoreExamples.goodPayload CapellaVersion).2 = []
  /\ queued (@forkchoiceUpdated Examples.toyExternals MoreExamples.busyServer
               MoreExamples.newForkChoice None CapellaVersion).2 = [].
Proof.
  destruct (@busy_stage_loop_gets_no_request Examples.toyExternals
              MoreExamples.busyServer MoreExamples.busyHd eq_refl eq_refl)
    as [Hnew Hfcu].
  split.
  - exact (proj1 (Hnew MoreExamples.goodPayload CapellaVersion)).
  - exact (proj1 (Hfcu MoreExamples.newForkChoice None CapellaVersion)).
Defined.
